(** * elk: the quality-gated ensemble pipeline of [elk/ensemble.py]

    A shallow embedding of the class [EnsembleLC] (constructor, quality
    gates, scattered-light detector, persistence, reload and access by
    index) and of the flux-to-magnitude conversion of [elk/utils.py],
    together with the properties its specification states.

    Conventions.
    - A Python call either returns a value or raises: [outcome A].
    - A method mutates the object and the outside world (file system,
      terminal, downloads) and may raise half-way; what it had mutated by
      then stays mutated: [ST S A := S -> S * outcome A].
    - Collaborators that are not part of [ensemble.py] (lightkurve, scipy,
      astropy, matplotlib, the adapter of [elk/lightcurve.py]) are Section
      variables or events of the trace.
    - Pixel values and plane coefficients are finite binary64 numbers; each
      of them is a rational, and comparing, negating and taking the larger
      of two of them is exact, so they are carried as [Q].
    - Where the code divides, multiplies and adds floats ([flux_to_mag]),
      the numbers are the binary64 numbers of [PrimFloat], with their
      rounding. *)

From Stdlib Require Import Floats.
From Stdlib Require Import Ascii QArith Qabs.
From stdpp Require Import gmap strings list fin_maps pretty.

Close Scope Q_scope.

(** ** Exceptions and outcomes *)

Inductive exn : Type :=
  | AssertionError
  | TypeError
  | AttributeError
  | KeyError (keyword : string)
  | ValueError
  | IndexError
  | ZeroDivisionError
  | OSError
  | EOFError.

Inductive outcome (A : Type) : Type :=
  | Val (a : A)
  | Raise (e : exn).
Arguments Val {A} a.
Arguments Raise {A} e.

#[global] Instance outcome_ret : MRet outcome := fun _ a => Val a.
#[global] Instance outcome_bind : MBind outcome := fun _ _ f m =>
  match m with
  | Val a => f a
  | Raise e => Raise e
  end.

Definition returns {A} (m : outcome A) : Prop := exists a, m = Val a.

(** [traverse f l]: a Python loop that calls [f] on every element in turn
    and stops at the first exception. *)
Fixpoint traverse {A B} (f : A -> outcome B) (l : list A) : outcome (list B) :=
  match l with
  | [] => Val []
  | x :: xs => y ← f x; ys ← traverse f xs; Val (y :: ys)
  end.

(** ** Numbers *)

Definition Qgtb (x y : Q) : bool := (Qnum y * QDen x <? Qnum x * QDen y)%Z.

(** The builtin [max]: the first element is the running maximum and a later
    one replaces it when it is strictly larger; an empty argument raises. *)
Definition py_max (l : list Q) : outcome Q :=
  match l with
  | [] => Raise ValueError
  | x :: xs => Val (foldl (fun m y => if Qgtb y m then y else m) x xs)
  end.

Definition py_min (l : list Q) : outcome Q :=
  match l with
  | [] => Raise ValueError
  | x :: xs => Val (foldl (fun m y => if Qgtb m y then y else m) x xs)
  end.

(** [np.arange(0, stop, step)] on integers: [ceil(stop / step)] values
    [0, step, 2*step, ...]; none when that count is not positive; a zero
    step raises.  The values are used as indices, hence [nat]. *)
Definition arange (stop step : Z) : outcome (list nat) :=
  if (step =? 0)%Z then Raise ZeroDivisionError
  else Val (map (fun k => Z.to_nat (Z.of_nat k * step))
                (seq 0 (Z.to_nat (- (- stop / step))))).

(** The literals of the verdict.  [2.5] is a binary64 number; [0.02] is
    not, and the literal denotes the nearest one, [0x147AE147AE147B / 2^58]. *)
Definition lit_2_5 : Q := 5 # 2.
Definition lit_0_02 : Q := 5764607523034235 # 288230376151711744.

(** ** The scattered-light detector *)

Definition frame : Type := list (list Q).
Definition coefficients : Type := (Q * Q * Q)%type.

(** [np.meshgrid(np.arange(0, n, 1), np.arange(0, n, 1))], both flattened:
    [X] varies along a row, [Y] is constant on it. *)
Definition meshgrid_XX (n : nat) : list Q :=
  flat_map (fun _ => map (fun c => inject_Z (Z.of_nat c)) (seq 0 n)) (seq 0 n).
Definition meshgrid_YY (n : nat) : list Q :=
  flat_map (fun r => replicate n (inject_Z (Z.of_nat r))) (seq 0 n).

(** [np.c_[XX, YY, np.ones(XX.shape)]] *)
Definition design_matrix (cutout_size : Z) : list coefficients :=
  let n := Z.to_nat cutout_size in
  zip_with (fun x y => (x, y, 1%Q)) (meshgrid_XX n) (meshgrid_YY n).

Section Detector.
(** [scipy.linalg.lstsq(A, b)], first component: the coefficients of the
    least-squares solution; it raises on operands it rejects. *)
Variable lstsq : list coefficients -> list Q -> outcome coefficients.

Definition fit_plane (cutout_size : Z) (data_flux_values : list frame) (t : nat)
  : outcome coefficients :=
  match data_flux_values !! t with
  | None => Raise IndexError
  | Some data => lstsq (design_matrix cutout_size) (concat data)
  end.

(** [EnsembleLC.scattered_light], on the fields of [self] it reads.
    [residual] is [(quality_tpfs - full_model_Normalized).flux.value], one
    frame per cadence, so [len(quality_tpfs)] is its length. *)
Definition scattered_light (debug : bool) (cutout_size scattered_light_frequency : Z)
    (residual : list frame) : outcome bool :=
  if debug then Val false
  else
    time_steps ← arange (Z.of_nat (length residual)) scattered_light_frequency;
    coefficients_array ← traverse (fit_plane cutout_size residual) time_steps;
    mxc ← py_max (map (fun C => Qabs C.1.1) coefficients_array);
    myc ← py_max (map (fun C => Qabs C.1.2) coefficients_array);
    mzc ← py_max (map (fun C => Qabs C.2) coefficients_array);
    Val (Qgtb mzc lit_2_5 || (Qgtb mxc lit_0_02 && Qgtb myc lit_0_02)).
End Detector.

(** ** Strings and paths *)

Definition upper_ascii (c : Ascii.ascii) : Ascii.ascii :=
  let n := Ascii.nat_of_ascii c in
  if (97 <=? n) && (n <=? 122) then Ascii.ascii_of_nat (n - 32) else c.

Fixpoint upper (s : string) : string :=
  match s with
  | EmptyString => EmptyString
  | String c r => String (upper_ascii c) (upper r)
  end.

Fixpoint lstrip (s : string) : string :=
  match s with
  | String c r => if Ascii.is_space c then lstrip r else s
  | EmptyString => EmptyString
  end.

Definition strip (s : string) : string :=
  String.rev (lstrip (String.rev (lstrip s))).

Definition startswith_sep (s : string) : bool :=
  match s with
  | String "/"%char _ => true
  | _ => false
  end.

Fixpoint endswith_sep (s : string) : bool :=
  match s with
  | EmptyString => false
  | String c EmptyString => if Ascii.ascii_dec c "/"%char then true else false
  | String _ r => endswith_sep r
  end.

(** One round of the loop of [posixpath.join]. *)
Definition join_component (path b : string) : string :=
  if startswith_sep b then b
  else if bool_decide (path = "") || endswith_sep path then path +:+ b
  else path +:+ "/" +:+ b.

(** [os.path.join(a, *p)]: [os.fspath] rejects [None]. *)
Definition path_join (a : option string) (p : list string) : outcome string :=
  match a with
  | None => Raise TypeError
  | Some a => Val (foldl join_component a p)
  end.

(** [s.endswith(suffix)] *)
Fixpoint endswith (s suffix : string) : bool :=
  if String.eqb s suffix then true
  else match s with
       | EmptyString => false
       | String _ r => endswith r suffix
       end.

Fixpoint has_sep (s : string) : bool :=
  match s with
  | EmptyString => false
  | String c r => if Ascii.ascii_dec c "/"%char then true else has_sep r
  end.

(** What is left of [s] after the prefix [p], when [s] starts with it. *)
Fixpoint strip_prefix (p s : string) : option string :=
  match p, s with
  | EmptyString, _ => Some s
  | String a p', String b s' =>
      if Ascii.ascii_dec a b then strip_prefix p' s' else None
  | String _ _, EmptyString => None
  end.

(** The name under which [path] is listed in the folder [dir], when it
    lies directly in it: [path] is [os.path.join(dir, name)] and [name]
    has no separator. *)
Definition entry_name (dir path : string) : option string :=
  match strip_prefix (join_component dir "") path with
  | Some name => if bool_decide (name = "") || has_sep name then None else Some name
  | None => None
  end.

Fixpoint lstrip_sep (s : string) : string :=
  match s with
  | String c r => if Ascii.ascii_dec c "/"%char then lstrip_sep r else s
  | EmptyString => EmptyString
  end.

(** On a reversed path: the part up to the last separator of the path,
    the separator included. *)
Fixpoint drop_name (r : string) : string :=
  match r with
  | EmptyString => EmptyString
  | String c r' => if Ascii.ascii_dec c "/"%char then r else drop_name r'
  end.

(** [os.path.dirname]: the head up to the last separator, without its
    trailing separators unless it consists of separators only. *)
Definition dirname (path : string) : string :=
  let head := drop_name (String.rev path) in
  match lstrip_sep head with
  | EmptyString => String.rev head
  | stripped => String.rev stripped
  end.

(** [str(x)] for a value that is a string or [None]. *)
Definition str (x : option string) : string :=
  match x with
  | Some s => s
  | None => "None"
  end.

(** ** FITS headers, tables and files (astropy, consumed)

    What the program relies on: a header is an ordered list of cards; a
    keyword is compared after [Card.normalize_keyword] (blanks stripped,
    upper case); assigning to a keyword that has a card replaces its value
    and otherwise appends a card; reading a keyword that has no card raises
    [KeyError].  A file is its primary header followed by its table HDUs, so
    HDU [0] is the primary one and HDU [j + 1] the [j]-th table. *)

Inductive pyval : Type :=
  | PNone
  | PStr (s : string)
  | PInt (z : Z)
  | PFloat (q : Q)
  | PBool (b : bool).

Definition Header : Type := list (string * pyval).

Definition normalize_keyword (keyword : string) : string := upper (strip keyword).

Fixpoint header_update (k : string) (v : pyval) (h : Header) : Header :=
  match h with
  | [] => [(k, v)]
  | (k', v') :: r => if bool_decide (k' = k) then (k, v) :: r else (k', v') :: header_update k v r
  end.

Definition header_set (keyword : string) (v : pyval) (h : Header) : Header :=
  header_update (normalize_keyword keyword) v h.

Fixpoint header_find (k : string) (h : Header) : option pyval :=
  match h with
  | [] => None
  | (k', v) :: r => if bool_decide (k' = k) then Some v else header_find k r
  end.

Definition header_get (h : Header) (keyword : string) : outcome pyval :=
  match header_find (normalize_keyword keyword) h with
  | Some v => Val v
  | None => Raise (KeyError (normalize_keyword keyword))
  end.

(** A table: its columns in order, each with its name. *)
Definition Table : Type := list (string * list Q).

Fixpoint column (t : Table) (name : string) : outcome (list Q) :=
  match t with
  | [] => Raise (KeyError name)
  | (n, c) :: r => if bool_decide (n = name) then Val c else column r name
  end.

Definition Qeqb (x y : Q) : bool := (Qnum x * QDen y =? Qnum y * QDen x)%Z.

(** [if col == v:] on a column: the comparison is element-wise and the truth
    value of its result is that of its single element; with several
    elements it is ambiguous and raises, and so it does with none in the
    numpy releases that no longer read it as false. *)
Definition column_equals (col : list Q) (v : Q) : outcome bool :=
  match col with
  | [x] => Val (Qeqb x v)
  | _ => Raise ValueError
  end.

Record HDUList : Type := {
  primary : Header;
  tables : list Table;
}.

(** ** The adapter of [elk/lightcurve.py] and the slots of [self.lcs] *)

(** Modelled from the spec: the corrected-lightcurve adapter
    ([TESSCutLightcurve] of [elk/lightcurve.py], which is not part of the
    sources at hand).  The spec gives it an edge-proximity test, a
    correction procedure that populates the quality-checked cube and the
    normalized full model, the corrected series (time, flux) and a
    record representation for persistence; here each is the value the
    adapter answers with. *)
Record Adapter : Type := {
  near_edge : bool;
  residual_flux : list frame;
  corrected_time : list Q;
  corrected_flux : list Q;
  adapter_hdu : Table;
}.

(** Modelled from the spec: [SimpleCorrectedLightcurve(fits_path, hdu_index)]
    of [elk/lightcurve.py], the lightweight wrapper of one stored record that
    defers reading the table until it is accessed. *)
Inductive lightcurve : Type :=
  | TESSCut (a : Adapter)
  | SimpleCorrected (fits_path : string) (hdu_index : nat).

(** ** The object

    The attributes of [self].  [save_lcs] and [save_figures] are the two
    entries of the dictionary [self.save].  [tess_search_results] holds the
    number of search results, the only thing the program asks of the list
    besides its elements' [download]; [None] in the last two fields is an
    attribute that was never assigned. *)

Record EnsembleLC : Type := {
  save_lcs : bool;
  save_figures : bool;
  lcs : list (option lightcurve);
  output_path : option string;
  radius : option Q;
  cluster_age : option Q;
  callable : option string;
  cluster_name : option string;
  location : option string;
  percentile : Z;
  cutout_size : Z;
  scattered_light_frequency : Z;
  n_pca : Z;
  verbose : bool;
  no_lk_cache : bool;
  debug : bool;
  n_failed_download : nat;
  n_near_edge : nat;
  n_scattered_light : nat;
  n_good_obs : nat;
  sectors_available : option nat;
  tess_search_results : option nat;
}.

(** Assignments to one attribute. *)
Definition set_lcs (v : list (option lightcurve)) (s : EnsembleLC) : EnsembleLC :=
  {| save_lcs := save_lcs s; save_figures := save_figures s; lcs := v;
     output_path := output_path s; radius := radius s; cluster_age := cluster_age s;
     callable := callable s; cluster_name := cluster_name s; location := location s;
     percentile := percentile s; cutout_size := cutout_size s;
     scattered_light_frequency := scattered_light_frequency s; n_pca := n_pca s;
     verbose := verbose s; no_lk_cache := no_lk_cache s; debug := debug s;
     n_failed_download := n_failed_download s; n_near_edge := n_near_edge s;
     n_scattered_light := n_scattered_light s; n_good_obs := n_good_obs s;
     sectors_available := sectors_available s;
     tess_search_results := tess_search_results s |}.

Definition set_n_failed_download (v : nat) (s : EnsembleLC) : EnsembleLC :=
  {| save_lcs := save_lcs s; save_figures := save_figures s; lcs := lcs s;
     output_path := output_path s; radius := radius s; cluster_age := cluster_age s;
     callable := callable s; cluster_name := cluster_name s; location := location s;
     percentile := percentile s; cutout_size := cutout_size s;
     scattered_light_frequency := scattered_light_frequency s; n_pca := n_pca s;
     verbose := verbose s; no_lk_cache := no_lk_cache s; debug := debug s;
     n_failed_download := v; n_near_edge := n_near_edge s;
     n_scattered_light := n_scattered_light s; n_good_obs := n_good_obs s;
     sectors_available := sectors_available s;
     tess_search_results := tess_search_results s |}.

Definition set_n_near_edge (v : nat) (s : EnsembleLC) : EnsembleLC :=
  {| save_lcs := save_lcs s; save_figures := save_figures s; lcs := lcs s;
     output_path := output_path s; radius := radius s; cluster_age := cluster_age s;
     callable := callable s; cluster_name := cluster_name s; location := location s;
     percentile := percentile s; cutout_size := cutout_size s;
     scattered_light_frequency := scattered_light_frequency s; n_pca := n_pca s;
     verbose := verbose s; no_lk_cache := no_lk_cache s; debug := debug s;
     n_failed_download := n_failed_download s; n_near_edge := v;
     n_scattered_light := n_scattered_light s; n_good_obs := n_good_obs s;
     sectors_available := sectors_available s;
     tess_search_results := tess_search_results s |}.

Definition set_n_scattered_light (v : nat) (s : EnsembleLC) : EnsembleLC :=
  {| save_lcs := save_lcs s; save_figures := save_figures s; lcs := lcs s;
     output_path := output_path s; radius := radius s; cluster_age := cluster_age s;
     callable := callable s; cluster_name := cluster_name s; location := location s;
     percentile := percentile s; cutout_size := cutout_size s;
     scattered_light_frequency := scattered_light_frequency s; n_pca := n_pca s;
     verbose := verbose s; no_lk_cache := no_lk_cache s; debug := debug s;
     n_failed_download := n_failed_download s; n_near_edge := n_near_edge s;
     n_scattered_light := v; n_good_obs := n_good_obs s;
     sectors_available := sectors_available s;
     tess_search_results := tess_search_results s |}.

Definition set_n_good_obs (v : nat) (s : EnsembleLC) : EnsembleLC :=
  {| save_lcs := save_lcs s; save_figures := save_figures s; lcs := lcs s;
     output_path := output_path s; radius := radius s; cluster_age := cluster_age s;
     callable := callable s; cluster_name := cluster_name s; location := location s;
     percentile := percentile s; cutout_size := cutout_size s;
     scattered_light_frequency := scattered_light_frequency s; n_pca := n_pca s;
     verbose := verbose s; no_lk_cache := no_lk_cache s; debug := debug s;
     n_failed_download := n_failed_download s; n_near_edge := n_near_edge s;
     n_scattered_light := n_scattered_light s; n_good_obs := v;
     sectors_available := sectors_available s;
     tess_search_results := tess_search_results s |}.

Definition set_sectors_available (v : option nat) (s : EnsembleLC) : EnsembleLC :=
  {| save_lcs := save_lcs s; save_figures := save_figures s; lcs := lcs s;
     output_path := output_path s; radius := radius s; cluster_age := cluster_age s;
     callable := callable s; cluster_name := cluster_name s; location := location s;
     percentile := percentile s; cutout_size := cutout_size s;
     scattered_light_frequency := scattered_light_frequency s; n_pca := n_pca s;
     verbose := verbose s; no_lk_cache := no_lk_cache s; debug := debug s;
     n_failed_download := n_failed_download s; n_near_edge := n_near_edge s;
     n_scattered_light := n_scattered_light s; n_good_obs := n_good_obs s;
     sectors_available := v; tess_search_results := tess_search_results s |}.

Definition set_tess_search_results (v : option nat) (s : EnsembleLC) : EnsembleLC :=
  {| save_lcs := save_lcs s; save_figures := save_figures s; lcs := lcs s;
     output_path := output_path s; radius := radius s; cluster_age := cluster_age s;
     callable := callable s; cluster_name := cluster_name s; location := location s;
     percentile := percentile s; cutout_size := cutout_size s;
     scattered_light_frequency := scattered_light_frequency s; n_pca := n_pca s;
     verbose := verbose s; no_lk_cache := no_lk_cache s; debug := debug s;
     n_failed_download := n_failed_download s; n_near_edge := n_near_edge s;
     n_scattered_light := n_scattered_light s; n_good_obs := n_good_obs s;
     sectors_available := sectors_available s; tess_search_results := v |}.

(** ** The outside world *)

Inductive event : Type :=
  | Print (msg : string)
  | Input (prompt : string)
  | Mkdir (path : string)
  | ClearCache (dir : string)
  | SearchTesscut (target : option string)
  | Download (ind : nat) (size : Z) (download_dir : option string)
  | NearEdge (ind : nat)
  | CorrectLC (ind : nat)
  | ScatteredLight (ind : nat)
  | Figure (title : string)
  | SaveFig (path : string)
  | ShowFig
  | CloseFig
  | WriteTo (path : string).

(** The FITS files and the folders on disk, by path; what is still to be
    read from the terminal; and what was done so far.  What lightkurve
    downloads is an event of the trace and is not added to the files:
    the files are those that were there before, less those that were
    removed, and the artifacts that were written. *)
Record World : Type := {
  files : gmap string HDUList;
  dirs : gset string;
  stdin : list string;
  trace : list event;
}.

Definition set_files (v : gmap string HDUList) (w : World) : World :=
  {| files := v; dirs := dirs w; stdin := stdin w; trace := trace w |}.
Definition set_dirs (v : gset string) (w : World) : World :=
  {| files := files w; dirs := v; stdin := stdin w; trace := trace w |}.
Definition set_stdin (v : list string) (w : World) : World :=
  {| files := files w; dirs := dirs w; stdin := v; trace := trace w |}.
Definition set_trace (v : list event) (w : World) : World :=
  {| files := files w; dirs := dirs w; stdin := stdin w; trace := v |}.

(** [os.path.exists] *)
Definition path_exists (w : World) (path : string) : bool :=
  bool_decide (path ∈ dirs w) || bool_decide (is_Some (files w !! path)).

(** ** Computations on the world, and on an object in the world *)

Definition ST (S A : Type) : Type := S -> S * outcome A.

#[global] Instance ST_ret S : MRet (ST S) := fun _ a s => (s, Val a).
#[global] Instance ST_bind S : MBind (ST S) := fun _ _ f m s =>
  match m s with
  | (s', Val a) => f a s'
  | (s', Raise e) => (s', Raise e)
  end.

Definition raise {S A} (e : exn) : ST S A := fun s => (s, Raise e).
Definition lift {S A} (o : outcome A) : ST S A := fun s => (s, o).
Definition when {S} (b : bool) (m : ST S unit) : ST S unit :=
  if b then m else mret tt.

(** On the world alone. *)
Definition get_world : ST World World := fun w => (w, Val w).
Definition emit (e : event) : ST World unit :=
  fun w => (set_trace (trace w ++ [e]) w, Val tt).
Definition print (msg : string) : ST World unit := emit (Print msg).

(** [input(prompt)] *)
Definition input (prompt : string) : ST World string := fun w =>
  match stdin w with
  | [] => (w, Raise EOFError)
  | line :: rest => (set_trace (trace w ++ [Input prompt]) (set_stdin rest w), Val line)
  end.

(** [os.mkdir], [os.makedirs] *)
Definition mkdir (path : string) : ST World unit := fun w =>
  if path_exists w path then (w, Raise OSError)
  else (set_trace (trace w ++ [Mkdir path]) (set_dirs ({[path]} ∪ dirs w) w), Val tt).

(** [os.path.isdir]; the working folder (the empty name) and the root
    are always there. *)
Definition isdir (w : World) (path : string) : bool :=
  bool_decide (lstrip_sep path = "") || bool_decide (path ∈ dirs w).

(** [os.listdir(dir)]: the names of the entries of a folder, here the
    files before the folders (Python promises no order); a missing folder
    raises [FileNotFoundError] and a file [NotADirectoryError], both
    [OSError]s. *)
Definition listdir (dir : string) : ST World (list string) := fun w =>
  if bool_decide (dir ∈ dirs w)
  then (w, Val (omap (entry_name dir) ((map_to_list (files w)).*1 ++ elements (dirs w))))
  else (w, Raise OSError).

(** [os.remove(path)]: removes a file; a folder raises
    [IsADirectoryError] and a missing path [FileNotFoundError], both
    [OSError]s. *)
Definition remove (path : string) : ST World unit := fun w =>
  if bool_decide (path ∈ dirs w) then (w, Raise OSError)
  else match files w !! path with
       | Some _ => (set_files (delete path (files w)) w, Val tt)
       | None => (w, Raise OSError)
       end.

(** [fits.open(filepath)] *)
Definition fits_open (filepath : string) : ST World HDUList := fun w =>
  match files w !! filepath with
  | Some hdul => (w, Val hdul)
  | None => (w, Raise OSError)
  end.

(** [Table.read(path, hdu=k)]: the table in HDU [k] of the file; a missing
    file, the primary HDU, and an HDU that the file does not have, raise. *)
Definition Table_read (path : string) (hdu : nat) : ST World Table := fun w =>
  match files w !! path with
  | None => (w, Raise OSError)
  | Some hdul =>
      match hdu with
      | 0 => (w, Raise ValueError)
      | S j =>
          match tables hdul !! j with
          | Some t => (w, Val t)
          | None => (w, Raise ValueError)
          end
      end
  end.

(** [hdul.writeto(path)]: refuses to overwrite, and opens the file for
    writing, which raises [FileNotFoundError] (an [OSError]) when the
    folder it is to lie in does not exist. *)
Definition writeto (hdul : HDUList) (path : string) : ST World unit := fun w =>
  if path_exists w path then (w, Raise OSError)
  else if isdir w (dirname path)
  then (set_trace (trace w ++ [WriteTo path]) (set_files (<[path := hdul]> (files w)) w), Val tt)
  else (w, Raise OSError).

(** On an object in the world. *)
Record State : Type := {
  self : EnsembleLC;
  world : World;
}.

Definition get_self : ST State EnsembleLC := fun st => (st, Val (self st)).
Definition modify_self (f : EnsembleLC -> EnsembleLC) : ST State unit :=
  fun st => ({| self := f (self st); world := world st |}, Val tt).
Definition in_world {A} (m : ST World A) : ST State A := fun st =>
  let (w, r) := m (world st) in ({| self := self st; world := w |}, r).

(** ** The constructor's arguments *)

(** A radius or an age: a bare number (or [None]), or a quantity that has a
    [unit] attribute. *)
Inductive quantity : Type :=
  | Bare (v : option Q)
  | WithUnit (v : Q) (unit : string).

Record InitArgs : Type := {
  arg_radius : quantity;
  arg_cluster_age : quantity;
  arg_output_path : option string;
  arg_cluster_name : option string;
  arg_location : option string;
  arg_percentile : Z;
  arg_cutout_size : Z;
  arg_scattered_light_frequency : Z;
  arg_n_pca : Z;
  arg_verbose : bool;
  arg_no_lk_cache : bool;
  arg_debug : bool;
}.

Definition lower_ascii (c : Ascii.ascii) : Ascii.ascii :=
  let n := Ascii.nat_of_ascii c in
  if (65 <=? n) && (n <=? 90) then Ascii.ascii_of_nat (n + 32) else c.

Fixpoint lower (s : string) : string :=
  match s with
  | EmptyString => EmptyString
  | String c r => String (lower_ascii c) (lower r)
  end.

Definition is_none {A} (o : option A) : bool :=
  match o with
  | None => true
  | Some _ => false
  end.

(** What the body of a [for] loop ends with: it falls through or meets
    [continue], or it meets [return]. *)
Inductive signal : Type :=
  | Continue
  | Return.

Fixpoint for_each {S} (inds : list nat) (body : nat -> ST S signal) : ST S signal :=
  match inds with
  | [] => mret Continue
  | i :: rest =>
      sig ← body i;
      match sig with
      | Continue => for_each rest body
      | Return => mret Return
      end
  end.

(** A [for] loop whose body has neither [continue] nor [return]. *)
Fixpoint for_in {S A} (l : list A) (body : A -> ST S unit) : ST S unit :=
  match l with
  | [] => mret tt
  | a :: rest => body a;; for_in rest body
  end.

(** A figure handle of matplotlib. *)
Inductive figure : Type := Fig (title : string).

(** ** The class *)

Section Pipeline.
(** lightkurve: a downloaded cutout; the number of results of
    [lk.search_tesscut(target)]; and [tess_search_results[ind].download]
    with [None] standing for the [SearchError] that [downloadable] catches. *)
Variable TPF : Type.
Variable search_tesscut : option string -> nat.
Variable download : nat -> option TPF.

(** Modelled from the spec: the construction of the adapter
    ([TESSCutLightcurve(tpfs=..., ...)] of [elk/lightcurve.py]) from what
    the download returned. *)
Variable TESSCutLightcurve : option TPF -> Adapter.

(** scipy *)
Variable lstsq : list coefficients -> list Q -> outcome coefficients.

(** astropy units: [radius.to(u.deg).value] and
    [np.log10(cluster_age.to(u.yr).value)]. *)
Variable to_deg : Q -> string -> outcome Q.
Variable to_log10_yr : Q -> string -> outcome Q.

(** The answer to a [Y/n] prompt. *)
Definition accepted (create_it : string) : bool :=
  bool_decide (create_it = "") || bool_decide (lower create_it = "y").

(** One round of the loop over the subfolders; returns [self.save[key]]. *)
Definition check_subfolder (output_path : string) (subpath : string) : ST World bool :=
  let path := foldl join_component output_path [subpath] in
  w ← get_world;
  if path_exists w path then mret true
  else
    print ("WARNING: The necessary subfolder at (" +:+ path +:+ ") does not exist");;
    create_it ← input "  Would you like me to create it for you? (If not then these files will not be saved) [Y/n]";
    if accepted create_it then mkdir path;; mret true
    else mret false.

Definition __init__ (a : InitArgs) : ST World EnsembleLC :=
  (if is_none (arg_cluster_name a) && is_none (arg_location a)
   then raise AssertionError else mret tt);;
  radius ← match arg_radius a with
           | WithUnit v unit => r ← lift (to_deg v unit); mret (Some r)
           | Bare v => mret v
           end;
  cluster_age ← match arg_cluster_age a with
                | WithUnit v unit =>
                    if bool_decide (unit = "dex") then mret (Some v)
                    else r ← lift (to_log10_yr v unit); mret (Some r)
                | Bare v => mret v
                end;
  w ← get_world;
  output_path ← match arg_output_path a with
                 | Some p =>
                     if path_exists w p then mret (Some p)
                     else
                       print ("WARNING: There is no output folder at the path that you supplied (" +:+ p +:+ ")");;
                       create_it ← input "  Would you like me to create it for you? (If not then no files will be saved) [Y/n]";
                       if accepted create_it then mkdir p;; mret (Some p)
                       else mret None
                 | None => mret None
                 end;
  (if arg_no_lk_cache a then
     cache ← lift (path_join output_path ["cache"]);
     w ← get_world;
     if path_exists w cache then mret tt
     else
       mkdir cache;;
       tesscut ← lift (path_join output_path ["cache"; "tesscut"]);
       mkdir tesscut
   else mret tt);;
  save ← match output_path with
         | Some p =>
             save_lcs ← check_subfolder p "Corrected_LCs";
             save_figures ← check_subfolder p (foldl join_component "Figures" ["LCs"]);
             mret (save_lcs, save_figures)
         | None => mret (false, false)
         end;
  mret {| save_lcs := save.1; save_figures := save.2; lcs := [];
          output_path := output_path; radius := radius; cluster_age := cluster_age;
          callable := match arg_cluster_name a with
                      | Some n => Some n
                      | None => arg_location a
                      end;
          cluster_name := arg_cluster_name a; location := arg_location a;
          percentile := arg_percentile a; cutout_size := arg_cutout_size a;
          scattered_light_frequency := arg_scattered_light_frequency a;
          n_pca := arg_n_pca a; verbose := arg_verbose a;
          no_lk_cache := arg_no_lk_cache a; debug := arg_debug a;
          n_failed_download := 0; n_near_edge := 0; n_scattered_light := 0;
          n_good_obs := 0;
          sectors_available := None; tess_search_results := None |}.

Definition attr_sectors_available : ST State nat :=
  s ← get_self;
  match sectors_available s with
  | Some n => mret n
  | None => raise AttributeError
  end.

Definition previously_downloaded : ST State bool :=
  s ← get_self;
  path ← lift (path_join (output_path s)
                 ["Corrected_LCs/"; str (callable s) +:+ "output_table.fits"]);
  w ← in_world get_world;
  mret (path_exists w path).

Definition has_tess_data : ST State bool :=
  s ← get_self;
  in_world (emit (SearchTesscut (callable s)));;
  modify_self (set_tess_search_results (Some (search_tesscut (callable s))));;
  modify_self (set_sectors_available (Some (search_tesscut (callable s))));;
  when (verbose s)
    (in_world (print (str (callable s) +:+ " has " +:+ pretty (search_tesscut (callable s))
                      +:+ " observations")));;
  mret (0 <? search_tesscut (callable s)).

Definition downloadable (ind : nat) : ST State (option TPF) :=
  s ← get_self;
  download_dir ← (if no_lk_cache s
                   then d ← lift (path_join (output_path s) ["cache"]); mret (Some d)
                   else mret None);
  match tess_search_results s with
  | None => raise AttributeError
  | Some n =>
      if ind <? n then
        in_world (emit (Download ind (cutout_size s) download_dir));;
        mret (download ind)
      else raise IndexError
  end.

(** Lines 160 to 164: every entry of [<output_path>/cache/tesscut] whose
    name ends in [.fits] is removed.  The listing fails when the folder
    is missing, and a removal fails at an entry that is a folder; the
    event [ClearCache] records that the folder was listed. *)
Definition clear_cache : ST State unit :=
  s ← get_self;
  dir ← lift (path_join (output_path s) ["cache"; "tesscut"]);
  listing ← in_world (listdir dir);
  in_world (emit (ClearCache dir));;
  for_in listing (fun file =>
    when (endswith file ".fits")
      (path ← lift (path_join (output_path s) ["cache"; "tesscut"; file]);
       in_world (remove path))).

(** Line 307 calls the flag [self.no_lk_cache]; a [bool] is not callable. *)
Definition call_bool (b : bool) : ST State bool := raise TypeError.

Definition get_lcs_body (sector_ind : nat) : ST State signal :=
  s ← get_self;
  when (verbose s)
    (in_world (print ("Starting Quality Tests for Observation: " +:+ pretty sector_ind)));;
  when (no_lk_cache s) clear_cache;;
  tpfs ← downloadable sector_ind;
  sectors ← attr_sectors_available;
  if is_none tpfs && (sector_ind + 1 <? sectors) then
    when (verbose s) (in_world (print "Failed Download"));;
    modify_self (fun s => set_n_failed_download (n_failed_download s + 1) s);;
    mret Continue
  else if is_none tpfs && (sector_ind + 1 =? sectors) then
    when (verbose s) (in_world (print "Failed Download"));;
    modify_self (fun s => set_n_failed_download (n_failed_download s + 1) s);;
    mret Return
  else
    let lc := TESSCutLightcurve tpfs in
    in_world (emit (NearEdge sector_ind));;
    if near_edge lc && (sector_ind + 1 <? sectors) then
      when (verbose s) (in_world (print "Failed Near Edge Test"));;
      modify_self (fun s => set_n_near_edge (n_near_edge s + 1) s);;
      mret Continue
    else if near_edge lc && (sector_ind + 1 =? sectors) then
      when (verbose s) (in_world (print "Failed Near Edge Test"));;
      modify_self (fun s => set_n_near_edge (n_near_edge s + 1) s);;
      mret Return
    else
      in_world (emit (CorrectLC sector_ind));;
      in_world (emit (ScatteredLight sector_ind));;
      scattered_light_test ←
        lift (scattered_light lstsq (debug s) (cutout_size s)
                (scattered_light_frequency s) (residual_flux lc));
      if scattered_light_test && (sector_ind + 1 <? sectors) then
        when (verbose s) (in_world (print "Failed Scattered Light Test"));;
        modify_self (fun s => set_n_scattered_light (n_scattered_light s + 1) s);;
        mret Continue
      else if scattered_light_test && (sector_ind + 1 =? sectors) then
        when (verbose s) (in_world (print "Failed Scattered Light Test"));;
        modify_self (fun s => set_n_scattered_light (n_scattered_light s + 1) s);;
        mret Return
      else
        when (verbose s)
          (in_world (print (pretty sector_ind +:+ " Passed Quality Tests")));;
        modify_self (fun s => set_n_good_obs (n_good_obs s + 1) s);;
        s' ← get_self;
        (if sector_ind <? length (lcs s')
         then modify_self (set_lcs (<[sector_ind := Some (TESSCut lc)]> (lcs s')))
         else raise IndexError);;
        hi ← lift (py_max (corrected_flux lc));
        lo ← lift (py_min (corrected_flux lc));
        in_world (emit (Figure ("Observation: " +:+ pretty sector_ind)));;
        (match corrected_time lc with
         | [] => raise IndexError
         | _ :: _ => mret tt
         end);;
        (if negb (is_none (output_path s)) && save_figures s then
           path ← lift (path_join (output_path s)
                          ["Figures"; "LCs";
                           str (callable s) +:+ "_Full_Corrected_LC_Observation_"
                             +:+ pretty sector_ind +:+ ".png"]);
           in_world (emit (SaveFig path))
         else mret tt);;
        in_world (emit CloseFig);;
        mret Continue.

Definition get_lcs : ST State unit :=
  sectors ← attr_sectors_available;
  modify_self (set_lcs (replicate sectors None));;
  sig ← for_each (seq 0 sectors) get_lcs_body;
  match sig with
  | Return => mret tt
  | Continue =>
      s ← get_self;
      purge ← call_bool (no_lk_cache s);
      when purge clear_cache
  end.

(** Modelled from the spec: the record of a slot ([lc.hdu] of
    [elk/lightcurve.py]); a reloaded slot reads its table when asked. *)
Definition lc_hdu (lc : lightcurve) : ST State Table :=
  match lc with
  | TESSCut a => mret (adapter_hdu a)
  | SimpleCorrected fits_path hdu_index => in_world (Table_read fits_path hdu_index)
  end.

Fixpoint hdus (slots : list (option lightcurve)) : ST State (list Table) :=
  match slots with
  | [] => mret []
  | None :: rest => hdus rest
  | Some lc :: rest => t ← lc_hdu lc; ts ← hdus rest; mret (t :: ts)
  end.

Definition opt_str (x : option string) : pyval :=
  match x with
  | Some s => PStr s
  | None => PNone
  end.
Definition opt_float (x : option Q) : pyval :=
  match x with
  | Some q => PFloat q
  | None => PNone
  end.

(** Lines 334 to 344. *)
Definition summary_header (s : EnsembleLC) (sectors : nat) : Header :=
  header_set "n_scattered_light" (PInt (Z.of_nat (n_scattered_light s)))
  (header_set "n_near_edge" (PInt (Z.of_nat (n_near_edge s)))
  (header_set "n_failed_download" (PInt (Z.of_nat (n_failed_download s)))
  (header_set "n_good_obs" (PInt (Z.of_nat (n_good_obs s)))
  (header_set "n_obs_available" (PInt (Z.of_nat sectors))
  (header_set "Has_TESS_Data" (PBool (0 <? sectors))
  (header_set "Log Age" (opt_float (cluster_age s))
  (header_set "Radius [deg]" (opt_float (radius s))
  (header_set "Location" (opt_str (location s))
  (header_set "Name" (opt_str (cluster_name s)) []))))))))).

Definition lightcurves_summary_file : ST State (option Table) :=
  s ← get_self;
  LC_PATH ← lift (path_join (output_path s)
                    ["Corrected_LCs/"; str (callable s) +:+ "output_table.fits"]);
  previously ← previously_downloaded;
  if (previously : bool) then
    output_table ← in_world (Table_read LC_PATH 1);
    mret (Some output_table)
  else
    has_data ← has_tess_data;
    (if (has_data : bool) then
       get_lcs;;
       when (no_lk_cache s) clear_cache
     else mret tt);;
    s ← get_self;
    sectors ← attr_sectors_available;
    let hdr := summary_header s sectors in
    records ← hdus (lcs s);
    let hdul := {| primary := hdr; tables := records |} in
    (if negb (is_none (output_path s)) then in_world (writeto hdul LC_PATH) else mret tt);;
    mret None.

Definition access_lightcurve (observation : nat)
  : ST State (option figure * option Table) :=
  s ← get_self;
  name ← match callable s with
         | Some c => mret (c +:+ "output_table.fits")
         | None => raise TypeError
         end;
  path ← lift (path_join (output_path s) ["Corrected_LCs"; name]);
  w ← in_world get_world;
  if negb (path_exists w path) then
    in_world (print "WARNING: The Lightcurve has not been downloaded/corrected. Please run 'lightcurves_summary_file()' function for this cluster.");;
    mret (None, None)
  else
    output_table ← in_world (Table_read path 1);
    n_good ← lift (column output_table "n_good_obs");
    single ← lift (column_equals n_good 1);
    light_curve_table ← (if (single : bool) then in_world (Table_read path 2)
                         else in_world (Table_read path (observation + 2)));
    flux ← lift (column light_curve_table "flux");
    hi ← lift (py_max flux);
    lo ← lift (py_min flux);
    let fig := Fig ("Observation: " +:+ pretty observation) in
    in_world (emit (Figure ("Observation: " +:+ pretty observation)));;
    time ← lift (column light_curve_table "time");
    (match time with
     | [] => raise IndexError
     | _ :: _ => mret tt
     end);;
    in_world (emit ShowFig);;
    in_world (emit CloseFig);;
    mret (Some fig, Some light_curve_table).

(** A header value read into a typed attribute of the model. *)
Definition as_opt_str (v : pyval) : outcome (option string) :=
  match v with
  | PNone => Val None
  | PStr s => Val (Some s)
  | _ => Raise TypeError
  end.
Definition as_opt_float (v : pyval) : outcome (option Q) :=
  match v with
  | PNone => Val None
  | PFloat q => Val (Some q)
  | PInt z => Val (Some (inject_Z z))
  | _ => Raise TypeError
  end.
Definition as_nat (v : pyval) : outcome nat :=
  match v with
  | PInt z => if (0 <=? z)%Z then Val (Z.to_nat z) else Raise TypeError
  | _ => Raise TypeError
  end.

(** [from_fits(filepath, **kwargs)]: of [kwargs] only the arguments that
    the call does not fix itself are read. *)
Definition from_fits (filepath : string) (kwargs : InitArgs) : ST World EnsembleLC :=
  new_ecl ← __init__ {| arg_radius := Bare None; arg_cluster_age := Bare None;
                        arg_output_path := None; arg_cluster_name := Some "";
                        arg_location := arg_location kwargs;
                        arg_percentile := arg_percentile kwargs;
                        arg_cutout_size := arg_cutout_size kwargs;
                        arg_scattered_light_frequency := arg_scattered_light_frequency kwargs;
                        arg_n_pca := arg_n_pca kwargs; arg_verbose := arg_verbose kwargs;
                        arg_no_lk_cache := arg_no_lk_cache kwargs;
                        arg_debug := arg_debug kwargs |};
  hdul ← fits_open filepath;
  let details := primary hdul in
  cluster_name ← lift (header_get details "Name" ≫= as_opt_str);
  location ← lift (header_get details "Location" ≫= as_opt_str);
  let callable := match cluster_name with
                  | Some n => Some n
                  | None => location
                  end in
  radius ← lift (header_get details "Radius [deg]" ≫= as_opt_float);
  cluster_age ← lift (header_get details "Log_Age" ≫= as_opt_float);
  sectors_available ← lift (header_get details "n_obs_available" ≫= as_nat);
  n_good_obs ← lift (header_get details "n_good_obs" ≫= as_nat);
  n_failed_download ← lift (header_get details "n_failed_download" ≫= as_nat);
  n_near_edge ← lift (header_get details "n_near_edge" ≫= as_nat);
  n_scattered_light ← lift (header_get details "n_scattered_light" ≫= as_nat);
  mret {| save_lcs := save_lcs new_ecl; save_figures := save_figures new_ecl;
          lcs := map (fun hdu_ind => Some (SimpleCorrected filepath hdu_ind))
                     (seq 1 (length (tables hdul)));
          output_path := output_path new_ecl; radius := radius;
          cluster_age := cluster_age; callable := callable;
          cluster_name := cluster_name; location := location;
          percentile := percentile new_ecl; cutout_size := cutout_size new_ecl;
          scattered_light_frequency := scattered_light_frequency new_ecl;
          n_pca := n_pca new_ecl; verbose := verbose new_ecl;
          no_lk_cache := no_lk_cache new_ecl; debug := debug new_ecl;
          n_failed_download := n_failed_download; n_near_edge := n_near_edge;
          n_scattered_light := n_scattered_light; n_good_obs := n_good_obs;
          sectors_available := Some sectors_available;
          tess_search_results := tess_search_results new_ecl |}.
End Pipeline.

(** ** Notions the properties are stated with *)

(** The three quality gates, in the order the loop evaluates them. *)
Inductive gate : Type :=
  | DownloadGate
  | EdgeGate
  | ScatteredLightGate.

(** The failure counter of a gate. *)
Definition counter (g : gate) (s : EnsembleLC) : nat :=
  match g with
  | DownloadGate => n_failed_download s
  | EdgeGate => n_near_edge s
  | ScatteredLightGate => n_scattered_light s
  end.

(** The gate evaluations recorded in a piece of trace, with their index. *)
Definition gate_of (e : event) : option (gate * nat) :=
  match e with
  | Download ind _ _ => Some (DownloadGate, ind)
  | NearEdge ind => Some (EdgeGate, ind)
  | ScatteredLight ind => Some (ScatteredLightGate, ind)
  | _ => None
  end.
Definition gates_of (t : list event) : list (gate * nat) := omap gate_of t.

(** The gates up to and including [g]. *)
Definition gates_upto (g : gate) : list gate :=
  match g with
  | DownloadGate => [DownloadGate]
  | EdgeGate => [DownloadGate; EdgeGate]
  | ScatteredLightGate => [DownloadGate; EdgeGate; ScatteredLightGate]
  end.

(** The four counters, and their sum. *)
Definition counts (s : EnsembleLC) : nat * nat * nat * nat :=
  (n_good_obs s, n_failed_download s, n_near_edge s, n_scattered_light s).
Definition tally (s : EnsembleLC) : nat :=
  n_good_obs s + n_failed_download s + n_near_edge s + n_scattered_light s.

(** Exactly one of four counters grew, by one. *)
Inductive one_more : nat * nat * nat * nat -> nat * nat * nat * nat -> Prop :=
  | more_good a b c d : one_more (a, b, c, d) (S a, b, c, d)
  | more_failed_download a b c d : one_more (a, b, c, d) (a, S b, c, d)
  | more_near_edge a b c d : one_more (a, b, c, d) (a, b, S c, d)
  | more_scattered_light a b c d : one_more (a, b, c, d) (a, b, c, S d).

(** The attributes that [get_lcs] reads and never assigns. *)
Definition same_settings (s s' : EnsembleLC) : Prop :=
  save_lcs s' = save_lcs s /\ save_figures s' = save_figures s /\
  output_path s' = output_path s /\ radius s' = radius s /\
  cluster_age s' = cluster_age s /\ callable s' = callable s /\
  cluster_name s' = cluster_name s /\ location s' = location s /\
  percentile s' = percentile s /\ cutout_size s' = cutout_size s /\
  scattered_light_frequency s' = scattered_light_frequency s /\
  n_pca s' = n_pca s /\ verbose s' = verbose s /\
  no_lk_cache s' = no_lk_cache s /\ debug s' = debug s /\
  sectors_available s' = sectors_available s /\
  tess_search_results s' = tess_search_results s.

(** The state in which the loop of [get_lcs] starts: line 231 has emptied
    the slots. *)
Definition loop_entry (st : State) (sectors : nat) : State :=
  {| self := set_lcs (replicate sectors None) (self st); world := world st |}.

(** Index [t] is one of [0, stride, 2*stride, ...] below [len]. *)
Definition sampled (len : nat) (stride : Z) (t : nat) : Prop :=
  t < len /\ exists k : nat, Z.of_nat t = (Z.of_nat k * stride)%Z.

(** [m] is the maximum of the list [l]. *)
Definition largest (l : list Q) (m : Q) : Prop :=
  m ∈ l /\ forall x, x ∈ l -> (x <= m)%Q.

(** [q] is removed when the folder [dir] is purged: it lies directly in
    [dir] and its name ends in [.fits]. *)
Definition in_purge (dir q : string) : bool :=
  match entry_name dir q with
  | Some name => endswith name ".fits"
  | None => false
  end.

(** The folder [dir] can be purged: it exists, and none of its entries
    named [*.fits] is a folder. *)
Definition purgeable (w : World) (dir : string) : Prop :=
  dir ∈ dirs w /\ forall d, d ∈ dirs w -> in_purge dir d = false.

Section Gates.
Variable TPF : Type.
Variable download : nat -> option TPF.
Variable TESSCutLightcurve : option TPF -> Adapter.
Variable lstsq : list coefficients -> list Q -> outcome coefficients.

(** The iteration for index [i] gets as far as asking for the download:
    when the cache of lightkurve is avoided, the folder
    [<output_path>/cache/tesscut] is there to be purged; and the search
    results have an [i]-th element. *)
Definition reaches_download (st : State) (i : nat) : Prop :=
  (no_lk_cache (self st) = true ->
   exists dir, path_join (output_path (self st)) ["cache"; "tesscut"] = Val dir /\
               purgeable (world st) dir) /\
  exists m, tess_search_results (self st) = Some m /\ i < m.

(** Gate [g] is the gate that index [i] fails: the gates before it pass
    and [g] answers that the observation is disqualified. *)
Definition gate_fails (st : State) (g : gate) (i : nat) : Prop :=
  let s := self st in
  reaches_download st i /\
  match g with
  | DownloadGate => download i = None
  | EdgeGate =>
      is_Some (download i) /\ near_edge (TESSCutLightcurve (download i)) = true
  | ScatteredLightGate =>
      is_Some (download i) /\ near_edge (TESSCutLightcurve (download i)) = false /\
      scattered_light lstsq (debug s) (cutout_size s) (scattered_light_frequency s)
        (residual_flux (TESSCutLightcurve (download i))) = Val true
  end.
End Gates.

(** What one iteration of the loop may do to the object: the settings stay,
    and either no counter moves or exactly one grows by one. *)
Definition step_ok (s s' : EnsembleLC) : Prop :=
  same_settings s s' /\ (counts s' = counts s \/ one_more (counts s) (counts s')).

(** [wp m s Q]: running [m] from [s] ends in a state and an outcome that
    satisfy [Q]. *)
Definition wp {S A} (m : ST S A) (s : S) (Q : S -> outcome A -> Prop) : Prop :=
  Q (m s).1 (m s).2.

(** Running [m] keeps the place of the artifact. *)
Definition keeps_target {A} (m : ST State A) : Prop :=
  forall st, output_path (self (m st).1) = output_path (self st) /\
             callable (self (m st).1) = callable (self st).

(** ** A small run: three sectors, the second cannot be downloaded and the
    third lies at the edge of the detector *)

Module Fixture.
Definition flat : frame := [[0; 0]; [0; 0]]%Q.

Definition passing : Adapter :=
  {| near_edge := false;
     residual_flux := [flat; flat; flat];
     corrected_time := [0; 1; 2]%Q;
     corrected_flux := [10; 12; 11]%Q;
     adapter_hdu := [("time", [0; 1; 2]); ("flux", [10; 12; 11]);
                     ("flux_err", [1; 1; 1])]%Q |}.

Definition at_edge : Adapter :=
  {| near_edge := true;
     residual_flux := [flat];
     corrected_time := [0]%Q;
     corrected_flux := [10]%Q;
     adapter_hdu := [("time", [0]); ("flux", [10]); ("flux_err", [1])]%Q |}.

Definition search_tesscut (target : option string) : nat := 3.

Definition download (ind : nat) : option nat :=
  if ind =? 1 then None else Some ind.

Definition TESSCutLightcurve (tpfs : option nat) : Adapter :=
  match tpfs with
  | Some 2 => at_edge
  | _ => passing
  end.

(** A stand-in for the solver: the horizontal plane through the first
    pixel. *)
Definition lstsq (A : list coefficients) (b : list Q) : outcome coefficients :=
  match b with
  | [] => Raise ValueError
  | z :: _ => Val (0, 0, z)%Q
  end.

Definition to_deg (v : Q) (unit : string) : outcome Q := Val v.
Definition to_log10_yr (v : Q) (unit : string) : outcome Q := Val v.

Definition args : InitArgs :=
  {| arg_radius := Bare (Some (1 # 2)%Q); arg_cluster_age := Bare (Some 8%Q);
     arg_output_path := Some "out"; arg_cluster_name := Some "M1";
     arg_location := None; arg_percentile := 80; arg_cutout_size := 2;
     arg_scattered_light_frequency := 5; arg_n_pca := 6;
     arg_verbose := true; arg_no_lk_cache := false; arg_debug := false |}.

Definition anonymous_args : InitArgs :=
  {| arg_radius := Bare (Some (1 # 2)%Q); arg_cluster_age := Bare (Some 8%Q);
     arg_output_path := Some "out"; arg_cluster_name := None;
     arg_location := None; arg_percentile := 80; arg_cutout_size := 2;
     arg_scattered_light_frequency := 5; arg_n_pca := 6;
     arg_verbose := true; arg_no_lk_cache := false; arg_debug := false |}.

Definition disk : World :=
  {| files := ∅;
     dirs := {["out"]} ∪ {["out/Corrected_LCs"]} ∪ {["out/Figures/LCs"]};
     stdin := [];
     trace := [] |}.

(** The object that [__init__] builds from [args] on [disk]. *)
Definition ecl : EnsembleLC :=
  {| save_lcs := true; save_figures := true; lcs := [];
     output_path := Some "out"; radius := Some (1 # 2)%Q; cluster_age := Some 8%Q;
     callable := Some "M1"; cluster_name := Some "M1"; location := None;
     percentile := 80; cutout_size := 2; scattered_light_frequency := 5;
     n_pca := 6; verbose := true; no_lk_cache := false; debug := false;
     n_failed_download := 0; n_near_edge := 0; n_scattered_light := 0;
     n_good_obs := 0; sectors_available := None; tess_search_results := None |}.

(** The same object once a search has found [n] sectors. *)
Definition searched (n : nat) : EnsembleLC :=
  set_sectors_available (Some n) (set_tess_search_results (Some n) ecl).

(** An object without an output location. *)
Definition homeless : EnsembleLC :=
  {| save_lcs := false; save_figures := false; lcs := [];
     output_path := None; radius := Some (1 # 2)%Q; cluster_age := Some 8%Q;
     callable := Some "M1"; cluster_name := Some "M1"; location := None;
     percentile := 80; cutout_size := 2; scattered_light_frequency := 5;
     n_pca := 6; verbose := true; no_lk_cache := false; debug := false;
     n_failed_download := 0; n_near_edge := 0; n_scattered_light := 0;
     n_good_obs := 0; sectors_available := None; tess_search_results := None |}.

(** An object that avoids the cache of lightkurve, and a disk with its
    folder of cached cubes, in which a cube was left. *)
Definition cached : EnsembleLC :=
  {| save_lcs := true; save_figures := true; lcs := [];
     output_path := Some "out"; radius := Some (1 # 2)%Q; cluster_age := Some 8%Q;
     callable := Some "M1"; cluster_name := Some "M1"; location := None;
     percentile := 80; cutout_size := 2; scattered_light_frequency := 5;
     n_pca := 6; verbose := true; no_lk_cache := true; debug := false;
     n_failed_download := 0; n_near_edge := 0; n_scattered_light := 0;
     n_good_obs := 0; sectors_available := None; tess_search_results := None |}.

Definition cached_searched (n : nat) : EnsembleLC :=
  set_sectors_available (Some n) (set_tess_search_results (Some n) cached).

Definition cube : HDUList := {| primary := []; tables := [] |}.

Definition cache_disk : World :=
  {| files := {["out/cache/tesscut/cube.fits" := cube]};
     dirs := {["out"]} ∪ {["out/Corrected_LCs"]} ∪ {["out/Figures/LCs"]}
             ∪ {["out/cache"]} ∪ {["out/cache/tesscut"]};
     stdin := [];
     trace := [] |}.

(** A disk with the output folder and nothing in it, and two refusals
    waiting at the terminal. *)
Definition bare_disk : World :=
  {| files := ∅; dirs := {["out"]}; stdin := ["n"; "n"]; trace := [] |}.

(** A disk on which the artifact of an object without data was saved. *)
Definition saved_disk : World :=
  set_files (<["out/Corrected_LCs/M1output_table.fits" :=
                 {| primary := summary_header ecl 0; tables := [] |}]> ∅) disk.
End Fixture.

(** ** What a run does to the world *)

(** The trace without what was printed. *)
Definition action_of (e : event) : option event :=
  match e with
  | Print _ => None
  | _ => Some e
  end.
Definition actions_of (t : list event) : list event := omap action_of t.

(** The name a path has when it can be joined. *)
Definition joined (a : option string) (p : list string) : string :=
  match path_join a p with
  | Val path => path
  | Raise _ => ""
  end.

(** Everything the iteration for index [i] can do besides printing, in the
    order in which it does it: the purge and the download (into the cache
    of the object when that of lightkurve is avoided), the edge test, the
    correction, the detector, the figure, its file when figures are saved,
    and its closing. *)
Definition iteration_actions (s : EnsembleLC) (i : nat) : list event :=
  (if no_lk_cache s then [ClearCache (joined (output_path s) ["cache"; "tesscut"])] else [])
  ++ [Download i (cutout_size s)
        (if no_lk_cache s then Some (joined (output_path s) ["cache"]) else None);
      NearEdge i; CorrectLC i; ScatteredLight i;
      Figure ("Observation: " +:+ pretty i)]
  ++ (if negb (is_none (output_path s)) && save_figures s
      then [SaveFig (joined (output_path s)
                       ["Figures"; "LCs";
                        str (callable s) +:+ "_Full_Corrected_LC_Observation_"
                          +:+ pretty i +:+ ".png"])]
      else [])
  ++ [CloseFig].

(** The number of slots that hold a lightcurve. *)
Definition filled (slots : list (option lightcurve)) : nat :=
  length (omap id slots).

(** ** Notions for the run, the disk and the reload *)

Section Passing.
Variable TPF : Type.
Variable download : nat -> option TPF.
Variable TESSCutLightcurve : option TPF -> Adapter.
Variable lstsq : list coefficients -> list Q -> outcome coefficients.

(** Index [i] passes the three gates: the download succeeds, the cutout
    is not at the edge and the detector finds no scattered light. *)
Definition passes_all_gates (s : EnsembleLC) (i : nat) : Prop :=
  is_Some (download i) /\
  near_edge (TESSCutLightcurve (download i)) = false /\
  scattered_light lstsq (debug s) (cutout_size s) (scattered_light_frequency s)
    (residual_flux (TESSCutLightcurve (download i))) = Val false.
End Passing.

(** The world apart from its trace. *)
Definition same_disk (w w' : World) : Prop :=
  files w' = files w /\ dirs w' = dirs w /\ stdin w' = stdin w.

(** The files that the purges of the object [s] remove. *)
Definition purged (s : EnsembleLC) (q : string) : Prop :=
  no_lk_cache s = true /\
  exists dir, path_join (output_path s) ["cache"; "tesscut"] = Val dir /\
              in_purge dir q = true.

(** What the purges of [s] may have done to the disk: the folders and the
    input are as they were, and so is every file, unless it is gone and
    was one of those that the purges remove. *)
Definition after_purges (s : EnsembleLC) (w w' : World) : Prop :=
  dirs w' = dirs w /\ stdin w' = stdin w /\
  forall q, files w' !! q = files w !! q \/ (files w' !! q = None /\ purged s q).

(** The world has only grown: the files are the same, folders were added
    and none removed, the trace was extended, and input was consumed from
    the front. *)
Definition world_grows (w w' : World) : Prop :=
  files w' = files w /\ dirs w ⊆ dirs w' /\
  trace w `prefix_of` trace w' /\ stdin w' `suffix_of` stdin w.

(** A computation under which the world only grows. *)
Definition grows {A} (m : ST World A) : Prop :=
  forall w, world_grows w (m w).1.

Module Archive.
(** An object with the counters of the small run after [get_lcs]. *)
Definition saved : EnsembleLC :=
  set_n_good_obs 1 (set_n_failed_download 1 (set_n_near_edge 1 (Fixture.searched 3))).

(** A file that [from_fits] can read: the summary of the small run with
    the age under the keyword that is read, and the record of the one good
    observation. *)
Definition hdul : HDUList :=
  {| primary := header_set "Log_Age" (PFloat 8) (summary_header saved 3);
     tables := [adapter_hdu Fixture.passing] |}.
Definition disk : World :=
  set_files (<["saved.fits" := hdul]> ∅) Fixture.disk.

(** The object that [from_fits] rebuilds from that file. *)
Definition reloaded : EnsembleLC :=
  {| save_lcs := false; save_figures := false;
     lcs := [Some (SimpleCorrected "saved.fits" 1)];
     output_path := None; radius := Some (1 # 2)%Q; cluster_age := Some 8%Q;
     callable := Some "M1"; cluster_name := Some "M1"; location := None;
     percentile := 80; cutout_size := 2; scattered_light_frequency := 5;
     n_pca := 6; verbose := true; no_lk_cache := false; debug := false;
     n_failed_download := 1; n_near_edge := 1; n_scattered_light := 0;
     n_good_obs := 1; sectors_available := Some 3; tess_search_results := None |}.

(** A file in the layout that [access_lightcurve] reads: a table with a
    column [n_good_obs] in HDU [1] and the lightcurves after it. *)
Definition summary_table : Table := [("n_good_obs", [2%Q])].
Definition expected_disk : World :=
  set_files (<["out/Corrected_LCs/M1output_table.fits" :=
                 {| primary := summary_header saved 3;
                    tables := [summary_table; adapter_hdu Fixture.passing;
                               adapter_hdu Fixture.at_edge] |}]> ∅) Fixture.disk.
End Archive.

Module Frames.
(** A frame with a gradient, to tell frames apart. *)
Definition tilted : frame := [[0; 1]; [2; 3]]%Q.
End Frames.

(** ** The conversion of [elk/utils.py] *)

Section Utils.
(** numpy: [np.log10] on a binary64 number. *)
Variable log10 : float -> float.

End Utils.

(** * Properties *)

(** ** Numbers *)

Lemma Qgtb_spec (x y : Q) : Qgtb x y = true <-> (y < x)%Q.
Proof. unfold Qgtb, Qlt. apply Z.ltb_lt. Qed.

Lemma Qgtb_false (x y : Q) : Qgtb x y = false -> (x <= y)%Q.
Proof.
  intros H. apply Qnot_lt_le. intros Hlt. apply Qgtb_spec in Hlt. congruence.
Qed.

Lemma running_max_largest (xs : list Q) (x : Q) :
  largest (x :: xs) (foldl (fun m y => if Qgtb y m then y else m) x xs).
Proof.
  revert x. induction xs as [|y xs IH]; intros x; simpl.
  - split; [left|]. intros z Hz. apply list_elem_of_singleton in Hz as ->. apply Qle_refl.
  - destruct (IH (if Qgtb y x then y else x)) as [Hin Hle]. split.
    + apply elem_of_cons in Hin as [->|Hin].
      * destruct (Qgtb y x); [right; left | left].
      * right; right; exact Hin.
    + intros z Hz.
      assert (Hx : (x <= if Qgtb y x then y else x)%Q).
      { destruct (Qgtb y x) eqn:E; [|apply Qle_refl].
        apply Qlt_le_weak, Qgtb_spec, E. }
      assert (Hy : (y <= if Qgtb y x then y else x)%Q).
      { destruct (Qgtb y x) eqn:E; [apply Qle_refl|]. apply Qgtb_false, E. }
      apply elem_of_cons in Hz as [->|Hz].
      * eapply Qle_trans; [exact Hx|]. apply Hle. left.
      * apply elem_of_cons in Hz as [->|Hz].
        -- eapply Qle_trans; [exact Hy|]. apply Hle. left.
        -- apply Hle. right. exact Hz.
Qed.

Lemma py_max_largest (l : list Q) :
  l <> [] -> exists m, py_max l = Val m /\ largest l m.
Proof.
  destruct l as [|x xs]; [congruence|]. intros _.
  eexists. split; [reflexivity|]. apply running_max_largest.
Qed.

(** [ceil(len / step)] counts the multiples of [step] below [len]. *)
Lemma ceil_div_lt (len step k : Z) :
  (0 < step)%Z -> (k < - (- len / step) <-> k * step < len)%Z.
Proof.
  intros Hs.
  pose proof (Z.div_mod (- len) step ltac:(lia)) as Hdm.
  pose proof (Z.mod_pos_bound (- len) step Hs) as Hr.
  split; intros H; nia.
Qed.

Lemma arange_sampled (len : nat) (stride : Z) :
  (0 < stride)%Z ->
  exists time_steps, arange (Z.of_nat len) stride = Val time_steps /\
    forall t, t ∈ time_steps <-> sampled len stride t.
Proof.
  intros Hs. unfold arange.
  destruct (Z.eqb_spec stride 0) as [->|_]; [lia|].
  eexists. split; [reflexivity|]. intros t. rewrite list_elem_of_fmap. unfold sampled. split.
  - intros (k & -> & Hk). apply elem_of_seq in Hk.
    assert (Z.of_nat k < - (- Z.of_nat len / stride))%Z as Hlt by lia.
    apply ceil_div_lt in Hlt; [|exact Hs]. split; [nia|]. exists k. nia.
  - intros (Hlt & k & Hk). exists k. split; [lia|]. apply elem_of_seq.
    assert (Z.of_nat k < - (- Z.of_nat len / stride))%Z; [|lia].
    apply ceil_div_lt; [exact Hs|]. lia.
Qed.

Lemma arange_degenerate (len : nat) (stride : Z) :
  0 < len -> (Z.of_nat len <= stride)%Z -> arange (Z.of_nat len) stride = Val [0].
Proof.
  intros Hl Hs. unfold arange.
  destruct (Z.eqb_spec stride 0) as [->|_]; [lia|].
  assert (- (- Z.of_nat len / stride) = 1)%Z as ->.
  { assert (0 < stride)%Z as Hp by lia.
    pose proof (proj1 (ceil_div_lt (Z.of_nat len) stride 0 Hp)) as H0.
    pose proof (proj2 (ceil_div_lt (Z.of_nat len) stride 0 Hp)) as H0'.
    pose proof (proj1 (ceil_div_lt (Z.of_nat len) stride 1 Hp)) as H1.
    lia. }
  reflexivity.
Qed.

Lemma traverse_returns {A B} (f : A -> outcome B) (l : list A) :
  (forall x, x ∈ l -> returns (f x)) ->
  exists ys, traverse f l = Val ys /\ Forall2 (fun x y => f x = Val y) l ys.
Proof.
  induction l as [|x xs IH]; intros H; simpl.
  - exists []. split; [reflexivity|constructor].
  - destruct (H x) as [y Hy]; [left|].
    destruct IH as (ys & Hys & HF); [intros z Hz; apply H; right; exact Hz|].
    exists (y :: ys). rewrite Hy. simpl. unfold mbind, outcome_bind. simpl. rewrite Hys.
    split; [reflexivity|]. constructor; assumption.
Qed.

(** ** The scattered-light detector *)

Section DetectorProperties.
Variable lstsq : list coefficients -> list Q -> outcome coefficients.

(** With the debug flag the detector answers [False] whatever it is given. *)
Lemma scattered_light_debug (cutout_size stride : Z) (stack : list frame) :
  scattered_light lstsq true cutout_size stride stack = Val false.
Proof. reflexivity. Qed.

(** A zero stride is rejected by [np.arange]. *)
Lemma scattered_light_zero_stride (cutout_size : Z) (stack : list frame) :
  scattered_light lstsq false cutout_size 0 stack = Raise ZeroDivisionError.
Proof. reflexivity. Qed.

(** C4, as amended: for every non-empty residual stack and positive
    stride, with debug mode off and every sampled frame accepted by the
    solver, the detector samples exactly the frames at the indices
    [0, stride, 2*stride, ...] below the stack length (index [0] alone when
    the stride is at least that length), fits the plane of
    [design_matrix] to each, and returns the verdict
    [max|c| > 2.5 or (max|a| > 0.02 and max|b| > 0.02)], the maxima taken
    over the sampled frames and [0.02] read as the literal. *)
Theorem scattered_light_verdict (cutout_size stride : Z) (stack : list frame) :
  stack <> [] -> (0 < stride)%Z ->
  (forall t, sampled (length stack) stride t ->
             returns (fit_plane lstsq cutout_size stack t)) ->
  exists time_steps coefficients_array mxc myc mzc verdict,
    arange (Z.of_nat (length stack)) stride = Val time_steps /\
    (forall t, t ∈ time_steps <-> sampled (length stack) stride t) /\
    ((Z.of_nat (length stack) <= stride)%Z -> time_steps = [0]) /\
    Forall2 (fun t C => fit_plane lstsq cutout_size stack t = Val C)
            time_steps coefficients_array /\
    largest (map (fun C : Q * Q * Q => Qabs C.1.1) coefficients_array) mxc /\
    largest (map (fun C : Q * Q * Q => Qabs C.1.2) coefficients_array) myc /\
    largest (map (fun C : Q * Q * Q => Qabs C.2) coefficients_array) mzc /\
    scattered_light lstsq false cutout_size stride stack = Val verdict /\
    (verdict = true <-> (lit_2_5 < mzc \/ (lit_0_02 < mxc /\ lit_0_02 < myc))%Q).
Proof.
  intros Hne Hs Hfit.
  assert (0 < length stack) as Hlen by (destruct stack; [congruence|simpl; lia]).
  destruct (arange_sampled (length stack) stride Hs) as (ts & Hts & Hmem).
  destruct (traverse_returns (fit_plane lstsq cutout_size stack) ts) as (cs & Hcs & HF).
  { intros t Ht. apply Hfit, Hmem, Ht. }
  assert (0 ∈ ts) as H0.
  { apply Hmem. split; [exact Hlen|]. exists 0. lia. }
  assert (cs <> []) as Hcne.
  { intros ->. apply Forall2_nil_inv_r in HF. subst ts. inversion H0. }
  destruct (py_max_largest (map (fun C : Q * Q * Q => Qabs C.1.1) cs)) as (mxc & Hx & Lx).
  { destruct cs; [congruence|discriminate]. }
  destruct (py_max_largest (map (fun C : Q * Q * Q => Qabs C.1.2) cs)) as (myc & Hy & Ly).
  { destruct cs; [congruence|discriminate]. }
  destruct (py_max_largest (map (fun C : Q * Q * Q => Qabs C.2) cs)) as (mzc & Hz & Lz).
  { destruct cs; [congruence|discriminate]. }
  exists ts, cs, mxc, myc, mzc. eexists.
  split; [exact Hts|]. split; [exact Hmem|]. split.
  { intros Hle. rewrite (arange_degenerate _ _ Hlen Hle) in Hts. congruence. }
  split; [exact HF|]. split; [exact Lx|]. split; [exact Ly|]. split; [exact Lz|].
  split.
  - unfold scattered_light. rewrite Hts. simpl. unfold mbind, outcome_bind at 1.
    rewrite Hcs. unfold mbind, outcome_bind. rewrite Hx, Hy, Hz. reflexivity.
  - rewrite orb_true_iff, andb_true_iff, !Qgtb_spec. reflexivity.
Qed.
End DetectorProperties.

(** C4 as stated fails on the empty stack: with a stride of [5], which is
    at least the stack length [0], no frame is sampled, not one, and the
    detector raises [ValueError] on the maximum of nothing instead of
    returning a verdict. *)
Lemma scattered_light_empty_stack :
  arange (Z.of_nat (length (@nil frame))) 5 = Val [] /\
  scattered_light Fixture.lstsq false 2 5 [] = Raise ValueError /\
  ~ returns (scattered_light Fixture.lstsq false 2 5 []).
Proof.
  split; [reflexivity|]. split; [reflexivity|]. intros [b Hb]. discriminate Hb.
Qed.

Lemma scattered_light_verdict_witness :
  exists time_steps coefficients_array mxc myc mzc verdict,
    arange (Z.of_nat (length [Fixture.flat; Fixture.flat; Fixture.flat])) 5 = Val time_steps /\
    (forall t, t ∈ time_steps <->
               sampled (length [Fixture.flat; Fixture.flat; Fixture.flat]) 5 t) /\
    ((Z.of_nat (length [Fixture.flat; Fixture.flat; Fixture.flat]) <= 5)%Z ->
     time_steps = [0]) /\
    Forall2 (fun t C => fit_plane Fixture.lstsq 2
                          [Fixture.flat; Fixture.flat; Fixture.flat] t = Val C)
            time_steps coefficients_array /\
    largest (map (fun C : Q * Q * Q => Qabs C.1.1) coefficients_array) mxc /\
    largest (map (fun C : Q * Q * Q => Qabs C.1.2) coefficients_array) myc /\
    largest (map (fun C : Q * Q * Q => Qabs C.2) coefficients_array) mzc /\
    scattered_light Fixture.lstsq false 2 5 [Fixture.flat; Fixture.flat; Fixture.flat]
      = Val verdict /\
    (verdict = true <-> (lit_2_5 < mzc \/ (lit_0_02 < mxc /\ lit_0_02 < myc))%Q).
Proof.
  apply (scattered_light_verdict Fixture.lstsq 2 5 [Fixture.flat; Fixture.flat; Fixture.flat]).
  - discriminate.
  - lia.
  - intros t [Hlt _]. simpl in Hlt.
    destruct t as [|[|[|t]]]; [eexists; reflexivity ..|lia].
Defined.

(** ** Rules for running a computation *)

Lemma wp_bind {S A B} (m : ST S A) (f : A -> ST S B) (s : S) (Q : S -> outcome B -> Prop) :
  wp m s (fun s' r => match r with
                      | Val a => wp (f a) s' Q
                      | Raise e => Q s' (Raise e)
                      end) ->
  wp (m ≫= f) s Q.
Proof.
  unfold wp, mbind, ST_bind. destruct (m s) as [s' [a|e]]; simpl; auto.
Qed.

Lemma wp_ret {S A} (a : A) (s : S) (Q : S -> outcome A -> Prop) :
  Q s (Val a) -> wp (mret a) s Q.
Proof. auto. Qed.

Lemma wp_raise {S A} (e : exn) (s : S) (Q : S -> outcome A -> Prop) :
  Q s (Raise e) -> wp (raise e) s Q.
Proof. auto. Qed.

Lemma wp_lift {S A} (o : outcome A) (s : S) (Q : S -> outcome A -> Prop) :
  Q s o -> wp (lift o) s Q.
Proof. auto. Qed.

Lemma wp_get_self (st : State) (Q : State -> outcome EnsembleLC -> Prop) :
  Q st (Val (self st)) -> wp get_self st Q.
Proof. auto. Qed.

Lemma wp_modify_self (f : EnsembleLC -> EnsembleLC) (st : State)
    (Q : State -> outcome unit -> Prop) :
  Q {| self := f (self st); world := world st |} (Val tt) -> wp (modify_self f) st Q.
Proof. auto. Qed.

(** A computation on the world leaves the object alone. *)
Lemma wp_in_world {A} (m : ST World A) (st : State) (Q : State -> outcome A -> Prop) :
  (forall w r, Q {| self := self st; world := w |} r) -> wp (in_world m) st Q.
Proof.
  intros H. unfold wp, in_world. destruct (m (world st)) as [w r]. apply H.
Qed.

Lemma wp_in_world_get (st : State) (Q : State -> outcome World -> Prop) :
  Q st (Val (world st)) -> wp (in_world get_world) st Q.
Proof. destruct st. auto. Qed.

Lemma wp_when (b : bool) (m : ST State unit) (st : State) (Q : State -> outcome unit -> Prop) :
  (b = true -> wp m st Q) -> (b = false -> Q st (Val tt)) -> wp (when b m) st Q.
Proof. intros H1 H2. destruct b; [apply H1|apply H2]; reflexivity. Qed.

Lemma wp_when_in_world (b : bool) (m : ST World unit) (st : State)
    (Q : State -> outcome unit -> Prop) :
  (forall w r, Q {| self := self st; world := w |} r) -> wp (when b (in_world m)) st Q.
Proof.
  intros H. apply wp_when; intros _; [apply wp_in_world, H|].
  destruct st; apply H.
Qed.

(** One step of symbolic execution; [exc] closes the exits by exception. *)
Ltac wp_step exc :=
  lazymatch goal with
  | |- wp (let _ := _ in _) _ _ => cbv zeta
  | |- wp (when _ (in_world _) ≫= _) _ _ =>
      apply wp_bind, wp_when_in_world; intros ? [[]|?]; [|exc]
  | |- wp (in_world _ ≫= _) _ _ =>
      apply wp_bind, wp_in_world; intros ? [?|?]; [|exc]
  | |- wp (modify_self _ ≫= _) _ _ => apply wp_bind, wp_modify_self
  | |- wp (get_self ≫= _) _ _ => apply wp_bind, wp_get_self
  | |- wp (lift ?o ≫= _) _ _ => apply wp_bind, wp_lift; destruct o; [|exc]
  | |- wp ((if ?b then _ else _) ≫= _) _ _ => destruct b
  | |- wp (match ?x with _ => _ end ≫= _) _ _ => destruct x
  | |- wp (mret _ ≫= _) _ _ => apply wp_bind, wp_ret
  | |- wp (raise _ ≫= _) _ _ => apply wp_bind, wp_raise; exc
  | |- wp ((_ ≫= _) ≫= _) _ _ => apply wp_bind
  | |- wp (in_world _) _ _ => apply wp_in_world; intros ? [?|?]; [|exc]
  | |- wp (if ?b then _ else _) _ _ => destruct b
  | |- wp (mret _) _ _ => apply wp_ret; exc
  | |- wp (raise _) _ _ => apply wp_raise; exc
  end; cbn [self world].

Lemma step_ok_refl (s : EnsembleLC) : step_ok s s.
Proof. split; [repeat split | left; reflexivity]. Qed.

Lemma same_settings_trans (a b c : EnsembleLC) :
  same_settings a b -> same_settings b c -> same_settings a c.
Proof.
  unfold same_settings. intros H1 H2.
  repeat match goal with
         | H : _ /\ _ |- _ => destruct H
         end.
  repeat split; congruence.
Qed.

Lemma step_ok_tally (s s' : EnsembleLC) : step_ok s s' -> tally s' <= tally s + 1.
Proof.
  intros [_ [Heq|Hone]]; unfold counts, tally in *.
  - injection Heq as -> -> -> ->. lia.
  - inversion Hone; subst; lia.
Qed.

(** ** The purge of the cache *)

Lemma append_cons (c : Ascii.ascii) (x y : string) :
  String c x +:+ y = String c (x +:+ y).
Proof. reflexivity. Qed.

Lemma append_assoc (x y z : string) : (x +:+ y) +:+ z = x +:+ (y +:+ z).
Proof.
  induction x as [|c x IH]; [reflexivity|].
  rewrite !append_cons. f_equal. exact IH.
Qed.

Lemma append_nonempty (x y : string) : y <> "" -> x +:+ y <> "".
Proof. intros Hy. destruct x; [exact Hy|rewrite append_cons; discriminate]. Qed.

Lemma wp_emit (e : event) (st : State) (Q : State -> outcome unit -> Prop) :
  Q {| self := self st; world := set_trace (trace (world st) ++ [e]) (world st) |} (Val tt) ->
  wp (in_world (emit e)) st Q.
Proof. auto. Qed.

Lemma strip_prefix_app (p s r : string) : strip_prefix p s = Some r -> s = p +:+ r.
Proof.
  revert s. induction p as [|a p IH]; intros s H; simpl in H.
  - injection H as ->. reflexivity.
  - destruct s as [|b s]; [discriminate H|].
    destruct (Ascii.ascii_dec a b) as [->|]; [|discriminate H].
    rewrite append_cons. f_equal. apply IH, H.
Qed.

Lemma startswith_sep_no_sep (name : string) : has_sep name = false -> startswith_sep name = false.
Proof.
  destruct name as [|c name]; [reflexivity|]. simpl.
  destruct (Ascii.ascii_dec c "/") as [->|Hc]; [discriminate|]. intros _.
  destruct c as [[] [] [] [] [] [] [] []]; try reflexivity. congruence.
Qed.

(** An entry is listed under the name that joins back to its path. *)
Lemma entry_name_join (dir q name : string) :
  entry_name dir q = Some name -> q = join_component dir name.
Proof.
  unfold entry_name. destruct (strip_prefix _ q) as [r|] eqn:E; [|discriminate].
  destruct (bool_decide (r = "")); [discriminate|]. simpl.
  destruct (has_sep r) eqn:E2; [discriminate|]. intros [= ->].
  apply strip_prefix_app in E. rewrite E. unfold join_component.
  rewrite (startswith_sep_no_sep name E2). simpl.
  destruct (_ || _); rewrite append_assoc; reflexivity.
Qed.

Lemma in_purge_entry (dir q name : string) :
  entry_name dir q = Some name -> in_purge dir q = endswith name ".fits".
Proof. unfold in_purge. intros ->. reflexivity. Qed.

Lemma for_in_app {S A} (l1 l2 : list A) (body : A -> ST S unit) (s : S)
    (Q : S -> outcome unit -> Prop) :
  wp (for_in l1 body) s (fun s' r => match r with
                                     | Val _ => wp (for_in l2 body) s' Q
                                     | Raise e => Q s' (Raise e)
                                     end) ->
  wp (for_in (l1 ++ l2) body) s Q.
Proof.
  revert s. induction l1 as [|a l1 IH]; intros s H; simpl in *.
  - exact H.
  - unfold wp in *. unfold mbind, ST_bind in *.
    destruct (body a s) as [s1 [[]|e]]; simpl in *; [apply IH, H|exact H].
Qed.

Lemma wp_consequence {S A} (m : ST S A) (s : S) (Q Q' : S -> outcome A -> Prop) :
  wp m s Q' -> (forall s' r, Q' s' r -> Q s' r) -> wp m s Q.
Proof. unfold wp. auto. Qed.

Section Purge.
Variable s : EnsembleLC.
Variable p : string.
Hypothesis Hp : output_path s = Some p.

(** One round of the loop of [clear_cache]. *)
Lemma wp_purge_entry (name : string) (st : State) (Q : State -> outcome unit -> Prop) :
  (endswith name ".fits" = false -> Q st (Val tt)) ->
  (endswith name ".fits" = true ->
   join_component (foldl join_component p ["cache"; "tesscut"]) name ∈ dirs (world st) \/
   files (world st) !! join_component (foldl join_component p ["cache"; "tesscut"]) name
     = None ->
   Q st (Raise OSError)) ->
  (forall hdul,
     endswith name ".fits" = true ->
     join_component (foldl join_component p ["cache"; "tesscut"]) name ∉ dirs (world st) ->
     files (world st) !! join_component (foldl join_component p ["cache"; "tesscut"]) name
       = Some hdul ->
     Q {| self := self st;
          world := set_files
                     (delete (join_component (foldl join_component p ["cache"; "tesscut"])
                                name) (files (world st))) (world st) |} (Val tt)) ->
  wp (when (endswith name ".fits")
        (path ← lift (path_join (output_path s) ["cache"; "tesscut"; name]);
         in_world (remove path))) st Q.
Proof.
  intros Hskip Hraise Hdel. destruct (endswith name ".fits"); cbn [when].
  2:{ destruct st. apply Hskip. reflexivity. }
  apply wp_bind, wp_lift. rewrite Hp. cbn [path_join foldl].
  unfold wp, in_world, remove. destruct (bool_decide _) eqn:Hdir; cbn [fst snd].
  { apply bool_decide_eq_true in Hdir. destruct st. apply Hraise; [reflexivity|].
    left. exact Hdir. }
  apply bool_decide_eq_false in Hdir.
  destruct (files (world st) !! _) as [hdul|] eqn:Hfile; cbn [fst snd].
  - apply (Hdel hdul); [reflexivity|exact Hdir|reflexivity].
  - destruct st. apply Hraise; [reflexivity|]. right. reflexivity.
Qed.

(** What the loop of [clear_cache] does, however it ends: it removes
    files that it was given the names of, and nothing else changes. *)
Lemma purge_loop_frame (names : list string) (st : State) :
  wp (for_in names (fun file =>
        when (endswith file ".fits")
          (path ← lift (path_join (output_path s) ["cache"; "tesscut"; file]);
           in_world (remove path)))) st
    (fun st' _ =>
       self st' = self st /\ dirs (world st') = dirs (world st) /\
       stdin (world st') = stdin (world st) /\ trace (world st') = trace (world st) /\
       forall q, files (world st') !! q = files (world st) !! q \/
                 (files (world st') !! q = None /\
                  exists name, name ∈ names /\ endswith name ".fits" = true /\
                    q = join_component (foldl join_component p ["cache"; "tesscut"]) name)).
Proof.
  revert st. induction names as [|name names IH]; intros st.
  - apply wp_ret. repeat split. intros q. left. reflexivity.
  - cbn [for_in]. apply wp_bind, wp_purge_entry.
    + intros _. pose proof (IH st) as H. unfold wp in *.
      destruct H as (Hs & Hd & Hi & Ht & Hf). repeat (split; [assumption|]).
      intros q. destruct (Hf q) as [Hq|(Hq & name' & Hin & Hn & ->)]; [left; exact Hq|].
      right. split; [exact Hq|]. exists name'. split; [right; exact Hin|]. auto.
    + intros _ _. repeat split. intros q. left. reflexivity.
    + intros hdul Hfits _ _.
      pose proof (IH {| self := self st;
                        world := set_files
                          (delete (join_component
                                     (foldl join_component p ["cache"; "tesscut"]) name)
                             (files (world st))) (world st) |}) as H.
      unfold wp in *. cbn [self world dirs stdin trace files set_files] in H.
      destruct H as (Hs & Hd & Hi & Ht & Hf). repeat (split; [assumption|]).
      intros q. destruct (Hf q) as [Hq|(Hq & name' & Hin & Hn & ->)].
      * rewrite Hq.
        destruct (decide (q = join_component (foldl join_component p ["cache"; "tesscut"])
                                name)) as [->|Hne].
        -- right. rewrite lookup_delete_eq. split; [reflexivity|].
           exists name. split; [left|]. auto.
        -- left. apply lookup_delete_ne. congruence.
      * right. split; [exact Hq|]. exists name'. split; [right; exact Hin|]. auto.
Qed.

(** The loop over the names of files that are there goes through, and
    the files among them that are to be purged are gone. *)
Lemma purge_loop_gone (ks : list string) (st : State) :
  NoDup ks ->
  (forall k, k ∈ ks -> is_Some (files (world st) !! k)) ->
  (forall k, k ∈ ks -> in_purge (foldl join_component p ["cache"; "tesscut"]) k = true ->
             k ∉ dirs (world st)) ->
  wp (for_in (omap (entry_name (foldl join_component p ["cache"; "tesscut"])) ks)
        (fun file =>
           when (endswith file ".fits")
             (path ← lift (path_join (output_path s) ["cache"; "tesscut"; file]);
              in_world (remove path)))) st
    (fun st' r =>
       r = Val tt /\
       forall k, k ∈ ks ->
                 in_purge (foldl join_component p ["cache"; "tesscut"]) k = true ->
                 files (world st') !! k = None).
Proof.
  revert st. induction ks as [|k ks IH]; intros st Hnd Hfiles Hdirs.
  - split; [reflexivity|]. intros k Hk. inversion Hk.
  - apply NoDup_cons in Hnd as [Hk Hnd]. cbn [omap list_omap].
    assert (in_purge (foldl join_component p ["cache"; "tesscut"]) k = false ->
            wp (for_in (omap (entry_name (foldl join_component p ["cache"; "tesscut"])) ks)
                  (fun file =>
                     when (endswith file ".fits")
                       (path ← lift (path_join (output_path s) ["cache"; "tesscut"; file]);
                        in_world (remove path)))) st
              (fun st' r =>
                 r = Val tt /\
                 forall k', k' ∈ k :: ks ->
                   in_purge (foldl join_component p ["cache"; "tesscut"]) k' = true ->
                   files (world st') !! k' = None)) as Hskip.
    { intros Hout. eapply wp_consequence; [apply IH|].
      - exact Hnd.
      - intros k' Hk'. apply Hfiles. right. exact Hk'.
      - intros k' Hk'. apply Hdirs. right. exact Hk'.
      - intros st' r [-> Hgone]. split; [reflexivity|].
        intros k' Hk' Hin. apply elem_of_cons in Hk' as [->|Hk']; [congruence|].
        apply Hgone; assumption. }
    destruct (entry_name _ k) as [name|] eqn:Hname.
    2:{ apply Hskip. unfold in_purge. rewrite Hname. reflexivity. }
    pose proof (entry_name_join _ _ _ Hname) as Hjoin.
    pose proof (in_purge_entry _ _ _ Hname) as Hin.
    cbn [for_in]. apply wp_bind, wp_purge_entry.
    + intros Hfits. apply Hskip. rewrite Hin. exact Hfits.
    + intros Hfits Hbad. exfalso. rewrite <- Hjoin in Hbad.
      destruct Hbad as [Hdir|Hnone].
      * apply (Hdirs k); [left| |exact Hdir]. rewrite Hin. exact Hfits.
      * destruct (Hfiles k ltac:(left)) as [hdul Hfile]. congruence.
    + intros hdul Hfits _ _. rewrite <- Hjoin.
      set (st1 := {| self := self st;
                     world := set_files (delete k (files (world st))) (world st) |}).
      pose proof (IH st1 Hnd) as H.
      pose proof (purge_loop_frame
                    (omap (entry_name (foldl join_component p ["cache"; "tesscut"])) ks)
                    st1) as Hframe.
      unfold wp in *. destruct H as [Hr Hgone].
      * intros k' Hk'. cbn [st1 self world files set_files].
        rewrite lookup_delete_ne; [apply Hfiles; right; exact Hk'|].
        intros ->. exact (Hk Hk').
      * intros k' Hk'. apply Hdirs. right. exact Hk'.
      * split; [exact Hr|]. intros k' Hk' Hin'.
        apply elem_of_cons in Hk' as [->|Hk']; [|apply Hgone; assumption].
        destruct Hframe as (_ & _ & _ & _ & Hf).
        destruct (Hf k) as [Hq|[Hq _]]; [|exact Hq].
        rewrite Hq. cbn [st1 self world files set_files]. apply lookup_delete_eq.
Qed.

(** The loop leaves the entries alone whose names do not end in [.fits]. *)
Lemma purge_loop_others (ds : list string) (st : State) :
  (forall d, d ∈ ds -> in_purge (foldl join_component p ["cache"; "tesscut"]) d = false) ->
  for_in (omap (entry_name (foldl join_component p ["cache"; "tesscut"])) ds)
    (fun file =>
       when (endswith file ".fits")
         (path ← lift (path_join (output_path s) ["cache"; "tesscut"; file]);
          in_world (remove path))) st
  = (st, Val tt).
Proof.
  induction ds as [|d ds IH]; intros Hds; [reflexivity|]. cbn [omap list_omap].
  destruct (entry_name _ d) as [name|] eqn:Hname.
  2:{ apply IH. intros d' Hd'. apply Hds. right. exact Hd'. }
  cbn [for_in]. pose proof (Hds d ltac:(left)) as Hd.
  rewrite (in_purge_entry _ _ _ Hname) in Hd. rewrite Hd. cbn [when].
  unfold mbind, ST_bind. cbn [mret ST_ret]. apply IH.
  intros d' Hd'. apply Hds. right. exact Hd'.
Qed.
End Purge.

Lemma path_join_some (a : option string) (l : list string) (path : string) :
  path_join a l = Val path -> exists p, a = Some p /\ path = foldl join_component p l.
Proof. destruct a as [p|]; [intros [= <-]; eauto|discriminate]. Qed.

(** What [clear_cache] does, however it ends: the object, the folders and
    the input stay; a file is as it was, or it is gone and lay in the
    purged folder under a name ending in [.fits]; and the trace has grown
    by the event of the purge, unless the call failed before it. *)
Lemma clear_cache_effect (st : State) :
  wp clear_cache st
    (fun st' r =>
       self st' = self st /\ dirs (world st') = dirs (world st) /\
       stdin (world st') = stdin (world st) /\
       (forall q, files (world st') !! q = files (world st) !! q \/
                  (files (world st') !! q = None /\
                   exists dir, path_join (output_path (self st)) ["cache"; "tesscut"]
                                 = Val dir /\ in_purge dir q = true)) /\
       ((trace (world st') = trace (world st) /\ exists e, r = Raise e) \/
        exists dir, path_join (output_path (self st)) ["cache"; "tesscut"] = Val dir /\
                    trace (world st') = trace (world st) ++ [ClearCache dir])).
Proof.
  unfold clear_cache. apply wp_bind, wp_get_self, wp_bind, wp_lift.
  destruct (path_join (output_path (self st)) ["cache"; "tesscut"]) as [dir|e] eqn:Hdir.
  2:{ repeat split; try (intros q; left; reflexivity). left. eauto. }
  destruct (path_join_some _ _ _ Hdir) as (p & Hp & ->).
  apply wp_bind. unfold wp at 1. unfold in_world, listdir.
  destruct (bool_decide _); cbn [fst snd].
  2:{ repeat split; try (intros q; left; reflexivity). left. eauto. }
  apply wp_bind, wp_emit.
  eapply wp_consequence; [apply (purge_loop_frame (self st) p Hp)|].
  cbn [self world dirs stdin trace files set_trace].
  intros st' r (Hs & Hd & Hi & Ht & Hf).
  split; [exact Hs|]. split; [exact Hd|]. split; [exact Hi|]. split.
  - intros q. destruct (Hf q) as [Hq|(Hq & name & Hin & Hfits & ->)]; [left; exact Hq|].
    right. split; [exact Hq|]. eexists. split; [reflexivity|].
    apply list_elem_of_omap in Hin as (k & _ & Hname).
    rewrite <- (entry_name_join _ _ _ Hname), (in_purge_entry _ _ _ Hname). exact Hfits.
  - right. eexists. split; [reflexivity|]. exact Ht.
Qed.

(** A purge of a folder that is there, and that holds no folder named
    [*.fits], goes through, and the files that were to be purged are
    gone. *)
Lemma clear_cache_gone (st : State) (dir : string) :
  path_join (output_path (self st)) ["cache"; "tesscut"] = Val dir ->
  purgeable (world st) dir ->
  wp clear_cache st
    (fun st' r =>
       r = Val tt /\
       forall q, in_purge dir q = true -> files (world st') !! q = None).
Proof.
  intros Hdir [Hin Hnone].
  destruct (path_join_some _ _ _ Hdir) as (p & Hp & ->).
  pose proof (clear_cache_effect st) as Heffect.
  cut (wp clear_cache st
         (fun st' r =>
            r = Val tt /\
            forall q, is_Some (files (world st) !! q) ->
                      in_purge (foldl join_component p ["cache"; "tesscut"]) q = true ->
                      files (world st') !! q = None)).
  { unfold wp in *. intros [Hr Hgone]. split; [exact Hr|]. intros q Hq.
    destruct Heffect as (_ & _ & _ & Hf & _).
    destruct (files (world st) !! q) as [hdul|] eqn:Hfile; [apply Hgone; eauto|].
    destruct (Hf q) as [E|[E _]]; [congruence|exact E]. }
  unfold clear_cache. apply wp_bind, wp_get_self, wp_bind, wp_lift.
  rewrite Hdir.
  apply wp_bind. unfold wp at 1. unfold in_world, listdir.
  rewrite bool_decide_eq_true_2 by exact Hin. cbn [fst snd].
  apply wp_bind, wp_emit. rewrite omap_app. apply for_in_app.
  eapply wp_consequence; [apply (purge_loop_gone (self st) p Hp)|].
  - apply NoDup_fst_map_to_list.
  - intros k Hk. apply list_elem_of_fmap in Hk as ([k' hdul] & -> & Hk).
    apply elem_of_map_to_list in Hk. simpl. eauto.
  - intros k _ Hk Hd. rewrite (Hnone k Hd) in Hk. discriminate Hk.
  - intros st1 r [-> Hgone]. unfold wp.
    rewrite (purge_loop_others (self st) p).
    2:{ intros d Hd. apply Hnone. apply elem_of_elements. exact Hd. }
    split; [reflexivity|]. intros q [hdul Hq] Hpurge. apply Hgone; [|exact Hpurge].
    apply list_elem_of_fmap. exists (q, hdul). split; [reflexivity|].
    apply elem_of_map_to_list. exact Hq.
Qed.

Lemma clear_cache_purgeable (st : State) (dir : string) :
  path_join (output_path (self st)) ["cache"; "tesscut"] = Val dir ->
  purgeable (world st) dir ->
  (clear_cache st).2 = Val tt.
Proof. intros Hdir Hpurge. exact (proj1 (clear_cache_gone st dir Hdir Hpurge)). Qed.

(** A test for [purgeable]. *)
Lemma purgeable_check (w : World) (dir : string) :
  bool_decide (dir ∈ dirs w)
    && forallb (fun d => negb (in_purge dir d)) (elements (dirs w)) = true ->
  purgeable w dir.
Proof.
  intros H. apply andb_true_iff in H as [Hin Hall].
  apply bool_decide_eq_true in Hin. split; [exact Hin|].
  intros d Hd. apply elem_of_elements, list_elem_of_In in Hd.
  rewrite forallb_forall in Hall. specialize (Hall d Hd).
  destruct (in_purge dir d); [discriminate Hall|reflexivity].
Qed.

(** A purge at a flag that is set does to the disk what [after_purges]
    allows. *)
Lemma clear_cache_after_purges (st : State) :
  no_lk_cache (self st) = true ->
  wp clear_cache st
    (fun st' r =>
       self st' = self st /\ after_purges (self st) (world st) (world st') /\
       ((trace (world st') = trace (world st) /\ exists e, r = Raise e) \/
        exists dir, path_join (output_path (self st)) ["cache"; "tesscut"] = Val dir /\
                    trace (world st') = trace (world st) ++ [ClearCache dir])).
Proof.
  intros Hflag. eapply wp_consequence; [apply clear_cache_effect|].
  intros st' r (Hs & Hd & Hi & Hf & Htr).
  split; [exact Hs|]. split; [|exact Htr].
  split; [exact Hd|]. split; [exact Hi|].
  intros q. destruct (Hf q) as [Hq|[Hq Hdir]]; [left; exact Hq|right].
  split; [exact Hq|]. split; [exact Hflag|exact Hdir].
Qed.

Lemma after_purges_refl (s : EnsembleLC) (w : World) : after_purges s w w.
Proof. split; [reflexivity|]. split; [reflexivity|]. intros q. left. reflexivity. Qed.

Lemma after_purges_trans (s : EnsembleLC) (a b c : World) :
  after_purges s a b -> after_purges s b c -> after_purges s a c.
Proof.
  intros (Hd1 & Hi1 & Hf1) (Hd2 & Hi2 & Hf2).
  split; [congruence|]. split; [congruence|]. intros q.
  destruct (Hf2 q) as [Hq|Hq]; [|right; exact Hq]. rewrite Hq. apply Hf1.
Qed.


Lemma after_purges_settings (s s' : EnsembleLC) (w w' : World) :
  output_path s' = output_path s -> no_lk_cache s' = no_lk_cache s ->
  after_purges s' w w' -> after_purges s w w'.
Proof.
  intros Ho Hc (Hd & Hi & Hf). split; [exact Hd|]. split; [exact Hi|].
  intros q. destruct (Hf q) as [Hq|[Hq Hp]]; [left; exact Hq|right].
  split; [exact Hq|]. unfold purged in *. rewrite <- Ho, <- Hc. exact Hp.
Qed.

(** Without the flag nothing is purged. *)
Lemma after_purges_off (s : EnsembleLC) (w w' : World) :
  no_lk_cache s = false -> after_purges s w w' -> same_disk w w'.
Proof.
  intros Hflag (Hd & Hi & Hf). split; [|split; assumption].
  apply map_eq. intros q. destruct (Hf q) as [Hq|[_ [Hp _]]]; [exact Hq|congruence].
Qed.

Lemma after_purges_subseteq (s : EnsembleLC) (w w' : World) :
  after_purges s w w' -> files w' ⊆ files w.
Proof.
  intros (_ & _ & Hf). apply map_subseteq_spec. intros q hdul Hq.
  destruct (Hf q) as [<-|[Hnone _]]; [exact Hq|congruence].
Qed.

(** ** The loop of [get_lcs] *)

Section LoopProperties.
Variable TPF : Type.
Variable download : nat -> option TPF.
Variable TESSCutLightcurve : option TPF -> Adapter.
Variable lstsq : list coefficients -> list Q -> outcome coefficients.

Lemma wp_clear_cache (st : State) (Q : State -> outcome unit -> Prop) :
  (forall w r, Q {| self := self st; world := w |} r) -> wp clear_cache st Q.
Proof.
  intros H. eapply wp_consequence; [apply clear_cache_effect|].
  intros [s' w'] r (Hs & _). cbn [self] in Hs. subst s'. apply H.
Qed.

Lemma wp_downloadable (ind : nat) (st : State) (Q : State -> outcome (option TPF) -> Prop) :
  (forall w, Q {| self := self st; world := w |} (Val (download ind))) ->
  (forall w e, Q {| self := self st; world := w |} (Raise e)) ->
  wp (downloadable TPF download ind) st Q.
Proof.
  intros Hv He. unfold downloadable. apply wp_bind, wp_get_self, wp_bind.
  assert (forall (d : option string) (st' : State), self st' = self st ->
            wp (match tess_search_results (self st) with
                | Some n => if ind <? n
                            then in_world (emit (Download ind (cutout_size (self st)) d));;
                                 mret (download ind)
                            else raise IndexError
                | None => raise AttributeError
                end) st' Q) as Hrest.
  { intros d [s' w'] Hs; simpl in Hs; subst s'.
    destruct (tess_search_results (self st)); [|apply He].
    destruct (ind <? n); [|apply He].
    apply wp_bind, wp_in_world. intros w [[]|e]; [apply Hv|apply He]. }
  destruct (no_lk_cache (self st)).
  - apply wp_bind, wp_lift. destruct (path_join _ _); [|destruct st; apply He].
    apply wp_ret, Hrest. reflexivity.
  - apply wp_ret, Hrest. reflexivity.
Qed.

Lemma wp_attr_sectors_available (st : State) (Q : State -> outcome nat -> Prop) :
  (forall n, sectors_available (self st) = Some n -> Q st (Val n)) ->
  (sectors_available (self st) = None -> Q st (Raise AttributeError)) ->
  wp attr_sectors_available st Q.
Proof.
  intros Hv He. unfold attr_sectors_available. apply wp_bind, wp_get_self.
  destruct (sectors_available (self st)); [apply Hv|apply He]; reflexivity.
Qed.

(** Whatever one iteration does, it keeps the settings and moves at most
    one counter, by one. *)
Lemma get_lcs_body_step (i : nat) (st : State) :
  step_ok (self st) (self (get_lcs_body TPF download TESSCutLightcurve lstsq i st).1).
Proof.
  change (wp (get_lcs_body TPF download TESSCutLightcurve lstsq i) st
            (fun st' _ => step_ok (self st) (self st'))).
  pose proof (step_ok_refl (self st)) as Hrefl.
  unfold get_lcs_body.
  apply wp_bind, wp_get_self.
  apply wp_bind, wp_when_in_world. intros w1 [[]|e]; [|exact Hrefl].
  apply wp_bind, wp_when; [intros _; apply wp_clear_cache|intros _]; simpl.
  all: try (intros w2 [[]|e]; [|exact Hrefl]).
  all: apply wp_bind, wp_downloadable; [|intros; exact Hrefl]; simpl; intros w3.
  all: apply wp_bind, wp_attr_sectors_available; [|intros; exact Hrefl]; simpl; intros n Hn.
  all: set (s := self st) in *.
  all: repeat wp_step ltac:(first [ exact Hrefl
                                  | split; [repeat split
                                           |right; unfold counts; simpl;
                                            rewrite Nat.add_1_r; constructor] ]).
Qed.

Lemma for_each_cons {S} (i : nat) (rest : list nat) (body : nat -> ST S signal) (s : S) :
  for_each (i :: rest) body s =
  match body i s with
  | (s', Val Continue) => for_each rest body s'
  | (s', Val Return) => (s', Val Return)
  | (s', Raise e) => (s', Raise e)
  end.
Proof.
  simpl. unfold mbind, ST_bind. destruct (body i s) as [s' [[|]|e]]; reflexivity.
Qed.

Lemma for_each_app {S} (l1 l2 : list nat) (body : nat -> ST S signal) (s s' : S) :
  for_each l1 body s = (s', Val Continue) ->
  for_each (l1 ++ l2) body s = for_each l2 body s'.
Proof.
  revert s. induction l1 as [|i l1 IH]; intros s H.
  - simpl in H. injection H as ->. reflexivity.
  - rewrite <- app_comm_cons, for_each_cons. rewrite for_each_cons in H.
    destruct (body i s) as [s1 [[|]|e]]; [apply IH, H|discriminate H ..].
Qed.

(** The loop keeps the settings, and after it the counters have grown by
    at most the number of indices it was given. *)
Lemma for_each_steps (inds : list nat) (st : State) :
  same_settings (self st)
    (self (for_each inds (get_lcs_body TPF download TESSCutLightcurve lstsq) st).1) /\
  tally (self (for_each inds (get_lcs_body TPF download TESSCutLightcurve lstsq) st).1)
    <= tally (self st) + length inds.
Proof.
  revert st. induction inds as [|i inds IH]; intros st.
  - simpl. split; [repeat split|lia].
  - rewrite for_each_cons.
    pose proof (get_lcs_body_step i st) as Hstep.
    pose proof (step_ok_tally _ _ Hstep) as Htot. destruct Hstep as [Hset _].
    destruct (get_lcs_body TPF download TESSCutLightcurve lstsq i st) as [st1 [[|]|e]];
      simpl in *; try (split; [exact Hset|lia]).
    destruct (IH st1) as [Hset1 Htot1].
    split; [eapply same_settings_trans; eassumption|lia].
Qed.

(** [get_lcs] is its loop, followed by line 307 when the loop was not
    left by [return]. *)
Lemma get_lcs_unfold (st : State) (n : nat) :
  sectors_available (self st) = Some n ->
  get_lcs TPF download TESSCutLightcurve lstsq st =
  match for_each (seq 0 n) (get_lcs_body TPF download TESSCutLightcurve lstsq)
          (loop_entry st n) with
  | (st', Val Return) => (st', Val tt)
  | (st', Val Continue) => (st', Raise TypeError)
  | (st', Raise e) => (st', Raise e)
  end.
Proof.
  intros Hn. unfold get_lcs, attr_sectors_available, call_bool, loop_entry.
  unfold mbind, ST_bind, get_self, modify_self, raise, mret, ST_ret. simpl. rewrite Hn.
  destruct (for_each _ _ _) as [st' [[|]|e]]; reflexivity.
Qed.

Lemma get_lcs_without_search (st : State) :
  sectors_available (self st) = None ->
  get_lcs TPF download TESSCutLightcurve lstsq st = (st, Raise AttributeError).
Proof.
  intros Hn. unfold get_lcs, attr_sectors_available.
  unfold mbind, ST_bind, get_self, raise. simpl. rewrite Hn. reflexivity.
Qed.

Lemma loop_entry_settings (st : State) (n : nat) :
  same_settings (self st) (self (loop_entry st n)) /\
  counts (self (loop_entry st n)) = counts (self st).
Proof. split; [repeat split|reflexivity]. Qed.

Lemma get_lcs_settings (st : State) :
  same_settings (self st) (self (get_lcs TPF download TESSCutLightcurve lstsq st).1).
Proof.
  destruct (sectors_available (self st)) as [n|] eqn:Hn.
  - rewrite (get_lcs_unfold st n Hn).
    pose proof (for_each_steps (seq 0 n) (loop_entry st n)) as [Hset _].
    destruct (for_each _ _ _) as [st' [[|]|e]]; simpl in *;
      (eapply same_settings_trans; [apply loop_entry_settings|exact Hset]).
  - rewrite (get_lcs_without_search st Hn). repeat split.
Qed.
End LoopProperties.

Lemma same_settings_sectors (a b : EnsembleLC) :
  same_settings a b -> sectors_available b = sectors_available a.
Proof. unfold same_settings. intros H. decompose [and] H. assumption. Qed.

Lemma same_settings_path (a b : EnsembleLC) :
  same_settings a b ->
  output_path b = output_path a /\ callable b = callable a /\
  no_lk_cache b = no_lk_cache a.
Proof. unfold same_settings. intros H. decompose [and] H. auto. Qed.

(** ** The gate policy *)

Section GatePolicy.
Variable TPF : Type.
Variable download : nat -> option TPF.
Variable TESSCutLightcurve : option TPF -> Adapter.
Variable lstsq : list coefficients -> list Q -> outcome coefficients.

Local Opaque pretty String.append join_component scattered_light Nat.ltb Nat.eqb clear_cache.

(** The iteration in which gate [g] fails: it evaluates the gates up to
    [g] and no other, adds one to the counter of [g] and to nothing else,
    and ends with [continue] before the last index and [return] at it. *)
Lemma get_lcs_body_gate_failure (st : State) (n i : nat) (g : gate) :
  sectors_available (self st) = Some n -> i < n ->
  gate_fails TPF download TESSCutLightcurve lstsq st g i ->
  exists st' new,
    get_lcs_body TPF download TESSCutLightcurve lstsq i st =
      (st', Val (if i + 1 <? n then Continue else Return)) /\
    trace (world st') = trace (world st) ++ new /\
    gates_of new = map (fun g' => (g', i)) (gates_upto g) /\
    counter g (self st') = counter g (self st) + 1 /\
    (forall g', g' <> g -> counter g' (self st') = counter g' (self st)) /\
    n_good_obs (self st') = n_good_obs (self st) /\
    lcs (self st') = lcs (self st).
Proof.
  intros Hn Hi [[Hcache (m & Hm & Him)] Hg].
  destruct st as [s [f d si tr]].
  destruct s as [sl sf ls op ra ca cal cn loc pc cs slf np vb nlc db nfd nne nsl ngo sa ts].
  simpl in *. subst.
  assert ((i <? m) = true) as Hlt by (apply Nat.ltb_lt; exact Him).
  assert ((i + 1 <? n) = false -> (i + 1 =? n) = true) as Hlast.
  { intros H. apply Nat.ltb_ge in H. apply Nat.eqb_eq. lia. }
  unfold get_lcs_body, downloadable, attr_sectors_available.
  unfold when, in_world, emit, print, lift, raise, modify_self, get_self, get_world,
         mbind, mret, ST_bind, ST_ret.
  destruct g; simpl in Hg;
    [ | destruct Hg as [[tpfs Hd] He]; rewrite Hd in He
      | destruct Hg as ([tpfs Hd] & He & Hs); rewrite Hd in He, Hs ];
    (destruct nlc;
     [destruct (Hcache eq_refl) as (dir & Hdir & Hpurge);
      destruct (path_join_some _ _ _ Hdir) as (p & [= ->] & ->)|]);
    destruct vb; simpl;
    try (match goal with
         | |- context [clear_cache ?x] =>
             pose proof (clear_cache_effect x) as Hrun;
             pose proof (clear_cache_purgeable x _ eq_refl Hpurge) as Hok;
             unfold wp in Hrun;
             destruct (clear_cache x) as [[s2 [f2 d2 si2 tr2]] r2]
         end;
         simpl in Hrun, Hok; destruct Hrun as (-> & -> & -> & _ & Htr); subst r2;
         destruct Htr as [[_ [e Habs]]|(dir' & [= <-] & ->)]; [discriminate Habs|];
         simpl);
    rewrite Hlt; simpl;
    first [rewrite Hg | rewrite Hd]; simpl; rewrite ?He; simpl; rewrite ?Hs; simpl;
    (destruct (i + 1 <? n) eqn:E; [|rewrite (Hlast eq_refl)]); simpl;
    (eexists; eexists; split; [reflexivity|]; simpl; rewrite <- ?app_assoc;
     split; [reflexivity|]; split; [reflexivity|]; split; [reflexivity|];
     split; [intros [] ?; simpl; congruence|split; reflexivity]).
Qed.

(** C1: in every run of [get_lcs] that reaches index [i] (the loop over
    the indices before [i] went through), if gate [g] fails at [i] (which
    includes that the iteration gets as far as the gates: when the cache
    of lightkurve is avoided, the folder of cached cubes is there and can
    be purged; otherwise the iteration raises before any gate), then
    the iteration evaluates the gates up to [g] for [i] and none after it,
    adds exactly one to the counter of [g] and leaves the other counters,
    the good count and the slots as they were; if [i + 1 < sectors_available]
    the run goes on as the loop from index [i + 1], and if [i] is the last
    index [get_lcs] returns at once, in the state the failing gate left. *)
Theorem gate_failure_policy (st0 st : State) (n i : nat) (g : gate) :
  sectors_available (self st0) = Some n -> i < n ->
  for_each (seq 0 i) (get_lcs_body TPF download TESSCutLightcurve lstsq)
    (loop_entry st0 n) = (st, Val Continue) ->
  gate_fails TPF download TESSCutLightcurve lstsq st g i ->
  exists st' new,
    trace (world st') = trace (world st) ++ new /\
    gates_of new = map (fun g' => (g', i)) (gates_upto g) /\
    counter g (self st') = counter g (self st) + 1 /\
    (forall g', g' <> g -> counter g' (self st') = counter g' (self st)) /\
    n_good_obs (self st') = n_good_obs (self st) /\
    lcs (self st') = lcs (self st) /\
    (i + 1 < n ->
       get_lcs_body TPF download TESSCutLightcurve lstsq i st = (st', Val Continue) /\
       for_each (seq 0 n) (get_lcs_body TPF download TESSCutLightcurve lstsq)
         (loop_entry st0 n) =
       for_each (seq (i + 1) (n - (i + 1)))
         (get_lcs_body TPF download TESSCutLightcurve lstsq) st') /\
    (i + 1 = n ->
       get_lcs_body TPF download TESSCutLightcurve lstsq i st = (st', Val Return) /\
       get_lcs TPF download TESSCutLightcurve lstsq st0 = (st', Val tt)).
Proof.
  intros Hn Hi Hrun Hfail.
  assert (sectors_available (self st) = Some n) as Hn'.
  { pose proof (for_each_steps TPF download TESSCutLightcurve lstsq (seq 0 i)
                  (loop_entry st0 n)) as [Hset _].
    rewrite Hrun in Hset. apply same_settings_sectors in Hset.
    simpl in Hset. rewrite Hset. exact Hn. }
  destruct (get_lcs_body_gate_failure st n i g Hn' Hi Hfail)
    as (st' & new & Hbody & Htr & Hgates & Hc & Hother & Hgood & Hlcs).
  exists st', new. repeat (split; [assumption|]).
  assert (seq 0 n = seq 0 i ++ i :: seq (i + 1) (n - (i + 1))) as Hseq.
  { replace n with (i + S (n - (i + 1))) at 1 by lia.
    rewrite seq_app. simpl. rewrite Nat.add_1_r. reflexivity. }
  split.
  - intros Hlt. assert ((i + 1 <? n) = true) as E by (apply Nat.ltb_lt; lia).
    rewrite E in Hbody. split; [exact Hbody|].
    rewrite Hseq, (for_each_app _ _ _ _ _ Hrun), for_each_cons, Hbody. reflexivity.
  - intros Heq. assert ((i + 1 <? n) = false) as E by (apply Nat.ltb_ge; lia).
    rewrite E in Hbody. split; [exact Hbody|].
    rewrite (get_lcs_unfold _ _ _ _ _ _ Hn), Hseq, (for_each_app _ _ _ _ _ Hrun),
      for_each_cons, Hbody. reflexivity.
Qed.

(** C2, what the code does: whenever the loop over all the candidates
    goes through without a last-candidate [return], [get_lcs] raises
    [TypeError] at line 307, where the flag [no_lk_cache] is called
    instead of read; it ends in the very state the loop left, so no purge
    follows the loop, whatever the flag says. *)
Theorem get_lcs_raises_after_loop (st st' : State) (n : nat) :
  sectors_available (self st) = Some n ->
  for_each (seq 0 n) (get_lcs_body TPF download TESSCutLightcurve lstsq)
    (loop_entry st n) = (st', Val Continue) ->
  get_lcs TPF download TESSCutLightcurve lstsq st = (st', Raise TypeError).
Proof.
  intros Hn Hloop. rewrite (get_lcs_unfold _ _ _ _ _ _ Hn), Hloop. reflexivity.
Qed.

(** C5, as amended: in a run of [get_lcs] that starts with the four
    counters at zero, as the constructor leaves them, the sum of the four
    counters is at most [sectors_available] after every number [k] of
    iterations and when [get_lcs] has ended (by return or by exception);
    and an iteration, from any state, either leaves the four counters
    alone or adds one to exactly one of them. *)
Theorem counters_invariant (st : State) (n : nat) :
  sectors_available (self st) = Some n -> tally (self st) = 0 ->
  (forall k, k <= n ->
     tally (self (for_each (seq 0 k) (get_lcs_body TPF download TESSCutLightcurve lstsq)
                    (loop_entry st n)).1) <= n) /\
  tally (self (get_lcs TPF download TESSCutLightcurve lstsq st).1) <= n /\
  (forall i st1,
     counts (self (get_lcs_body TPF download TESSCutLightcurve lstsq i st1).1)
       = counts (self st1) \/
     one_more (counts (self st1))
       (counts (self (get_lcs_body TPF download TESSCutLightcurve lstsq i st1).1))).
Proof.
  intros Hn H0.
  assert (forall k, tally (self (for_each (seq 0 k)
              (get_lcs_body TPF download TESSCutLightcurve lstsq) (loop_entry st n)).1) <= k)
    as Hprefix.
  { intros k.
    pose proof (for_each_steps TPF download TESSCutLightcurve lstsq (seq 0 k)
                  (loop_entry st n)) as [_ Htot].
    rewrite length_seq in Htot.
    assert (tally (self (loop_entry st n)) = tally (self st)) as Heq by reflexivity.
    lia. }
  split; [intros k Hk; specialize (Hprefix k); lia|]. split.
  - rewrite (get_lcs_unfold _ _ _ _ _ _ Hn). specialize (Hprefix n).
    destruct (for_each _ _ _) as [st' [[|]|e]]; exact Hprefix.
  - intros i st1. apply get_lcs_body_step.
Qed.
End GatePolicy.

Transparent pretty String.append join_component scattered_light Nat.ltb Nat.eqb clear_cache.

(** The small run: the first sector passes, the second fails the download
    and is skipped, the third fails the edge gate and ends the run. *)
Example fixture_run :
  let st := (get_lcs nat Fixture.download Fixture.TESSCutLightcurve Fixture.lstsq
               {| self := Fixture.searched 3; world := Fixture.disk |}) in
  st.2 = Val tt /\
  counts (self st.1) = (1, 1, 1, 0) /\
  gates_of (trace (world st.1)) =
    [(DownloadGate, 0); (EdgeGate, 0); (ScatteredLightGate, 0);
     (DownloadGate, 1);
     (DownloadGate, 2); (EdgeGate, 2)] /\
  length (lcs (self st.1)) = 3.
Proof. vm_compute. repeat split. Qed.

(** The same run without the cache of lightkurve: each iteration starts
    with a purge, and the cube that lay in the folder is gone. *)
Example cached_run :
  let st := (get_lcs nat Fixture.download Fixture.TESSCutLightcurve Fixture.lstsq
               {| self := Fixture.cached_searched 3; world := Fixture.cache_disk |}) in
  st.2 = Val tt /\
  counts (self st.1) = (1, 1, 1, 0) /\
  files Fixture.cache_disk !! "out/cache/tesscut/cube.fits" = Some Fixture.cube /\
  files (world st.1) !! "out/cache/tesscut/cube.fits" = None /\
  omap (fun e => match e with
                 | ClearCache dir => Some dir
                 | _ => None
                 end) (trace (world st.1))
    = replicate 3 "out/cache/tesscut".
Proof. vm_compute. repeat (split; [reflexivity|]). reflexivity. Qed.

(** When the folder of cached cubes is missing, the first purge fails
    and nothing else happens. *)
Example cache_folder_missing :
  let st := (get_lcs nat Fixture.download Fixture.TESSCutLightcurve Fixture.lstsq
               {| self := Fixture.cached_searched 3; world := Fixture.disk |}) in
  st.2 = Raise OSError /\
  counts (self st.1) = (0, 0, 0, 0) /\
  actions_of (trace (world st.1)) = [].
Proof. vm_compute. repeat (split; [reflexivity|]). reflexivity. Qed.

Lemma gate_failure_policy_witness :
  let body := get_lcs_body nat Fixture.download Fixture.TESSCutLightcurve Fixture.lstsq in
  let st0 := {| self := Fixture.cached_searched 3; world := Fixture.cache_disk |} in
  let st := (for_each (seq 0 2) body (loop_entry st0 3)).1 in
  gate_fails nat Fixture.download Fixture.TESSCutLightcurve Fixture.lstsq st EdgeGate 2 /\
  exists st' new,
    trace (world st') = trace (world st) ++ new /\
    gates_of new = map (fun g' => (g', 2)) (gates_upto EdgeGate) /\
    counter EdgeGate (self st') = counter EdgeGate (self st) + 1 /\
    (forall g', g' <> EdgeGate -> counter g' (self st') = counter g' (self st)) /\
    n_good_obs (self st') = n_good_obs (self st) /\
    lcs (self st') = lcs (self st) /\
    (2 + 1 < 3 ->
       body 2 st = (st', Val Continue) /\
       for_each (seq 0 3) body (loop_entry st0 3) =
       for_each (seq (2 + 1) (3 - (2 + 1))) body st') /\
    (2 + 1 = 3 ->
       body 2 st = (st', Val Return) /\
       get_lcs nat Fixture.download Fixture.TESSCutLightcurve Fixture.lstsq st0 = (st', Val tt)).
Proof.
  intros body st0 st.
  assert (gate_fails nat Fixture.download Fixture.TESSCutLightcurve Fixture.lstsq
            st EdgeGate 2) as Hfail.
  { split; [split|].
    - intros _. exists "out/cache/tesscut". split; [reflexivity|].
      apply purgeable_check. vm_compute. reflexivity.
    - exists 3. split; [vm_compute; reflexivity|lia].
    - vm_compute. split; [exists 2; reflexivity|reflexivity]. }
  split; [exact Hfail|].
  apply (gate_failure_policy nat Fixture.download Fixture.TESSCutLightcurve Fixture.lstsq
           st0 st 3 2 EdgeGate).
  - reflexivity.
  - lia.
  - vm_compute. reflexivity.
  - exact Hfail.
Defined.

Lemma get_lcs_raises_after_loop_witness :
  let st := {| self := Fixture.searched 1; world := Fixture.disk |} in
  get_lcs nat Fixture.download Fixture.TESSCutLightcurve Fixture.lstsq st =
  ((for_each (seq 0 1)
      (get_lcs_body nat Fixture.download Fixture.TESSCutLightcurve Fixture.lstsq)
      (loop_entry st 1)).1, Raise TypeError).
Proof.
  intros st.
  apply (get_lcs_raises_after_loop nat Fixture.download Fixture.TESSCutLightcurve
           Fixture.lstsq st _ 1).
  - reflexivity.
  - vm_compute. reflexivity.
Defined.

(** C5 as stated fails after a second [get_lcs] on the same object: the
    slots are emptied again but the counters are not.  In the small run
    both calls return normally, and after the second the three sectors
    have been counted twice. *)
Lemma counters_exceed_after_second_run :
  let st := {| self := Fixture.searched 3; world := Fixture.disk |} in
  let run1 := get_lcs nat Fixture.download Fixture.TESSCutLightcurve Fixture.lstsq st in
  let run2 := get_lcs nat Fixture.download Fixture.TESSCutLightcurve Fixture.lstsq run1.1 in
  run1.2 = Val tt /\ run2.2 = Val tt /\
  sectors_available (self run2.1) = Some 3 /\
  counts (self run1.1) = (1, 1, 1, 0) /\
  counts (self run2.1) = (2, 2, 2, 0) /\
  ~ tally (self run2.1) <= 3.
Proof.
  vm_compute. repeat split. intros H.
  repeat match goal with
         | H : (_ <= _)%nat |- _ => inversion H; clear H; subst
         end.
Qed.

Lemma counters_invariant_witness :
  let body := get_lcs_body nat Fixture.download Fixture.TESSCutLightcurve Fixture.lstsq in
  let st := {| self := Fixture.searched 3; world := Fixture.disk |} in
  (forall k, k <= 3 -> tally (self (for_each (seq 0 k) body (loop_entry st 3)).1) <= 3) /\
  tally (self (get_lcs nat Fixture.download Fixture.TESSCutLightcurve Fixture.lstsq st).1) <= 3 /\
  (forall i st1,
     counts (self (body i st1).1) = counts (self st1) \/
     one_more (counts (self st1)) (counts (self (body i st1).1))).
Proof.
  intros body st.
  apply (counters_invariant nat Fixture.download Fixture.TESSCutLightcurve Fixture.lstsq st 3);
    reflexivity.
Defined.

(** ** The summary header *)

Lemma summary_header_name (s : EnsembleLC) (n : nat) :
  header_get (summary_header s n) "Name" = Val (opt_str (cluster_name s)).
Proof. reflexivity. Qed.

Lemma summary_header_location (s : EnsembleLC) (n : nat) :
  header_get (summary_header s n) "Location" = Val (opt_str (location s)).
Proof. reflexivity. Qed.

Lemma summary_header_radius (s : EnsembleLC) (n : nat) :
  header_get (summary_header s n) "Radius [deg]" = Val (opt_float (radius s)).
Proof. reflexivity. Qed.

(** The age is stored under the keyword [Log Age] ... *)
Lemma summary_header_log_age_written (s : EnsembleLC) (n : nat) :
  header_get (summary_header s n) "Log Age" = Val (opt_float (cluster_age s)).
Proof. reflexivity. Qed.

(** ... and [from_fits] asks for [Log_Age], which no card has. *)
Lemma summary_header_log_age_read (s : EnsembleLC) (n : nat) :
  header_get (summary_header s n) "Log_Age" = Raise (KeyError "LOG_AGE").
Proof. reflexivity. Qed.

Lemma summary_header_counters (s : EnsembleLC) (n : nat) :
  header_get (summary_header s n) "n_obs_available" = Val (PInt (Z.of_nat n)) /\
  header_get (summary_header s n) "n_good_obs" = Val (PInt (Z.of_nat (n_good_obs s))) /\
  header_get (summary_header s n) "n_failed_download"
    = Val (PInt (Z.of_nat (n_failed_download s))) /\
  header_get (summary_header s n) "n_near_edge" = Val (PInt (Z.of_nat (n_near_edge s))) /\
  header_get (summary_header s n) "n_scattered_light"
    = Val (PInt (Z.of_nat (n_scattered_light s))).
Proof. repeat split. Qed.

(** ** The constructor *)

Section Constructor.
Variable to_deg : Q -> string -> outcome Q.
Variable to_log10_yr : Q -> string -> outcome Q.

(** C9: constructing the object with neither a cluster name nor a
    location raises [AssertionError] whatever the other arguments are,
    and leaves the world as it was: nothing was printed, asked or
    created before the check. *)
Theorem init_rejects_anonymous (a : InitArgs) (w : World) :
  arg_cluster_name a = None -> arg_location a = None ->
  __init__ to_deg to_log10_yr a w = (w, Raise AssertionError).
Proof.
  intros Hn Hl. unfold __init__. rewrite Hn, Hl. reflexivity.
Qed.

(** The object a successful construction returns: counters at zero, no
    slot, no search yet, the identifier chosen as name-else-location, and
    an output location whenever the cache of lightkurve is avoided. *)
Lemma init_fresh (a : InitArgs) (w w' : World) (s : EnsembleLC) :
  __init__ to_deg to_log10_yr a w = (w', Val s) ->
  counts s = (0, 0, 0, 0) /\ lcs s = [] /\
  sectors_available s = None /\ tess_search_results s = None /\
  cluster_name s = arg_cluster_name a /\ location s = arg_location a /\
  callable s = match arg_cluster_name a with
               | Some name => Some name
               | None => arg_location a
               end /\
  is_Some (callable s) /\
  (no_lk_cache s = true -> is_Some (output_path s)).
Proof.
  intros Hrun.
  cut (wp (__init__ to_deg to_log10_yr a) w
         (fun _ r => forall s, r = Val s ->
            counts s = (0, 0, 0, 0) /\ lcs s = [] /\
            sectors_available s = None /\ tess_search_results s = None /\
            cluster_name s = arg_cluster_name a /\ location s = arg_location a /\
            callable s = match arg_cluster_name a with
                         | Some name => Some name
                         | None => arg_location a
                         end /\
            is_Some (callable s) /\
            (no_lk_cache s = true -> is_Some (output_path s)))).
  { unfold wp. rewrite Hrun. simpl. auto. }
  clear Hrun. unfold __init__.
  apply wp_bind.
  destruct (is_none (arg_cluster_name a) && is_none (arg_location a)) eqn:Hid;
    [apply wp_raise; discriminate|apply wp_ret].
  apply wp_bind. unfold wp at 1.
  destruct (_ w) as [w1 [radius|e]]; simpl; [|discriminate].
  apply wp_bind. unfold wp at 1.
  destruct (_ w1) as [w2 [cluster_age|e]]; simpl; [|discriminate].
  apply wp_bind, wp_bind. unfold wp at 1.
  destruct (_ w2) as [w3 [output_path|e]]; simpl; [|discriminate].
  apply wp_bind.
  assert (wp (if arg_no_lk_cache a
              then cache ← lift (path_join output_path ["cache"]);
                   w ← get_world;
                   if path_exists w cache then mret tt
                   else mkdir cache;;
                        tesscut ← lift (path_join output_path ["cache"; "tesscut"]);
                        mkdir tesscut
              else mret tt) w3
            (fun _ r => r = Val tt -> arg_no_lk_cache a = true -> is_Some output_path))
    as Hcache.
  { destruct (arg_no_lk_cache a); [|discriminate].
    destruct output_path; [intros _ _; eauto|]. discriminate. }
  unfold wp in Hcache |- * at 1.
  destruct (_ w3) as [w4 [[]|e]]; simpl in *; [|discriminate].
  apply wp_bind. unfold wp at 1.
  destruct (_ w4) as [w5 [save|e]]; simpl; [|discriminate].
  apply wp_ret. intros s' [= <-]. simpl.
  repeat (split; [reflexivity|]). split; [|auto].
  destruct (arg_cluster_name a); [eauto|].
  destruct (arg_location a); [eauto|discriminate Hid].
Qed.
End Constructor.

Lemma init_rejects_anonymous_witness :
  __init__ Fixture.to_deg Fixture.to_log10_yr Fixture.anonymous_args Fixture.disk
    = (Fixture.disk, Raise AssertionError).
Proof.
  apply (init_rejects_anonymous Fixture.to_deg Fixture.to_log10_yr
           Fixture.anonymous_args Fixture.disk); reflexivity.
Defined.

(** The object of the small run is the one the constructor builds. *)
Example init_builds_fixture :
  __init__ Fixture.to_deg Fixture.to_log10_yr Fixture.args Fixture.disk
    = (Fixture.disk, Val Fixture.ecl).
Proof. vm_compute. reflexivity. Qed.

(** ** Persistence and reload *)

Ltac no_return := intros ?; discriminate.

Section Persistence.
Variable TPF : Type.
Variable search_tesscut : option string -> nat.
Variable download : nat -> option TPF.
Variable TESSCutLightcurve : option TPF -> Adapter.
Variable lstsq : list coefficients -> list Q -> outcome coefficients.
Variable to_deg : Q -> string -> outcome Q.
Variable to_log10_yr : Q -> string -> outcome Q.

(** The search records the number of results twice and touches nothing
    else of the object. *)
Lemma has_tess_data_searched (st : State) :
  let st' := (has_tess_data search_tesscut st).1 in
  sectors_available (self st') = Some (search_tesscut (callable (self st))) /\
  tess_search_results (self st') = Some (search_tesscut (callable (self st))) /\
  counts (self st') = counts (self st) /\ lcs (self st') = lcs (self st) /\
  output_path (self st') = output_path (self st) /\
  callable (self st') = callable (self st) /\
  (has_tess_data search_tesscut st).2
    = Val (0 <? search_tesscut (callable (self st))).
Proof.
  unfold has_tess_data.
  unfold mbind, mret, ST_bind, ST_ret, get_self, in_world, emit, print, modify_self, when.
  simpl. destruct (verbose (self st)); repeat split.
Qed.

Lemma wp_keeps_target {A} (m : ST State A) (st : State)
    (Q : State -> outcome A -> Prop) :
  keeps_target m ->
  (forall st' r, output_path (self st') = output_path (self st) ->
                 callable (self st') = callable (self st) -> Q st' r) ->
  wp m st Q.
Proof. intros Hk H. apply H; apply Hk. Qed.

Lemma keeps_has_tess_data : keeps_target (has_tess_data search_tesscut).
Proof. intros st. split; apply has_tess_data_searched. Qed.

Lemma keeps_get_lcs : keeps_target (get_lcs TPF download TESSCutLightcurve lstsq).
Proof.
  intros st.
  destruct (same_settings_path _ _ (get_lcs_settings TPF download TESSCutLightcurve lstsq st))
    as (H1 & H2 & _).
  split; assumption.
Qed.

Lemma keeps_clear_cache : keeps_target clear_cache.
Proof.
  intros st.
  change (wp clear_cache st (fun st' _ => output_path (self st') = output_path (self st) /\
                                          callable (self st') = callable (self st))).
  apply wp_clear_cache. split; reflexivity.
Qed.

Lemma hdus_self (slots : list (option lightcurve)) (st : State) :
  self (hdus slots st).1 = self st.
Proof.
  revert st. induction slots as [|[lc|] slots IH]; intros st; simpl; [reflexivity| |apply IH].
  unfold mbind, ST_bind.
  assert (self (lc_hdu lc st).1 = self st) as Hlc.
  { destruct lc; simpl; [reflexivity|]. unfold in_world.
    destruct (Table_read _ _ _); reflexivity. }
  destruct (lc_hdu lc st) as [st1 [t|e]]; simpl in *; [|exact Hlc].
  specialize (IH st1). destruct (hdus slots st1) as [st2 [ts|e]]; simpl in *; congruence.
Qed.

Lemma wp_hdus (slots : list (option lightcurve)) (st : State)
    (Q : State -> outcome (list Table) -> Prop) :
  (forall w r, Q {| self := self st; world := w |} r) -> wp (hdus slots) st Q.
Proof.
  intros H. unfold wp. pose proof (hdus_self slots st) as Hs.
  destruct (hdus slots st) as [[s w] r]. simpl in *. subst s. apply H.
Qed.

(** The slots filled by the loop are written as one record each, in the
    order of the candidates, and the empty slots are skipped. *)
Lemma hdus_of_adapters (slots : list (option Adapter)) (st : State) :
  hdus (map (fun slot => TESSCut <$> slot) slots) st
    = (st, Val (omap (fun slot => adapter_hdu <$> slot) slots)).
Proof.
  induction slots as [|[a|] slots IH]; simpl; [reflexivity| |exact IH].
  unfold mbind, ST_bind, mret, ST_ret in *. simpl. rewrite IH. reflexivity.
Qed.

Lemma previously_downloaded_pure (st : State) : (previously_downloaded st).1 = st.
Proof.
  unfold previously_downloaded.
  unfold mbind, mret, ST_bind, ST_ret, get_self, lift, in_world, get_world.
  simpl. destruct (path_join _ _); destruct st; reflexivity.
Qed.

(** A call of [lightcurves_summary_file] that returns [None] has written
    the file: the primary header is the summary of the object, the tables
    are the records of the slots, and the object still names that file. *)
Lemma lightcurves_summary_file_writes (st st' : State) (path : string) :
  path_join (output_path (self st))
    ["Corrected_LCs/"; str (callable (self st)) +:+ "output_table.fits"] = Val path ->
  lightcurves_summary_file TPF search_tesscut download TESSCutLightcurve lstsq st
    = (st', Val None) ->
  output_path (self st') = output_path (self st) /\
  callable (self st') = callable (self st) /\
  exists sectors records,
    files (world st') !! path
      = Some {| primary := summary_header (self st') sectors; tables := records |}.
Proof.
  intros Hpath Hrun.
  cut (wp (lightcurves_summary_file TPF search_tesscut download TESSCutLightcurve lstsq) st
         (fun st' r => r = Val None ->
            output_path (self st') = output_path (self st) /\
            callable (self st') = callable (self st) /\
            exists sectors records,
              files (world st') !! path
                = Some {| primary := summary_header (self st') sectors;
                          tables := records |})).
  { unfold wp. rewrite Hrun. simpl. auto. }
  clear Hrun st'.
  assert (exists p, output_path (self st) = Some p) as [p Hp].
  { destruct (output_path (self st)); [eauto|discriminate Hpath]. }
  unfold lightcurves_summary_file.
  apply wp_bind, wp_get_self, wp_bind, wp_lift. rewrite Hpath.
  apply wp_bind. unfold wp at 1. rewrite (surjective_pairing (previously_downloaded st)).
  rewrite previously_downloaded_pure. simpl.
  destruct (previously_downloaded st).2 as [[|]|e]; [| |no_return].
  - apply wp_bind, wp_in_world. intros w [t|e]; [apply wp_ret|]; no_return.
  - apply wp_bind.
    apply wp_keeps_target; [apply keeps_has_tess_data|].
    intros st1 [has|e] H1 C1; [|no_return].
    apply wp_bind.
    assert (forall Q : State -> outcome unit -> Prop,
              (forall st2 r, output_path (self st2) = output_path (self st) ->
                             callable (self st2) = callable (self st) -> Q st2 r) ->
              wp (if has then get_lcs TPF download TESSCutLightcurve lstsq;;
                             when (no_lk_cache (self st)) clear_cache
                  else mret tt) st1 Q) as Hmid.
    { intros Q HQ. destruct has; [|apply wp_ret, HQ; congruence].
      apply wp_bind, wp_keeps_target; [apply keeps_get_lcs|].
      intros st2 [[]|e] H2 C2; [|apply HQ; congruence].
      apply wp_when; intros _; [|apply HQ; congruence].
      apply wp_keeps_target; [apply keeps_clear_cache|].
      intros st3 r H3 C3. apply HQ; congruence. }
    apply Hmid. intros st2 [[]|e] H2 C2; [|no_return].
    apply wp_bind, wp_get_self, wp_bind, wp_attr_sectors_available; [|no_return].
    intros sectors _. cbv zeta.
    apply wp_bind, wp_hdus.
    intros w3 [records|e]; [|no_return].
    rewrite H2, Hp. simpl.
    apply wp_bind. unfold wp, in_world, writeto. simpl.
    destruct (path_exists w3 path); simpl; [no_return|].
    destruct (isdir w3 (dirname path)); simpl; [|no_return].
    intros _. split; [congruence|]. split; [exact C2|].
    exists sectors, records. apply lookup_insert_eq.
Qed.

Local Opaque header_get summary_header.

(** Reading back a file whose primary header is a summary stops at the
    age. *)
Lemma from_fits_of_summary (filepath : string) (kwargs : InitArgs) (w : World)
    (s : EnsembleLC) (n : nat) (records : list Table) :
  arg_no_lk_cache kwargs = false ->
  files w !! filepath = Some {| primary := summary_header s n; tables := records |} ->
  from_fits to_deg to_log10_yr filepath kwargs w = (w, Raise (KeyError "LOG_AGE")).
Proof.
  intros Hk Hf. unfold from_fits, __init__, fits_open.
  unfold mbind, mret, ST_bind, ST_ret, lift, raise, get_world. simpl.
  rewrite Hk, Hf. simpl.
  rewrite summary_header_name, summary_header_location, summary_header_radius,
    summary_header_log_age_read.
  destruct (cluster_name s), (location s), (radius s); reflexivity.
Qed.

(** C3, what the code does: whatever was saved, and with however many
    records, [from_fits] on the file that [lightcurves_summary_file] wrote
    raises [KeyError]: the age was stored under [Log Age] and is looked up
    under [Log_Age].  No object is rebuilt, so nothing is reproduced. *)
Theorem reload_of_saved_artifact_raises (st st' : State) (path : string)
    (kwargs : InitArgs) :
  path_join (output_path (self st))
    ["Corrected_LCs/"; str (callable (self st)) +:+ "output_table.fits"] = Val path ->
  lightcurves_summary_file TPF search_tesscut download TESSCutLightcurve lstsq st
    = (st', Val None) ->
  arg_no_lk_cache kwargs = false ->
  from_fits to_deg to_log10_yr path kwargs (world st')
    = (world st', Raise (KeyError "LOG_AGE")).
Proof.
  intros Hpath Hrun Hk.
  destruct (lightcurves_summary_file_writes st st' path Hpath Hrun)
    as (_ & _ & n & records & Hf).
  exact (from_fits_of_summary path kwargs (world st') _ n records Hk Hf).
Qed.

(** When the artifact exists, the call changes neither the object nor
    the world (no search, no loop, no write) and answers with the table
    of HDU [1], which is the first time-series record, not the summary
    kept in the primary header; with no record in the file it raises
    [ValueError]. *)
Lemma lightcurves_summary_file_short_circuit (st : State) (path : string)
    (hdul : HDUList) :
  path_join (output_path (self st))
    ["Corrected_LCs/"; str (callable (self st)) +:+ "output_table.fits"] = Val path ->
  files (world st) !! path = Some hdul ->
  lightcurves_summary_file TPF search_tesscut download TESSCutLightcurve lstsq st =
  (st, match tables hdul with
       | [] => Raise ValueError
       | first_record :: _ => Val (Some first_record)
       end).
Proof.
  intros Hpath Hf. destruct st as [s w]. simpl in *.
  unfold lightcurves_summary_file, previously_downloaded, Table_read.
  unfold mbind, mret, ST_bind, ST_ret, get_self, lift, in_world, get_world. simpl.
  rewrite Hpath. simpl.
  assert (path_exists w path = true) as ->.
  { unfold path_exists. rewrite Hf.
    rewrite (bool_decide_eq_true_2 (is_Some (Some hdul))); [|eauto].
    apply orb_true_r. }
  cbn [world self]. rewrite Hf. destruct (tables hdul); reflexivity.
Qed.

(** C6, what the code does: a first call that saved returned [None]; the
    file it wrote holds the summary in its primary header and the records
    after it.  A second call finds the file and changes neither the
    object nor the world (no search, no loop, no write), but what it
    answers with is the table of HDU [1], the first time-series record,
    not the summary; with no record in the file it raises [ValueError]. *)
Theorem second_save_returns_first_record (st st' : State) (path : string) :
  path_join (output_path (self st))
    ["Corrected_LCs/"; str (callable (self st)) +:+ "output_table.fits"] = Val path ->
  lightcurves_summary_file TPF search_tesscut download TESSCutLightcurve lstsq st
    = (st', Val None) ->
  exists sectors records,
    files (world st') !! path
      = Some {| primary := summary_header (self st') sectors; tables := records |} /\
    lightcurves_summary_file TPF search_tesscut download TESSCutLightcurve lstsq st' =
    (st', match records with
          | [] => Raise ValueError
          | first_record :: _ => Val (Some first_record)
          end).
Proof.
  intros Hpath Hrun.
  destruct (lightcurves_summary_file_writes st st' path Hpath Hrun)
    as (Ho & Hc & n & records & Hf).
  exists n, records. split; [exact Hf|].
  rewrite <- Ho, <- Hc in Hpath.
  exact (lightcurves_summary_file_short_circuit st' path _ Hpath Hf).
Qed.

(** C8, what the code does: without an output location
    [lightcurves_summary_file] raises [TypeError] on its first line, where
    the path of the artifact is joined from [None]; the guard of line 347
    is never reached. *)
Theorem lightcurves_summary_file_without_output_path (st : State) :
  output_path (self st) = None ->
  lightcurves_summary_file TPF search_tesscut download TESSCutLightcurve lstsq st
    = (st, Raise TypeError).
Proof.
  intros H. unfold lightcurves_summary_file.
  unfold mbind, ST_bind, get_self. rewrite H. reflexivity.
Qed.

(** C7, what the code does: without an output location no artifact can
    exist, and [access_lightcurve] raises [TypeError] while joining the
    path instead of warning and returning [(None, None)]. *)
Theorem access_lightcurve_without_output_path (st : State) (observation : nat) :
  output_path (self st) = None ->
  access_lightcurve observation st = (st, Raise TypeError).
Proof.
  intros H. unfold access_lightcurve.
  unfold mbind, mret, ST_bind, ST_ret, get_self, raise, lift. simpl.
  destruct (callable (self st)); [rewrite H|]; reflexivity.
Qed.

(** X25: with an output location and an identifier, a missing artifact is
    reported and answered with [(None, None)]; the object and the disk
    stay as they are. *)
Lemma access_lightcurve_missing_artifact (st : State) (observation : nat)
    (p c path : string) :
  output_path (self st) = Some p -> callable (self st) = Some c ->
  path_join (Some p) ["Corrected_LCs"; c +:+ "output_table.fits"] = Val path ->
  path_exists (world st) path = false ->
  exists warning,
    access_lightcurve observation st =
    ({| self := self st;
        world := set_trace (trace (world st) ++ [Print warning]) (world st) |},
     Val (None, None)).
Proof.
  intros Hp Hc Hpath Hex. unfold access_lightcurve.
  unfold mbind, mret, ST_bind, ST_ret, get_self, raise, lift, in_world, get_world,
         print, emit.
  simpl. rewrite Hc, Hp. rewrite Hpath. simpl. rewrite Hex. simpl.
  eexists. reflexivity.
Qed.

Lemma Table_read_pure (path : string) (hdu : nat) (w : World) :
  (Table_read path hdu w).1 = w.
Proof.
  unfold Table_read. destruct (files w !! path) as [hdul|]; [|reflexivity].
  destruct hdu; [reflexivity|]. destruct (tables hdul !! hdu); reflexivity.
Qed.

Lemma wp_Table_read (path : string) (hdu : nat) (st : State)
    (Q : State -> outcome Table -> Prop) :
  (forall t, (Table_read path hdu (world st)).2 = Val t -> Q st (Val t)) ->
  (forall e, Q st (Raise e)) ->
  wp (in_world (Table_read path hdu)) st Q.
Proof.
  intros Hv He. unfold wp, in_world.
  pose proof (Table_read_pure path hdu (world st)) as Hw.
  destruct (Table_read path hdu (world st)) as [w [t|e]]; simpl in *; subst w;
    destruct st; auto.
Qed.

(** With the artifact in place, a call that returns a table has read the
    table of HDU [1], compared its column [n_good_obs] with [1], and
    returns the table of HDU [2] when they are equal and of HDU
    [observation + 2] otherwise. *)
Lemma access_lightcurve_positions (st st' : State) (observation : nat)
    (p c path : string) (fig : figure) (t : Table) :
  output_path (self st) = Some p -> callable (self st) = Some c ->
  path_join (Some p) ["Corrected_LCs"; c +:+ "output_table.fits"] = Val path ->
  access_lightcurve observation st = (st', Val (Some fig, Some t)) ->
  exists output_table n_good single,
    (Table_read path 1 (world st)).2 = Val output_table /\
    column output_table "n_good_obs" = Val n_good /\
    column_equals n_good 1 = Val single /\
    (Table_read path (if single then 2 else observation + 2) (world st)).2 = Val t.
Proof.
  intros Hp Hc Hpath Hrun.
  cut (wp (access_lightcurve observation) st
         (fun _ r => forall fig t, r = Val (Some fig, Some t) ->
            exists output_table n_good single,
              (Table_read path 1 (world st)).2 = Val output_table /\
              column output_table "n_good_obs" = Val n_good /\
              column_equals n_good 1 = Val single /\
              (Table_read path (if single then 2 else observation + 2) (world st)).2
                = Val t)).
  { unfold wp. rewrite Hrun. simpl. eauto. }
  clear Hrun st' fig t.
  unfold access_lightcurve.
  apply wp_bind, wp_get_self. rewrite Hc.
  apply wp_bind, wp_ret, wp_bind, wp_lift. rewrite Hp, Hpath.
  apply wp_bind, wp_in_world_get.
  destruct (path_exists (world st) path); cbn [negb].
  2:{ apply wp_bind, wp_in_world. intros w [[]|e]; [apply wp_ret|]; intros; discriminate. }
  apply wp_bind, wp_Table_read; [intros output_table Hout|intros; discriminate].
  apply wp_bind, wp_lift.
  destruct (column output_table "n_good_obs") as [n_good|e] eqn:Hcol;
    [|intros; discriminate].
  apply wp_bind, wp_lift.
  destruct (column_equals n_good 1) as [single|e] eqn:Heq; [|intros; discriminate].
  apply wp_bind.
  destruct single;
    (apply wp_Table_read; [intros lct Hlct|intros; discriminate]);
    repeat wp_step ltac:(try (intros; discriminate)).
  all: intros fig t [= <- <-]; eexists output_table, n_good, _; eauto.
Qed.
End Persistence.

Transparent header_get summary_header.

Lemma reload_of_saved_artifact_raises_witness :
  let st := {| self := Fixture.ecl; world := Fixture.disk |} in
  let st' := (lightcurves_summary_file nat Fixture.search_tesscut Fixture.download
                Fixture.TESSCutLightcurve Fixture.lstsq st).1 in
  from_fits Fixture.to_deg Fixture.to_log10_yr "out/Corrected_LCs/M1output_table.fits"
    Fixture.args (world st')
    = (world st', Raise (KeyError "LOG_AGE")).
Proof.
  intros st st'.
  apply (reload_of_saved_artifact_raises nat Fixture.search_tesscut Fixture.download
           Fixture.TESSCutLightcurve Fixture.lstsq Fixture.to_deg Fixture.to_log10_yr
           st st' "out/Corrected_LCs/M1output_table.fits" Fixture.args).
  - vm_compute. reflexivity.
  - vm_compute. reflexivity.
  - reflexivity.
Defined.

Lemma second_save_returns_first_record_witness :
  let st := {| self := Fixture.ecl; world := Fixture.disk |} in
  let st' := (lightcurves_summary_file nat Fixture.search_tesscut Fixture.download
                Fixture.TESSCutLightcurve Fixture.lstsq st).1 in
  exists sectors records,
    files (world st') !! "out/Corrected_LCs/M1output_table.fits"
      = Some {| primary := summary_header (self st') sectors; tables := records |} /\
    lightcurves_summary_file nat Fixture.search_tesscut Fixture.download
      Fixture.TESSCutLightcurve Fixture.lstsq st' =
    (st', match records with
          | [] => Raise ValueError
          | first_record :: _ => Val (Some first_record)
          end).
Proof.
  intros st st'.
  apply (second_save_returns_first_record nat Fixture.search_tesscut Fixture.download
           Fixture.TESSCutLightcurve Fixture.lstsq st st'
           "out/Corrected_LCs/M1output_table.fits").
  - vm_compute. reflexivity.
  - vm_compute. reflexivity.
Defined.

(** An artifact without records: the call on it raises. *)
Example short_circuit_without_records :
  lightcurves_summary_file nat Fixture.search_tesscut Fixture.download
    Fixture.TESSCutLightcurve Fixture.lstsq
    {| self := Fixture.ecl; world := Fixture.saved_disk |}
    = ({| self := Fixture.ecl; world := Fixture.saved_disk |}, Raise ValueError).
Proof. vm_compute. reflexivity. Qed.

Lemma lightcurves_summary_file_without_output_path_witness :
  lightcurves_summary_file nat Fixture.search_tesscut Fixture.download
    Fixture.TESSCutLightcurve Fixture.lstsq
    {| self := Fixture.homeless; world := Fixture.disk |}
    = ({| self := Fixture.homeless; world := Fixture.disk |}, Raise TypeError).
Proof.
  apply (lightcurves_summary_file_without_output_path nat Fixture.search_tesscut
           Fixture.download Fixture.TESSCutLightcurve Fixture.lstsq
           {| self := Fixture.homeless; world := Fixture.disk |}).
  reflexivity.
Defined.

Lemma access_lightcurve_without_output_path_witness :
  access_lightcurve 1 {| self := Fixture.homeless; world := Fixture.disk |}
    = ({| self := Fixture.homeless; world := Fixture.disk |}, Raise TypeError).
Proof.
  apply (access_lightcurve_without_output_path
           {| self := Fixture.homeless; world := Fixture.disk |} 1).
  reflexivity.
Defined.

(** ** One file under two spellings

    [lightcurves_summary_file] and [previously_downloaded] join the folder
    as ["Corrected_LCs/"], [access_lightcurve] as ["Corrected_LCs"]; both
    name the same file. *)

Lemma endswith_sep_app (x y : string) :
  y <> "" -> endswith_sep (x +:+ y) = endswith_sep y.
Proof.
  intros Hy. induction x as [|c x IH]; [reflexivity|].
  rewrite append_cons. simpl. rewrite IH. destruct (x +:+ y) eqn:E; [|reflexivity].
  exfalso. exact (append_nonempty x y Hy E).
Qed.

Lemma artifact_path_spellings (output_path name : string) :
  path_join (Some output_path) ["Corrected_LCs/"; name]
    = path_join (Some output_path) ["Corrected_LCs"; name].
Proof.
  unfold path_join. f_equal. simpl.
  set (x := if bool_decide (output_path = "") || endswith_sep output_path
            then output_path else output_path +:+ "/").
  assert (join_component output_path "Corrected_LCs/" = x +:+ "Corrected_LCs/") as ->.
  { unfold x, join_component. simpl. destruct (_ || _); [reflexivity|].
    rewrite append_assoc. reflexivity. }
  assert (join_component output_path "Corrected_LCs" = x +:+ "Corrected_LCs") as ->.
  { unfold x, join_component. simpl. destruct (_ || _); [reflexivity|].
    rewrite append_assoc. reflexivity. }
  unfold join_component. destruct (startswith_sep name); [reflexivity|].
  rewrite !endswith_sep_app by discriminate.
  rewrite !bool_decide_eq_false_2 by (apply append_nonempty; discriminate).
  simpl. rewrite !append_assoc. reflexivity.
Qed.

(** * Further properties *)

(** ** The run of [get_lcs]: what it does and what it stores *)

(** One step of symbolic execution that keeps what each test found. *)
Ltac wp_case :=
  lazymatch goal with
  | |- wp (let _ := _ in _) _ _ => cbv zeta
  | |- wp (get_self ≫= _) _ _ => apply wp_bind, wp_get_self
  | |- wp (in_world (emit _) ≫= _) _ _ => apply wp_bind, wp_emit
  | |- wp (in_world (emit _)) _ _ => apply wp_emit
  | |- wp (modify_self _ ≫= _) _ _ => apply wp_bind, wp_modify_self
  | |- wp (modify_self _) _ _ => apply wp_modify_self
  | |- wp (mret _ ≫= _) _ _ => apply wp_bind, wp_ret
  | |- wp (raise _ ≫= _) _ _ => apply wp_bind, wp_raise
  | |- wp (lift (Val _) ≫= _) _ _ => apply wp_bind, wp_lift
  | |- wp (lift (Raise _) ≫= _) _ _ => apply wp_bind, wp_lift
  | |- wp (lift ?o ≫= _) _ _ => destruct o eqn:?
  | |- wp ((if ?b then _ else _) ≫= _) _ _ => destruct b eqn:?
  | |- wp (match ?x with _ => _ end ≫= _) _ _ => destruct x eqn:?
  | |- wp ((_ ≫= _) ≫= _) _ _ => apply wp_bind
  | |- wp (if ?b then _ else _) _ _ => destruct b eqn:?
  | |- wp (match ?x with _ => _ end) _ _ => destruct x eqn:?
  | |- wp (mret _) _ _ => apply wp_ret
  | |- wp (raise _) _ _ => apply wp_raise
  end;
  cbn [self world when print path_join is_none negb andb set_trace trace files dirs stdin
       save_lcs save_figures lcs output_path radius cluster_age callable cluster_name
       location percentile cutout_size scattered_light_frequency n_pca verbose
       no_lk_cache debug n_failed_download n_near_edge n_scattered_light n_good_obs
       sectors_available tess_search_results
       set_lcs set_n_failed_download set_n_near_edge set_n_scattered_light set_n_good_obs].

Lemma actions_of_app (t1 t2 : list event) :
  actions_of (t1 ++ t2) = actions_of t1 ++ actions_of t2.
Proof. apply omap_app. Qed.

Lemma iteration_actions_settings (s s' : EnsembleLC) (i : nat) :
  same_settings s s' -> iteration_actions s' i = iteration_actions s i.
Proof.
  unfold same_settings. intros H. decompose [and] H. unfold iteration_actions.
  repeat match goal with
         | E : _ s' = _ s |- _ => rewrite E; clear E
         end.
  reflexivity.
Qed.

Lemma filled_insert (slots : list (option lightcurve)) (i : nat) (lc : lightcurve) :
  slots !! i = Some None -> filled (<[i := Some lc]> slots) = S (filled slots).
Proof.
  unfold filled. revert i. induction slots as [|slot slots IH]; intros i H; [discriminate H|].
  destruct i as [|i]; simpl in *.
  - injection H as ->. reflexivity.
  - specialize (IH i H). destruct slot; simpl; [f_equal|]; exact IH.
Qed.

Lemma filled_replicate (n : nat) : filled (replicate n None) = 0.
Proof. unfold filled. induction n as [|n IH]; [reflexivity|exact IH]. Qed.

Section Run.
Variable TPF : Type.
Variable download : nat -> option TPF.
Variable TESSCutLightcurve : option TPF -> Adapter.
Variable lstsq : list coefficients -> list Q -> outcome coefficients.

Lemma passes_all_gates_settings (s s' : EnsembleLC) (i : nat) :
  same_settings s s' ->
  passes_all_gates TPF download TESSCutLightcurve lstsq s' i ->
  passes_all_gates TPF download TESSCutLightcurve lstsq s i.
Proof.
  unfold same_settings, passes_all_gates. intros H. decompose [and] H.
  repeat match goal with
         | E : _ s' = _ s |- _ => rewrite E; clear E
         end.
  auto.
Qed.

(** What one iteration adds to the trace, apart from what it prints, is
    an initial part of [iteration_actions]; of the rest of the world it
    touches only the files that its purge removes. *)
Lemma get_lcs_body_actions (i : nat) (st : State) :
  wp (get_lcs_body TPF download TESSCutLightcurve lstsq i) st
    (fun st' _ => exists new,
       trace (world st') = trace (world st) ++ new /\
       after_purges (self st) (world st) (world st') /\
       actions_of new `prefix_of` iteration_actions (self st) i).
Proof.
  destruct st as [s [f d si tr]].
  destruct s as [sl sf ls op ra ca cal cn loc pc cs slf np vb nlc db nfd nne nsl ngo sa ts].
  unfold get_lcs_body, downloadable, attr_sectors_available,
    iteration_actions, joined, print.
  cbn [self world verbose no_lk_cache output_path save_figures cutout_size callable].
  destruct vb, nlc, op as [p|].
  all: repeat wp_case.
  all: try (apply wp_bind; eapply wp_consequence;
            [apply clear_cache_after_purges; reflexivity|];
            cbn [self world files dirs stdin trace output_path no_lk_cache];
            intros [s2 [f2 d2 si2 tr2]] r (Hs & Hpurged & Htr);
            cbn [self world files dirs stdin trace] in Hs, Hpurged, Htr; subst s2;
            destruct r as [[]|e], Htr as [[Htr [e' He']]|(dir & Hdir & Htr)];
            try discriminate He'; try discriminate Hdir; subst tr2;
            try (injection Hdir as <-); repeat wp_case).
  all: cbn [app trace world set_trace].
  all: first [ exists []; split; [rewrite app_nil_r; reflexivity|];
               split; [first [exact Hpurged|apply after_purges_refl]|apply prefix_nil]
             | eexists; split; [rewrite <- ?app_assoc; reflexivity|];
               split; [first [ exact Hpurged
                             | split; [reflexivity|];
                               split; [reflexivity|intros ?; left; reflexivity] ]|];
               cbn; repeat apply prefix_cons; apply prefix_nil ].
Qed.

(** One iteration either leaves the slots and the good count alone, or
    index [i] passed the three gates, the good count grew by one and the
    lightcurve built from the download sits in slot [i]. *)
Lemma get_lcs_body_slots (i n : nat) (st : State) :
  sectors_available (self st) = Some n -> i < n ->
  wp (get_lcs_body TPF download TESSCutLightcurve lstsq i) st
    (fun st' _ =>
       (lcs (self st') = lcs (self st) /\ n_good_obs (self st') = n_good_obs (self st)) \/
       (passes_all_gates TPF download TESSCutLightcurve lstsq (self st) i /\
        n_good_obs (self st') = n_good_obs (self st) + 1 /\
        lcs (self st')
          = <[i := Some (TESSCut (TESSCutLightcurve (download i)))]> (lcs (self st)))).
Proof.
  intros Hn Hi.
  unfold get_lcs_body.
  apply wp_bind, wp_get_self.
  apply wp_bind, wp_when_in_world. intros w1 [[]|e]; [|left; split; reflexivity].
  apply wp_bind, wp_when; [intros _; apply wp_clear_cache|intros _]; simpl.
  all: try (intros w2 [[]|e]; [|left; split; reflexivity]).
  all: apply wp_bind, wp_downloadable; [|intros; left; split; reflexivity]; simpl; intros w3.
  all: apply wp_bind, wp_attr_sectors_available; [|intros; left; split; reflexivity]; simpl.
  all: intros n' Hn'; rewrite Hn in Hn'; injection Hn' as <-.
  all: destruct (download i) as [tpf|] eqn:Hd; cbn [is_none andb].
  all: try (destruct (i + 1 <? n) eqn:E1;
            [|assert ((i + 1 =? n) = true) as -> by
                (apply Nat.ltb_ge in E1; apply Nat.eqb_eq; lia)];
            repeat wp_step ltac:(left; split; reflexivity); fail).
  all: apply wp_bind, wp_in_world; intros w4 [[]|e]; [|left; split; reflexivity];
       cbn [self world].
  all: destruct (near_edge (TESSCutLightcurve (Some tpf))) eqn:Hedge; cbn [andb].
  all: try (destruct (i + 1 <? n) eqn:E1;
            [|assert ((i + 1 =? n) = true) as -> by
                (apply Nat.ltb_ge in E1; apply Nat.eqb_eq; lia)];
            repeat wp_step ltac:(left; split; reflexivity); fail).
  all: apply wp_bind, wp_in_world; intros w5 [[]|e]; [|left; split; reflexivity];
       cbn [self world].
  all: apply wp_bind, wp_in_world; intros w6 [[]|e]; [|left; split; reflexivity];
       cbn [self world].
  all: apply wp_bind, wp_lift.
  all: destruct (scattered_light lstsq _ _ _ _) as [[|]|e] eqn:Hsl;
       [| |left; split; reflexivity]; cbn [andb].
  all: try (destruct (i + 1 <? n) eqn:E1;
            [|assert ((i + 1 =? n) = true) as -> by
                (apply Nat.ltb_ge in E1; apply Nat.eqb_eq; lia)];
            repeat wp_step ltac:(left; split; reflexivity); fail).
  all: assert (passes_all_gates TPF download TESSCutLightcurve lstsq (self st) i) as Hpass
         by (unfold passes_all_gates; rewrite Hd; eauto).
  all: apply wp_bind, wp_when_in_world; intros w7 [[]|e]; [|left; split; reflexivity].
  all: apply wp_bind, wp_modify_self, wp_bind, wp_get_self;
       cbn [self world n_good_obs set_n_good_obs lcs].
  all: apply wp_bind.
  all: destruct (i <? length (lcs (self st))) eqn:Hlen;
       [apply wp_modify_self
       |apply wp_raise; right; split; [exact Hpass|]; split; [reflexivity|];
        cbn [self lcs set_n_good_obs]; symmetry; apply list_insert_ge, Nat.ltb_ge, Hlen].
  all: repeat wp_step ltac:(right; split; [exact Hpass|]; split; reflexivity).
Qed.

(** The loop adds to the trace one piece for each index it takes up, in
    the order of the indices; of the rest of the world it touches only
    the files that its purges remove. *)
Lemma for_each_actions (inds : list nat) (st : State) :
  wp (for_each inds (get_lcs_body TPF download TESSCutLightcurve lstsq)) st
    (fun st' _ => exists pieces,
       trace (world st') = trace (world st) ++ concat pieces /\
       after_purges (self st) (world st) (world st') /\
       length pieces <= length inds /\
       Forall2 (fun i piece => actions_of piece `prefix_of` iteration_actions (self st) i)
         (take (length pieces) inds) pieces).
Proof.
  revert st. induction inds as [|i inds IH]; intros st; unfold wp.
  - exists []. simpl. rewrite app_nil_r.
    split; [reflexivity|]. split; [apply after_purges_refl|]. split; [lia|constructor].
  - rewrite for_each_cons.
    pose proof (get_lcs_body_actions i st) as (new & Hw & Hp & Hpre).
    pose proof (get_lcs_body_step TPF download TESSCutLightcurve lstsq i st) as [Hset _].
    destruct (get_lcs_body TPF download TESSCutLightcurve lstsq i st) as [st1 [[|]|e]];
      simpl in Hw, Hp, Hset.
    2,3: exists [new]; simpl; rewrite app_nil_r; split; [exact Hw|];
         split; [exact Hp|]; split; [lia|]; constructor; [exact Hpre|constructor].
    pose proof (IH st1) as (pieces & Hw1 & Hp1 & Hlen & HF).
    destruct (same_settings_path _ _ Hset) as (Ho & _ & Hc).
    exists (new :: pieces). split; [|split; [|split]].
    + rewrite Hw1, Hw. simpl. rewrite app_assoc. reflexivity.
    + eapply after_purges_trans; [exact Hp|].
      eapply after_purges_settings; [exact Ho|exact Hc|exact Hp1].
    + simpl. lia.
    + simpl. constructor; [exact Hpre|].
      eapply Forall2_impl; [exact HF|]. intros j piece Hj. simpl in Hj.
      rewrite <- (iteration_actions_settings (self st) (self st1) j Hset). exact Hj.
Qed.

(** The slots and the good count along the loop over [a, a + k). *)
Lemma for_each_slots (k a n : nat) (st : State) :
  sectors_available (self st) = Some n -> a + k <= n ->
  length (lcs (self st)) = n ->
  (forall j, a <= j -> j < n -> lcs (self st) !! j = Some None) ->
  wp (for_each (seq a k) (get_lcs_body TPF download TESSCutLightcurve lstsq)) st
    (fun st' _ =>
       length (lcs (self st')) = n /\
       n_good_obs (self st') + filled (lcs (self st))
         = n_good_obs (self st) + filled (lcs (self st')) /\
       (forall j, j < a -> lcs (self st') !! j = lcs (self st) !! j) /\
       (forall j lc, a <= j -> lcs (self st') !! j = Some (Some lc) ->
          lc = TESSCut (TESSCutLightcurve (download j)) /\
          passes_all_gates TPF download TESSCutLightcurve lstsq (self st) j)).
Proof.
  revert a st. induction k as [|k IH]; intros a st Hn Hak Hlen Hnone; unfold wp.
  - simpl. split; [exact Hlen|]. split; [lia|]. split; [reflexivity|].
    intros j lc Hj Hslot. destruct (decide (j < n)) as [Hjn|Hjn].
    + rewrite (Hnone j Hj Hjn) in Hslot. discriminate Hslot.
    + rewrite lookup_ge_None_2 in Hslot by lia. discriminate Hslot.
  - cbn [seq]. rewrite for_each_cons.
    pose proof (get_lcs_body_step TPF download TESSCutLightcurve lstsq a st) as [Hset _].
    pose proof (get_lcs_body_slots a n st Hn ltac:(lia)) as Hslots. unfold wp in Hslots.
    destruct (get_lcs_body TPF download TESSCutLightcurve lstsq a st) as [st1 r1].
    cbn [fst snd] in Hset, Hslots.
    assert (length (lcs (self st1)) = n /\
            n_good_obs (self st1) + filled (lcs (self st))
              = n_good_obs (self st) + filled (lcs (self st1)) /\
            (forall j, j <> a -> lcs (self st1) !! j = lcs (self st) !! j) /\
            (forall lc, lcs (self st1) !! a = Some (Some lc) ->
               lc = TESSCut (TESSCutLightcurve (download a)) /\
               passes_all_gates TPF download TESSCutLightcurve lstsq (self st) a))
      as (Hlen1 & Hgood1 & Hother1 & Hat1).
    { destruct Hslots as [[Hl Hg]|(Hpass & Hg & Hl)]; rewrite Hl, Hg.
      - split; [exact Hlen|]. split; [lia|]. split; [reflexivity|].
        intros lc. rewrite (Hnone a); [discriminate|lia|lia].
      - rewrite length_insert, filled_insert by (apply Hnone; lia).
        split; [exact Hlen|]. split; [lia|]. split.
        + intros j Hj. apply list_lookup_insert_ne. congruence.
        + intros lc. rewrite list_lookup_insert_eq by lia. intros [= <-]. auto. }
    assert (forall j lc, a <= j -> lcs (self st1) !! j = Some (Some lc) ->
              lc = TESSCut (TESSCutLightcurve (download j)) /\
              passes_all_gates TPF download TESSCutLightcurve lstsq (self st) j) as Hfinal.
    { intros j lc Hj Hslot. destruct (decide (j = a)) as [->|Hne]; [apply Hat1, Hslot|].
      rewrite Hother1 in Hslot by exact Hne.
      destruct (decide (j < n)) as [Hjn|Hjn].
      - rewrite (Hnone j Hj Hjn) in Hslot. discriminate Hslot.
      - rewrite lookup_ge_None_2 in Hslot by lia. discriminate Hslot. }
    destruct r1 as [[|]|e]; cbn [fst snd].
    2,3: split; [exact Hlen1|]; split; [exact Hgood1|]; split;
         [intros j Hj; apply Hother1; lia|exact Hfinal].
    assert (sectors_available (self st1) = Some n) as Hn1.
    { rewrite (same_settings_sectors _ _ Hset). exact Hn. }
    pose proof (IH (S a) st1 Hn1 ltac:(lia) Hlen1) as Hrest. unfold wp in Hrest.
    destruct Hrest as (Hlen2 & Hgood2 & Hbelow2 & Hat2).
    { intros j Hj Hjn. rewrite Hother1 by lia. apply Hnone; lia. }
    split; [exact Hlen2|]. split; [lia|]. split.
    + intros j Hj. rewrite Hbelow2 by lia. apply Hother1. lia.
    + intros j lc Hj Hslot. destruct (decide (j = a)) as [->|Hne].
      * rewrite Hbelow2 in Hslot by lia. apply Hat1, Hslot.
      * destruct (Hat2 j lc ltac:(lia) Hslot) as [-> Hpass]. split; [reflexivity|].
        eapply passes_all_gates_settings; eassumption.
Qed.

(** The state [get_lcs] ends in is the one its loop ends in. *)
Lemma get_lcs_state (st : State) (n : nat) :
  sectors_available (self st) = Some n ->
  (get_lcs TPF download TESSCutLightcurve lstsq st).1
    = (for_each (seq 0 n) (get_lcs_body TPF download TESSCutLightcurve lstsq)
         (loop_entry st n)).1.
Proof.
  intros Hn. rewrite (get_lcs_unfold _ _ _ _ _ _ Hn).
  destruct (for_each _ _ _) as [st' [[|]|e]]; reflexivity.
Qed.

(** The world but for its trace is the same when the disk is. *)
Lemma same_disk_world (w w' : World) :
  same_disk w w' -> w' = set_trace (trace w') w.
Proof. destruct w, w'. intros (Hf & Hd & Hi). simpl in *. subst. reflexivity. Qed.

(** X1: what a run of [get_lcs] does to the world, apart from printing,
    is, for the indices [0, 1, ...] in this order and for no more than
    [sectors_available] of them, an initial part of [iteration_actions]:
    every candidate is asked for at most once, after the purge when the
    cache of lightkurve is avoided, and nothing is searched or written.
    When the cache of lightkurve is used, the trace is all that changes
    in the world. *)
Theorem get_lcs_action_order (st : State) (n : nat) :
  sectors_available (self st) = Some n ->
  wp (get_lcs TPF download TESSCutLightcurve lstsq) st
    (fun st' _ => exists pieces,
       trace (world st') = trace (world st) ++ concat pieces /\
       (no_lk_cache (self st) = false ->
        world st' = set_trace (trace (world st) ++ concat pieces) (world st)) /\
       length pieces <= n /\
       forall i piece, pieces !! i = Some piece ->
         actions_of piece `prefix_of` iteration_actions (self st) i).
Proof.
  intros Hn. unfold wp. rewrite (get_lcs_state st n Hn).
  pose proof (for_each_actions (seq 0 n) (loop_entry st n))
    as (pieces & Hw & Hp & Hlen & HF).
  rewrite length_seq in Hlen.
  exists pieces. split; [exact Hw|]. split; [|split; [exact Hlen|]].
  - intros Hflag.
    pose proof (same_disk_world _ _ (after_purges_off _ _ _ Hflag Hp)) as E.
    rewrite Hw in E. exact E.
  - intros i piece Hi.
    destruct (Forall2_lookup_r _ _ _ _ _ HF Hi) as (j & Hj & Hpre).
    apply lookup_take_Some in Hj as [Hj _]. apply lookup_seq in Hj as [-> _].
    exact Hpre.
Qed.

(** The disk after [get_lcs], however it ended. *)
Lemma get_lcs_purges (st : State) :
  after_purges (self st) (world st)
    (world (get_lcs TPF download TESSCutLightcurve lstsq st).1) /\
  trace (world st) `prefix_of`
    trace (world (get_lcs TPF download TESSCutLightcurve lstsq st).1).
Proof.
  destruct (sectors_available (self st)) as [n|] eqn:Hn.
  - rewrite (get_lcs_state st n Hn).
    pose proof (for_each_actions (seq 0 n) (loop_entry st n)) as (pieces & Hw & Hp & _).
    split; [exact Hp|]. rewrite Hw. apply prefix_app_r. reflexivity.
  - rewrite (get_lcs_without_search _ _ _ _ _ Hn). simpl.
    split; [apply after_purges_refl|reflexivity].
Qed.


(** X3: after [get_lcs], however it ended, there is one slot for each
    candidate; a filled slot [i] holds the lightcurve built from the
    download of candidate [i], which passed the three gates; and the
    good count has grown by the number of filled slots. *)
Theorem get_lcs_slots (st : State) (n : nat) :
  sectors_available (self st) = Some n ->
  wp (get_lcs TPF download TESSCutLightcurve lstsq) st
    (fun st' _ =>
       length (lcs (self st')) = n /\
       n_good_obs (self st') = n_good_obs (self st) + filled (lcs (self st')) /\
       forall i lc,
         lcs (self st') !! i = Some (Some lc) ->
         lc = TESSCut (TESSCutLightcurve (download i)) /\
         passes_all_gates TPF download TESSCutLightcurve lstsq (self st) i).
Proof.
  intros Hn. unfold wp. rewrite (get_lcs_state st n Hn).
  pose proof (for_each_slots n 0 n (loop_entry st n)) as Hloop. unfold wp in Hloop.
  destruct Hloop as (Hlen & Hgood & _ & Hat).
  - exact Hn.
  - lia.
  - simpl. apply length_replicate.
  - intros j _ Hj. simpl. apply lookup_replicate_2. exact Hj.
  - simpl in Hgood. rewrite filled_replicate in Hgood.
    split; [exact Hlen|]. split; [lia|].
    intros i lc Hslot. apply (Hat i lc); [lia|exact Hslot].
Qed.

Local Opaque pretty String.append join_component scattered_light Nat.ltb Nat.eqb clear_cache.

End Run.

Transparent pretty String.append join_component scattered_light Nat.ltb Nat.eqb clear_cache.

Lemma get_lcs_action_order_witness :
  wp (get_lcs nat Fixture.download Fixture.TESSCutLightcurve Fixture.lstsq)
    {| self := Fixture.searched 3; world := Fixture.disk |}
    (fun st' _ => exists pieces,
       trace (world st') = trace Fixture.disk ++ concat pieces /\
       (no_lk_cache (Fixture.searched 3) = false ->
        world st' = set_trace (trace Fixture.disk ++ concat pieces) Fixture.disk) /\
       length pieces <= 3 /\
       forall i piece, pieces !! i = Some piece ->
         actions_of piece `prefix_of` iteration_actions (Fixture.searched 3) i).
Proof.
  apply (get_lcs_action_order nat Fixture.download Fixture.TESSCutLightcurve Fixture.lstsq
           {| self := Fixture.searched 3; world := Fixture.disk |} 3).
  reflexivity.
Defined.

Lemma get_lcs_slots_witness :
  wp (get_lcs nat Fixture.download Fixture.TESSCutLightcurve Fixture.lstsq)
    {| self := Fixture.searched 3; world := Fixture.disk |}
    (fun st' _ =>
       length (lcs (self st')) = 3 /\
       n_good_obs (self st') = n_good_obs (Fixture.searched 3) + filled (lcs (self st')) /\
       forall i lc,
         lcs (self st') !! i = Some (Some lc) ->
         lc = TESSCut (Fixture.TESSCutLightcurve (Fixture.download i)) /\
         passes_all_gates nat Fixture.download Fixture.TESSCutLightcurve Fixture.lstsq
           (Fixture.searched 3) i).
Proof.
  apply (get_lcs_slots nat Fixture.download Fixture.TESSCutLightcurve Fixture.lstsq
           {| self := Fixture.searched 3; world := Fixture.disk |} 3).
  reflexivity.
Defined.


(** ** Saving *)

Lemma same_disk_refl (w : World) : same_disk w w.
Proof. repeat split. Qed.

Lemma same_disk_trans (a b c : World) : same_disk a b -> same_disk b c -> same_disk a c.
Proof. unfold same_disk. intros (? & ? & ?) (? & ? & ?). repeat split; congruence. Qed.

Lemma same_disk_set_trace (w : World) (t : list event) : same_disk w (set_trace t w).
Proof. repeat split. Qed.

Lemma path_exists_same_disk (w w' : World) (path : string) :
  same_disk w w' -> path_exists w' path = path_exists w path.
Proof. intros (Hf & Hd & _). unfold path_exists. rewrite Hf, Hd. reflexivity. Qed.

Lemma path_exists_file (w : World) (path : string) (hdul : HDUList) :
  files w !! path = Some hdul -> path_exists w path = true.
Proof.
  intros Hf. unfold path_exists. rewrite Hf.
  rewrite (bool_decide_eq_true_2 (is_Some (Some hdul))); [|eauto].
  apply orb_true_r.
Qed.


Lemma Table_read_files (path : string) (hdu : nat) (w w' : World) :
  files w' = files w -> (Table_read path hdu w').2 = (Table_read path hdu w).2.
Proof.
  intros Hf. unfold Table_read. rewrite Hf.
  destruct (files w !! path) as [hdul|]; [|reflexivity].
  destruct hdu; [reflexivity|]. destruct (tables hdul !! hdu); reflexivity.
Qed.

Lemma lc_hdu_pure (lc : lightcurve) (st : State) : (lc_hdu lc st).1 = st.
Proof.
  destruct lc as [a|path k]; simpl; [reflexivity|]. unfold in_world.
  pose proof (Table_read_pure path k (world st)) as H.
  destruct (Table_read path k (world st)) as [w r]. simpl in H. subst w.
  destruct st; reflexivity.
Qed.

(** Reading the records of the slots changes nothing. *)
Lemma hdus_pure (slots : list (option lightcurve)) (st : State) : (hdus slots st).1 = st.
Proof.
  induction slots as [|[lc|] slots IH]; simpl; [reflexivity| |exact IH].
  unfold mbind, ST_bind. pose proof (lc_hdu_pure lc st) as Hlc.
  destruct (lc_hdu lc st) as [st1 [t|e]]; simpl in Hlc; subst st1; [|reflexivity].
  destruct (hdus slots st) as [st2 [ts|e]]; simpl in *; exact IH.
Qed.

(** The records of the slots depend on the files alone. *)
Lemma hdus_files (slots : list (option lightcurve)) (st st' : State) :
  files (world st') = files (world st) -> (hdus slots st').2 = (hdus slots st).2.
Proof.
  intros Hf. induction slots as [|[lc|] slots IH]; simpl; [reflexivity| |exact IH].
  unfold mbind, ST_bind.
  pose proof (lc_hdu_pure lc st) as Hlc. pose proof (lc_hdu_pure lc st') as Hlc'.
  assert ((lc_hdu lc st').2 = (lc_hdu lc st).2) as Hr.
  { destruct lc as [a|path k]; simpl; [reflexivity|]. unfold in_world.
    pose proof (Table_read_files path k (world st) (world st') Hf) as H.
    destruct (Table_read path k (world st)), (Table_read path k (world st')).
    exact H. }
  destruct (lc_hdu lc st) as [st1 [t|e]], (lc_hdu lc st') as [st1' [t'|e']];
    simpl in Hlc, Hlc', Hr; subst st1 st1'; try discriminate Hr; [|injection Hr as ->; reflexivity].
  injection Hr as ->.
  pose proof (hdus_pure slots st) as Hp. pose proof (hdus_pure slots st') as Hp'.
  destruct (hdus slots st) as [st2 [ts|e]], (hdus slots st') as [st2' [ts'|e']];
    simpl in *; congruence.
Qed.

(** The slots that the loop fills give their records without reading
    anything: one record for each filled slot. *)
Lemma hdus_live (slots : list (option lightcurve)) :
  (forall i lc, slots !! i = Some (Some lc) -> exists a, lc = TESSCut a) ->
  exists records,
    (forall st, hdus slots st = (st, Val records)) /\ length records = filled slots.
Proof.
  unfold filled. induction slots as [|[lc|] slots IH]; intros Hlive; simpl.
  - exists []. split; reflexivity.
  - destruct (Hlive 0 lc eq_refl) as [a ->].
    destruct IH as (records & Hr & Hlen); [intros i lc Hi; exact (Hlive (S i) lc Hi)|].
    exists (adapter_hdu a :: records). split.
    + intros st. unfold mbind, ST_bind. simpl. rewrite Hr. reflexivity.
    + simpl. rewrite Hlen. reflexivity.
  - apply IH. intros i lc Hi. exact (Hlive (S i) lc Hi).
Qed.

Section Saving.
Variable TPF : Type.
Variable search_tesscut : option string -> nat.
Variable download : nat -> option TPF.
Variable TESSCutLightcurve : option TPF -> Adapter.
Variable lstsq : list coefficients -> list Q -> outcome coefficients.

(** The search, run: it records the number of results twice, says so when
    verbose, and answers whether there is any. *)
Lemma has_tess_data_run (st : State) :
  exists new,
    has_tess_data search_tesscut st =
      ({| self := set_sectors_available (Some (search_tesscut (callable (self st))))
                    (set_tess_search_results (Some (search_tesscut (callable (self st))))
                       (self st));
          world := set_trace (trace (world st) ++ new) (world st) |},
       Val (0 <? search_tesscut (callable (self st)))) /\
    actions_of new = [SearchTesscut (callable (self st))].
Proof.
  unfold has_tess_data.
  unfold mbind, mret, ST_bind, ST_ret, get_self, in_world, emit, print, modify_self, when.
  destruct st as [s w]. simpl. destruct (verbose s); simpl.
  - exists [SearchTesscut (callable s);
            Print (str (callable s) +:+ " has " +:+ pretty (search_tesscut (callable s))
                   +:+ " observations")].
    split; [|reflexivity]. unfold set_trace. simpl. rewrite <- app_assoc. reflexivity.
  - exists [SearchTesscut (callable s)]. split; reflexivity.
Qed.

Lemma after_purges_same_disk (s : EnsembleLC) (w w' : World) :
  same_disk w w' -> after_purges s w w'.
Proof.
  intros (Hf & Hd & Hi). split; [exact Hd|]. split; [exact Hi|].
  intros q. left. rewrite Hf. reflexivity.
Qed.

Lemma path_exists_after_purges (s : EnsembleLC) (w w' : World) (path : string) :
  after_purges s w w' -> path_exists w path = false -> path_exists w' path = false.
Proof.
  intros (Hd & _ & Hf). unfold path_exists. rewrite Hd. intros H.
  apply orb_false_iff in H as [-> H]. simpl.
  destruct (Hf path) as [->|[-> _]]; [exact H|].
  apply bool_decide_eq_false. intros [x Hx]. discriminate Hx.
Qed.

Lemma isdir_after_purges (s : EnsembleLC) (w w' : World) (path : string) :
  after_purges s w w' -> isdir w' path = isdir w path.
Proof. intros (Hd & _). unfold isdir. rewrite Hd. reflexivity. Qed.

(** After the search found [n] candidates and [get_lcs] ran on an object
    whose good count was zero, the filled slots are as many as the good
    count says, and each holds a lightcurve of the loop. *)
Lemma get_lcs_live (st : State) (n : nat) :
  sectors_available (self st) = Some n -> n_good_obs (self st) = 0 ->
  n_good_obs (self (get_lcs TPF download TESSCutLightcurve lstsq st).1)
    = filled (lcs (self (get_lcs TPF download TESSCutLightcurve lstsq st).1)) /\
  forall i lc,
    lcs (self (get_lcs TPF download TESSCutLightcurve lstsq st).1) !! i = Some (Some lc) ->
    lc = TESSCut (TESSCutLightcurve (download i)).
Proof.
  intros Hn H0. rewrite (get_lcs_state _ _ _ _ st n Hn).
  pose proof (for_each_slots TPF download TESSCutLightcurve lstsq n 0 n (loop_entry st n))
    as Hloop.
  unfold wp in Hloop. destruct Hloop as (_ & Hgood & _ & Hat).
  - exact Hn.
  - lia.
  - simpl. apply length_replicate.
  - intros j _ Hj. simpl. apply lookup_replicate_2. exact Hj.
  - simpl in Hgood. rewrite filled_replicate in Hgood. split; [lia|].
    intros i lc Hslot. destruct (Hat i lc ltac:(lia) Hslot) as [-> _]. reflexivity.
Qed.

(** What [lightcurves_summary_file] does, however it ends.  It creates no
    folder and reads no input, and what it does to the files that exist
    is what its purges do.  When it returns [None] there was no artifact
    and the folder for it was there; it has searched, run [get_lcs] to
    its [return] and purged the cache when the search found something,
    and written the summary of the object and the records of its slots
    to the artifact. *)
Lemma lightcurves_summary_file_effect (st : State) :
  wp (lightcurves_summary_file TPF search_tesscut download TESSCutLightcurve lstsq) st
    (fun st' r =>
       dirs (world st') = dirs (world st) /\ stdin (world st') = stdin (world st) /\
       match r with
       | Val None =>
           exists path st2 w3 records,
             path_join (output_path (self st))
               ["Corrected_LCs/"; str (callable (self st)) +:+ "output_table.fits"]
               = Val path /\
             path_exists (world st) path = false /\
             isdir (world st) (dirname path) = true /\
             (if 0 <? search_tesscut (callable (self st))
              then get_lcs TPF download TESSCutLightcurve lstsq
                     (has_tess_data search_tesscut st).1 = (st2, Val tt)
              else st2 = (has_tess_data search_tesscut st).1) /\
             self st' = self st2 /\
             sectors_available (self st2) = Some (search_tesscut (callable (self st))) /\
             after_purges (self st) (world st) w3 /\
             (hdus (lcs (self st2)) {| self := self st2; world := w3 |}).2
               = Val records /\
             files (world st')
               = <[path := {| primary := summary_header (self st2)
                                           (search_tesscut (callable (self st)));
                              tables := records |}]> (files w3)
       | _ => after_purges (self st) (world st) (world st')
       end).
Proof.
  unfold lightcurves_summary_file.
  apply wp_bind, wp_get_self, wp_bind, wp_lift.
  destruct (path_join (output_path (self st)) _) as [path|e] eqn:Hpath;
    [|split; [reflexivity|split; [reflexivity|apply after_purges_refl]]].
  assert (exists p, output_path (self st) = Some p) as [p Hp].
  { destruct (output_path (self st)); [eauto|discriminate Hpath]. }
  apply wp_bind. unfold wp at 1.
  assert (previously_downloaded st = (st, Val (path_exists (world st) path))) as ->.
  { unfold previously_downloaded.
    unfold mbind, mret, ST_bind, ST_ret, get_self, lift, in_world, get_world.
    simpl. rewrite Hpath. destruct st; reflexivity. }
  cbn [fst snd].
  destruct (path_exists (world st) path) eqn:Hex.
  { apply wp_bind, wp_Table_read; [intros t _; apply wp_ret|intros e];
      (split; [reflexivity|split; [reflexivity|apply after_purges_refl]]). }
  apply wp_bind. unfold wp at 1.
  destruct (has_tess_data_run st) as (new1 & Hsearch & _).
  set (n := search_tesscut (callable (self st))) in *.
  rewrite Hsearch. cbn [fst snd].
  set (st1 := {| self := set_sectors_available (Some n)
                           (set_tess_search_results (Some n) (self st));
                 world := set_trace (trace (world st) ++ new1) (world st) |}) in *.
  assert (after_purges (self st) (world st) (world st1)) as Hd1
    by apply after_purges_same_disk, same_disk_set_trace.
  assert (sectors_available (self st1) = Some n) as Hn1 by reflexivity.
  assert (output_path (self st1) = Some p) as Hp1 by exact Hp.
  (* the loop and the purge *)
  assert (forall Q : State -> outcome unit -> Prop,
            (forall st2 e, output_path (self st2) = Some p ->
                           after_purges (self st) (world st) (world st2) ->
                           Q st2 (Raise e)) ->
            (forall st2 w3, (if 0 <? n
                             then get_lcs TPF download TESSCutLightcurve lstsq st1
                                    = (st2, Val tt)
                             else st2 = st1) ->
                            output_path (self st2) = Some p ->
                            sectors_available (self st2) = Some n ->
                            after_purges (self st) (world st) w3 ->
                            Q {| self := self st2; world := w3 |} (Val tt)) ->
            wp (if 0 <? n
                then get_lcs TPF download TESSCutLightcurve lstsq;;
                     when (no_lk_cache (self st)) clear_cache
                else mret tt) st1 Q) as Hmid.
  { intros Q He Hv. destruct (0 <? n) eqn:Hdata.
    2:{ apply wp_ret. refine (Hv st1 (world st1) _ _ _ _); auto. }
    apply wp_bind. unfold wp at 1.
    pose proof (get_lcs_settings TPF download TESSCutLightcurve lstsq st1) as Hset.
    pose proof (get_lcs_purges TPF download TESSCutLightcurve lstsq st1) as [Hd2 _].
    destruct (get_lcs TPF download TESSCutLightcurve lstsq st1) as [st2 [[]|e]] eqn:Hrun;
      cbn [fst snd] in *.
    2:{ apply He.
        - destruct (same_settings_path _ _ Hset) as (-> & _). exact Hp1.
        - exact (after_purges_trans _ _ _ _ Hd1 Hd2). }
    destruct (same_settings_path _ _ Hset) as (Ho2 & _ & Hc2).
    assert (output_path (self st2) = Some p) as Hp2 by (rewrite Ho2; exact Hp1).
    assert (sectors_available (self st2) = Some n) as Hn2.
    { rewrite (same_settings_sectors _ _ Hset). exact Hn1. }
    assert (after_purges (self st) (world st) (world st2)) as Hd02
      by exact (after_purges_trans _ _ _ _ Hd1 Hd2).
    apply wp_when; intros Hflag.
    - eapply wp_consequence; [apply clear_cache_after_purges|].
      { rewrite Hc2. exact Hflag. }
      intros [s3 w3] r (Hs & Hd3 & _). cbn [self world] in Hs, Hd3. subst s3.
      assert (after_purges (self st) (world st) w3) as Hd03.
      { eapply after_purges_trans; [exact Hd02|].
        eapply after_purges_settings; [| |exact Hd3].
        - rewrite Ho2. reflexivity.
        - rewrite Hc2. reflexivity. }
      destruct r as [[]|e]; [apply Hv|apply He]; auto.
    - destruct st2 as [s2 w2]. apply (Hv {| self := s2; world := w2 |} w2); auto. }
  apply wp_bind, Hmid; clear Hmid.
  { intros st2 e _ Hd2. destruct Hd2 as (Hdd & Hi & Hf).
    split; [exact Hdd|]. split; [exact Hi|]. split; [exact Hdd|]. split; assumption. }
  intros st2 w3 Hrun Hp2 Hn2 Hd3.
  pose proof Hd3 as (Hdd3 & Hi3 & Hf3).
  apply wp_bind, wp_get_self. cbn [self world].
  apply wp_bind, wp_attr_sectors_available; cbn [self world];
    [|intros _; split; [exact Hdd3|]; split; [exact Hi3|exact Hd3]].
  intros n' Hn'. rewrite Hn2 in Hn'. injection Hn' as <-. cbv zeta.
  apply wp_bind. unfold wp at 1.
  pose proof (hdus_pure (lcs (self st2)) {| self := self st2; world := w3 |}) as Hpure.
  destruct (hdus (lcs (self st2)) {| self := self st2; world := w3 |})
    as [st4 [records|e]] eqn:Hrec;
    cbn [fst snd] in *; subst st4; [|split; [exact Hdd3|]; split; [exact Hi3|exact Hd3]].
  rewrite Hp2. cbn [is_none negb].
  apply wp_bind. unfold wp at 1. unfold in_world, writeto. cbn [self world].
  rewrite (path_exists_after_purges _ _ _ _ Hd3 Hex).
  rewrite (isdir_after_purges _ _ _ (dirname path) Hd3).
  destruct (isdir (world st) (dirname path)) eqn:Hdir; cbn [fst snd];
    [|split; [exact Hdd3|]; split; [exact Hi3|exact Hd3]].
  apply wp_ret. cbn [world set_trace set_files dirs stdin files].
  split; [exact Hdd3|]. split; [exact Hi3|].
  exists path, st2, w3, records.
  split; [reflexivity|]. split; [exact Hex|]. split; [exact Hdir|]. split; [exact Hrun|].
  split; [reflexivity|]. split; [exact Hn2|]. split; [exact Hd3|].
  split; [rewrite Hrec; reflexivity|reflexivity].
Qed.
End Saving.

Lemma as_nat_of_nat (k : nat) : as_nat (PInt (Z.of_nat k)) = Val k.
Proof.
  unfold as_nat. rewrite (proj2 (Z.leb_le 0 (Z.of_nat k))) by lia.
  rewrite Nat2Z.id. reflexivity.
Qed.

Lemma summary_header_has_tess_data (s : EnsembleLC) (n : nat) :
  header_get (summary_header s n) "Has_TESS_Data" = Val (PBool (0 <? n)).
Proof. reflexivity. Qed.

Section SavingProperties.
Variable TPF : Type.
Variable search_tesscut : option string -> nat.
Variable download : nat -> option TPF.
Variable TESSCutLightcurve : option TPF -> Adapter.
Variable lstsq : list coefficients -> list Q -> outcome coefficients.

Local Opaque header_get summary_header.


(** X6: when a call returned [None], the primary header of the artifact
    holds, under the ten keywords of the code, what the object holds
    after the call: name, location, radius and age as they are, whether
    the search found anything, the number of candidates and the four
    counters. *)
Theorem saved_header_round_trip (st st' : State) (path : string) :
  path_join (output_path (self st))
    ["Corrected_LCs/"; str (callable (self st)) +:+ "output_table.fits"] = Val path ->
  lightcurves_summary_file TPF search_tesscut download TESSCutLightcurve lstsq st
    = (st', Val None) ->
  exists hdul n,
    files (world st') !! path = Some hdul /\
    sectors_available (self st') = Some n /\
    header_get (primary hdul) "Name" = Val (opt_str (cluster_name (self st'))) /\
    header_get (primary hdul) "Location" = Val (opt_str (location (self st'))) /\
    header_get (primary hdul) "Radius [deg]" = Val (opt_float (radius (self st'))) /\
    header_get (primary hdul) "Log Age" = Val (opt_float (cluster_age (self st'))) /\
    header_get (primary hdul) "Has_TESS_Data" = Val (PBool (0 <? n)) /\
    header_get (primary hdul) "n_obs_available" ≫= as_nat = Val n /\
    header_get (primary hdul) "n_good_obs" ≫= as_nat = Val (n_good_obs (self st')) /\
    header_get (primary hdul) "n_failed_download" ≫= as_nat
      = Val (n_failed_download (self st')) /\
    header_get (primary hdul) "n_near_edge" ≫= as_nat = Val (n_near_edge (self st')) /\
    header_get (primary hdul) "n_scattered_light" ≫= as_nat
      = Val (n_scattered_light (self st')).
Proof.
  intros Hpath Hrun.
  pose proof (lightcurves_summary_file_effect TPF search_tesscut download TESSCutLightcurve
                lstsq st) as H.
  unfold wp in H. rewrite Hrun in H. cbn [fst snd] in H.
  destruct H as (_ & _ & path' & st2 & w3 & records & Hpath' & _ & _ & _ & Hs & Hn & _ & _
                 & Hf).
  rewrite Hpath in Hpath'. injection Hpath' as <-.
  eexists. exists (search_tesscut (callable (self st))).
  split; [rewrite Hf; apply lookup_insert_eq|]. rewrite Hs. split; [exact Hn|].
  cbn [primary].
  destruct (summary_header_counters (self st2) (search_tesscut (callable (self st))))
    as (H1 & H2 & H3 & H4 & H5).
  rewrite summary_header_name, summary_header_location, summary_header_radius,
    summary_header_log_age_written, summary_header_has_tess_data, H1, H2, H3, H4, H5.
  unfold mbind, outcome_bind. rewrite !as_nat_of_nat. repeat split.
Qed.

(** X7: on an object as the constructor leaves it (no slot, good count
    zero), a call that returned [None] wrote as many records as the
    good count says, namely the records of the filled slots in the order
    of the candidates, and filled slot [i] is the lightcurve built from
    the download of candidate [i]. *)
Theorem first_save_records (st st' : State) (path : string) :
  path_join (output_path (self st))
    ["Corrected_LCs/"; str (callable (self st)) +:+ "output_table.fits"] = Val path ->
  lcs (self st) = [] -> n_good_obs (self st) = 0 ->
  lightcurves_summary_file TPF search_tesscut download TESSCutLightcurve lstsq st
    = (st', Val None) ->
  exists hdul,
    files (world st') !! path = Some hdul /\
    length (tables hdul) = n_good_obs (self st') /\
    hdus (lcs (self st')) st' = (st', Val (tables hdul)) /\
    forall i lc, lcs (self st') !! i = Some (Some lc) ->
                 lc = TESSCut (TESSCutLightcurve (download i)).
Proof.
  intros Hpath Hlcs Hgood Hrun.
  pose proof (lightcurves_summary_file_effect TPF search_tesscut download TESSCutLightcurve
                lstsq st) as H.
  unfold wp in H. rewrite Hrun in H. cbn [fst snd] in H.
  destruct H as (_ & _ & path' & st2 & w3 & records & Hpath' & _ & _ & Hst2 & Hs & Hn & _
                 & Hrec & Hf).
  rewrite Hpath in Hpath'. injection Hpath' as <-.
  destruct (has_tess_data_searched search_tesscut st) as (Hn1 & _ & Hc1 & Hl1 & _).
  cbv zeta in Hn1, Hc1, Hl1.
  assert (n_good_obs (self st2) = filled (lcs (self st2)) /\
          forall i lc, lcs (self st2) !! i = Some (Some lc) ->
                       lc = TESSCut (TESSCutLightcurve (download i))) as [Hfill Hlive].
  { destruct (0 <? search_tesscut (callable (self st))).
    - assert (n_good_obs (self (has_tess_data search_tesscut st).1) = 0) as H0.
      { unfold counts in Hc1. injection Hc1 as -> _ _ _. exact Hgood. }
      pose proof (get_lcs_live TPF download TESSCutLightcurve lstsq _ _ Hn1 H0) as Hl.
      rewrite Hst2 in Hl. exact Hl.
    - subst st2. rewrite Hl1, Hlcs. split.
      + unfold counts in Hc1. injection Hc1 as -> _ _ _. exact Hgood.
      + intros i lc Hi. rewrite lookup_nil in Hi. discriminate Hi. }
  destruct (hdus_live (lcs (self st2))) as (records' & Hall & Hlen).
  { intros i lc Hi. rewrite (Hlive i lc Hi). eauto. }
  rewrite Hall in Hrec. injection Hrec as <-.
  eexists. split; [rewrite Hf; apply lookup_insert_eq|]. cbn [tables]. rewrite Hs.
  split; [congruence|]. split; [apply Hall|exact Hlive].
Qed.

(** X8: after a call that returned [None], [previously_downloaded]
    answers [True]. *)
Theorem previously_downloaded_after_save (st st' : State) (path : string) :
  path_join (output_path (self st))
    ["Corrected_LCs/"; str (callable (self st)) +:+ "output_table.fits"] = Val path ->
  lightcurves_summary_file TPF search_tesscut download TESSCutLightcurve lstsq st
    = (st', Val None) ->
  previously_downloaded st' = (st', Val true).
Proof.
  intros Hpath Hrun.
  destruct (lightcurves_summary_file_writes TPF search_tesscut download TESSCutLightcurve
              lstsq st st' path Hpath Hrun) as (Ho & Hc & n & records & Hf).
  unfold previously_downloaded.
  unfold mbind, mret, ST_bind, ST_ret, get_self, lift, in_world, get_world.
  simpl. rewrite Ho, Hc, Hpath. simpl. rewrite (path_exists_file _ _ _ Hf).
  destruct st'; reflexivity.
Qed.

(** X9: after a call that returned [None], [access_lightcurve] finds the
    artifact, so it does not warn; it reads HDU [1], which is the first
    record and not a summary: without records it raises [ValueError], and
    when the first record has no column [n_good_obs] it raises the
    [KeyError] of that lookup.  Object and world stay as they are. *)
Theorem access_lightcurve_after_save (st st' : State) (path c : string)
    (observation : nat) :
  path_join (output_path (self st))
    ["Corrected_LCs/"; str (callable (self st)) +:+ "output_table.fits"] = Val path ->
  callable (self st) = Some c ->
  lightcurves_summary_file TPF search_tesscut download TESSCutLightcurve lstsq st
    = (st', Val None) ->
  exists hdul,
    files (world st') !! path = Some hdul /\
    match tables hdul with
    | [] => access_lightcurve observation st' = (st', Raise ValueError)
    | first_record :: _ =>
        forall e, column first_record "n_good_obs" = Raise e ->
                  access_lightcurve observation st' = (st', Raise e)
    end.
Proof.
  intros Hpath Hcal Hrun.
  destruct (lightcurves_summary_file_writes TPF search_tesscut download TESSCutLightcurve
              lstsq st st' path Hpath Hrun) as (Ho & Hc & n & records & Hf).
  eexists. split; [exact Hf|]. cbn [tables].
  destruct (output_path (self st)) as [p|] eqn:Hp; [|discriminate Hpath].
  rewrite Hcal in Hpath, Hc. cbn [str] in Hpath.
  rewrite artifact_path_spellings in Hpath.
  assert (forall r,
            (Table_read path 1 (world st')).2 = r ->
            match r with
            | Val t => True
            | Raise e => access_lightcurve observation st' = (st', Raise e)
            end /\
            forall t e, r = Val t -> column t "n_good_obs" = Raise e ->
                        access_lightcurve observation st' = (st', Raise e)) as Hacc.
  { intros r Hr. unfold access_lightcurve.
    unfold mbind, mret, ST_bind, ST_ret, get_self, raise, lift, in_world, get_world.
    simpl. rewrite Hc, Ho, Hpath. simpl. rewrite (path_exists_file _ _ _ Hf). simpl.
    pose proof (Table_read_pure path 1 (world st')) as Hpure.
    destruct (Table_read path 1 (world st')) as [w [t|e]]; simpl in Hr, Hpure; subst w r.
    - split; [exact I|]. intros t' e [= <-] Hcol. rewrite Hcol. destruct st'; reflexivity.
    - split; [destruct st'; reflexivity|]. intros t' e' [=]. }
  unfold Table_read in Hacc. rewrite Hf in Hacc. cbn [tables snd] in Hacc.
  destruct records as [|first_record rest]; simpl in Hacc.
  - exact (proj1 (Hacc _ eq_refl)).
  - intros e Hcol. exact (proj2 (Hacc _ eq_refl) first_record e eq_refl Hcol).
Qed.

(** X10: when the search finds nothing, the first call on an object with
    an output location and no slot, on a disk where the folder of the
    artifact is there and the artifact is not, does exactly two things
    besides printing: the search and the write.  It downloads and purges
    nothing, returns [None] and leaves an artifact without records whose
    header says that there is no data. *)
Theorem save_without_tess_data (st : State) (path : string) :
  path_join (output_path (self st))
    ["Corrected_LCs/"; str (callable (self st)) +:+ "output_table.fits"] = Val path ->
  path_exists (world st) path = false ->
  isdir (world st) (dirname path) = true ->
  search_tesscut (callable (self st)) = 0 ->
  lcs (self st) = [] ->
  exists new,
    lightcurves_summary_file TPF search_tesscut download TESSCutLightcurve lstsq st =
      ({| self := set_sectors_available (Some 0)
                    (set_tess_search_results (Some 0) (self st));
          world := set_trace (trace (world st) ++ new)
                     (set_files (<[path := {| primary := summary_header (self st) 0;
                                              tables := [] |}]> (files (world st)))
                        (world st)) |},
       Val None) /\
    actions_of new = [SearchTesscut (callable (self st)); WriteTo path] /\
    header_get (summary_header (self st) 0) "Has_TESS_Data" = Val (PBool false) /\
    header_get (summary_header (self st) 0) "n_obs_available" = Val (PInt 0).
Proof.
  intros Hpath Hex Hfolder Hzero Hlcs.
  cut (wp (lightcurves_summary_file TPF search_tesscut download TESSCutLightcurve lstsq) st
         (fun st' r => exists new,
            (st', r) =
              ({| self := set_sectors_available (Some 0)
                            (set_tess_search_results (Some 0) (self st));
                  world := set_trace (trace (world st) ++ new)
                             (set_files
                                (<[path := {| primary := summary_header (self st) 0;
                                              tables := [] |}]> (files (world st)))
                                (world st)) |},
               Val None) /\
            actions_of new = [SearchTesscut (callable (self st)); WriteTo path])).
  { unfold wp.
    destruct (lightcurves_summary_file _ _ _ _ _ st) as [st' r]. cbn [fst snd].
    intros (new & Heq & Hact). exists new. split; [exact Heq|]. split; [exact Hact|].
    rewrite summary_header_has_tess_data. split; [reflexivity|].
    apply summary_header_counters. }
  assert (exists p, output_path (self st) = Some p) as [p Hp].
  { destruct (output_path (self st)); [eauto|discriminate Hpath]. }
  unfold lightcurves_summary_file.
  apply wp_bind, wp_get_self, wp_bind, wp_lift. rewrite Hpath.
  apply wp_bind. unfold wp at 1.
  assert (previously_downloaded st = (st, Val false)) as ->.
  { unfold previously_downloaded.
    unfold mbind, mret, ST_bind, ST_ret, get_self, lift, in_world, get_world.
    simpl. rewrite Hpath. simpl. rewrite Hex. destruct st; reflexivity. }
  cbn [fst snd].
  apply wp_bind. unfold wp at 1.
  destruct (has_tess_data_run search_tesscut st) as (new1 & Hsearch & Hact1).
  rewrite Hsearch, Hzero. cbn [fst snd Nat.ltb Nat.leb].
  apply wp_bind, wp_ret, wp_bind, wp_get_self. cbn [self world].
  apply wp_bind, wp_attr_sectors_available; cbn [self world]; [|intros [=]].
  intros n [= <-]. cbv zeta.
  replace (lcs (set_sectors_available (Some 0) (set_tess_search_results (Some 0) (self st))))
    with (@nil (option lightcurve)) by (symmetry; exact Hlcs).
  cbn [hdus]. apply wp_bind, wp_ret.
  replace (output_path (set_sectors_available (Some 0)
                          (set_tess_search_results (Some 0) (self st))))
    with (Some p) by (symmetry; exact Hp).
  cbn [is_none negb].
  apply wp_bind. unfold wp at 1. unfold in_world, writeto. cbn [self world].
  assert (path_exists (set_trace (trace (world st) ++ new1) (world st)) path = false) as ->.
  { rewrite (path_exists_same_disk (world st)); [exact Hex|apply same_disk_set_trace]. }
  assert (isdir (set_trace (trace (world st) ++ new1) (world st)) (dirname path) = true)
    as -> by exact Hfolder.
  cbn [fst snd]. apply wp_ret.
  exists (new1 ++ [WriteTo path]). split.
  - unfold set_trace, set_files. cbn [files dirs stdin trace]. rewrite app_assoc.
    reflexivity.
  - rewrite actions_of_app, Hact1. reflexivity.
Qed.
End SavingProperties.

Transparent header_get summary_header.

Lemma saved_header_round_trip_witness :
  let st := {| self := Fixture.ecl; world := Fixture.disk |} in
  let st' := (lightcurves_summary_file nat Fixture.search_tesscut Fixture.download
                Fixture.TESSCutLightcurve Fixture.lstsq st).1 in
  exists hdul n,
    files (world st') !! "out/Corrected_LCs/M1output_table.fits" = Some hdul /\
    sectors_available (self st') = Some n /\
    header_get (primary hdul) "Name" = Val (opt_str (cluster_name (self st'))) /\
    header_get (primary hdul) "Location" = Val (opt_str (location (self st'))) /\
    header_get (primary hdul) "Radius [deg]" = Val (opt_float (radius (self st'))) /\
    header_get (primary hdul) "Log Age" = Val (opt_float (cluster_age (self st'))) /\
    header_get (primary hdul) "Has_TESS_Data" = Val (PBool (0 <? n)) /\
    header_get (primary hdul) "n_obs_available" ≫= as_nat = Val n /\
    header_get (primary hdul) "n_good_obs" ≫= as_nat = Val (n_good_obs (self st')) /\
    header_get (primary hdul) "n_failed_download" ≫= as_nat
      = Val (n_failed_download (self st')) /\
    header_get (primary hdul) "n_near_edge" ≫= as_nat = Val (n_near_edge (self st')) /\
    header_get (primary hdul) "n_scattered_light" ≫= as_nat
      = Val (n_scattered_light (self st')).
Proof.
  intros st st'.
  apply (saved_header_round_trip nat Fixture.search_tesscut Fixture.download
           Fixture.TESSCutLightcurve Fixture.lstsq st st'
           "out/Corrected_LCs/M1output_table.fits").
  - vm_compute. reflexivity.
  - vm_compute. reflexivity.
Defined.

Lemma first_save_records_witness :
  let st := {| self := Fixture.ecl; world := Fixture.disk |} in
  let st' := (lightcurves_summary_file nat Fixture.search_tesscut Fixture.download
                Fixture.TESSCutLightcurve Fixture.lstsq st).1 in
  exists hdul,
    files (world st') !! "out/Corrected_LCs/M1output_table.fits" = Some hdul /\
    length (tables hdul) = n_good_obs (self st') /\
    hdus (lcs (self st')) st' = (st', Val (tables hdul)) /\
    forall i lc, lcs (self st') !! i = Some (Some lc) ->
                 lc = TESSCut (Fixture.TESSCutLightcurve (Fixture.download i)).
Proof.
  intros st st'.
  apply (first_save_records nat Fixture.search_tesscut Fixture.download
           Fixture.TESSCutLightcurve Fixture.lstsq st st'
           "out/Corrected_LCs/M1output_table.fits").
  - vm_compute. reflexivity.
  - reflexivity.
  - reflexivity.
  - vm_compute. reflexivity.
Defined.

Lemma previously_downloaded_after_save_witness :
  let st := {| self := Fixture.ecl; world := Fixture.disk |} in
  let st' := (lightcurves_summary_file nat Fixture.search_tesscut Fixture.download
                Fixture.TESSCutLightcurve Fixture.lstsq st).1 in
  previously_downloaded st' = (st', Val true).
Proof.
  intros st st'.
  apply (previously_downloaded_after_save nat Fixture.search_tesscut Fixture.download
           Fixture.TESSCutLightcurve Fixture.lstsq st st'
           "out/Corrected_LCs/M1output_table.fits").
  - vm_compute. reflexivity.
  - vm_compute. reflexivity.
Defined.

Lemma access_lightcurve_after_save_witness :
  let st := {| self := Fixture.ecl; world := Fixture.disk |} in
  let st' := (lightcurves_summary_file nat Fixture.search_tesscut Fixture.download
                Fixture.TESSCutLightcurve Fixture.lstsq st).1 in
  exists hdul,
    files (world st') !! "out/Corrected_LCs/M1output_table.fits" = Some hdul /\
    match tables hdul with
    | [] => access_lightcurve 0 st' = (st', Raise ValueError)
    | first_record :: _ =>
        forall e, column first_record "n_good_obs" = Raise e ->
                  access_lightcurve 0 st' = (st', Raise e)
    end.
Proof.
  intros st st'.
  apply (access_lightcurve_after_save nat Fixture.search_tesscut Fixture.download
           Fixture.TESSCutLightcurve Fixture.lstsq st st'
           "out/Corrected_LCs/M1output_table.fits" "M1" 0).
  - vm_compute. reflexivity.
  - reflexivity.
  - vm_compute. reflexivity.
Defined.

Lemma save_without_tess_data_witness :
  let st := {| self := Fixture.ecl; world := Fixture.disk |} in
  exists new,
    lightcurves_summary_file nat (fun _ => 0) Fixture.download Fixture.TESSCutLightcurve
      Fixture.lstsq st =
      ({| self := set_sectors_available (Some 0)
                    (set_tess_search_results (Some 0) (self st));
          world := set_trace (trace (world st) ++ new)
                     (set_files
                        (<["out/Corrected_LCs/M1output_table.fits" :=
                             {| primary := summary_header (self st) 0; tables := [] |}]>
                           (files (world st)))
                        (world st)) |},
       Val None) /\
    actions_of new = [SearchTesscut (callable (self st));
                      WriteTo "out/Corrected_LCs/M1output_table.fits"] /\
    header_get (summary_header (self st) 0) "Has_TESS_Data" = Val (PBool false) /\
    header_get (summary_header (self st) 0) "n_obs_available" = Val (PInt 0).
Proof.
  intros st.
  apply (save_without_tess_data nat (fun _ => 0) Fixture.download Fixture.TESSCutLightcurve
           Fixture.lstsq st "out/Corrected_LCs/M1output_table.fits").
  - vm_compute. reflexivity.
  - vm_compute. reflexivity.
  - vm_compute. reflexivity.
  - reflexivity.
  - reflexivity.
Defined.

(** ** The constructor and the world *)

Lemma world_grows_refl (w : World) : world_grows w w.
Proof. repeat split; reflexivity. Qed.

Lemma world_grows_trans (a b c : World) :
  world_grows a b -> world_grows b c -> world_grows a c.
Proof.
  intros (Hf1 & Hd1 & Ht1 & Hi1) (Hf2 & Hd2 & Ht2 & Hi2).
  split; [congruence|]. split; [set_solver|].
  split; [etransitivity; eassumption|etransitivity; eassumption].
Qed.

Lemma path_exists_grows (w w' : World) (path : string) :
  world_grows w w' -> path_exists w path = true -> path_exists w' path = true.
Proof.
  intros (Hf & Hd & _). unfold path_exists. rewrite Hf.
  intros H. apply orb_true_iff in H as [H|H]; apply orb_true_iff; [left|right; exact H].
  apply bool_decide_eq_true in H. apply bool_decide_eq_true. set_solver.
Qed.

Lemma grows_bind {A B} (m : ST World A) (f : A -> ST World B) :
  grows m -> (forall a, grows (f a)) -> grows (m ≫= f).
Proof.
  intros Hm Hf w. unfold mbind, ST_bind. specialize (Hm w).
  destruct (m w) as [w1 [a|e]]; simpl in *; [|exact Hm].
  eapply world_grows_trans; [exact Hm|apply Hf].
Qed.

Lemma grows_ret {A} (a : A) : grows (mret a : ST World A).
Proof. intros w. apply world_grows_refl. Qed.

Lemma grows_raise {A} (e : exn) : grows (raise e : ST World A).
Proof. intros w. apply world_grows_refl. Qed.

Lemma grows_lift {A} (o : outcome A) : grows (lift o : ST World A).
Proof. intros w. apply world_grows_refl. Qed.

Lemma grows_get_world : grows get_world.
Proof. intros w. apply world_grows_refl. Qed.

Lemma grows_print (msg : string) : grows (print msg).
Proof.
  intros w. unfold print, emit. simpl. split; [reflexivity|]. split; [reflexivity|].
  split; [apply prefix_app_r; reflexivity|reflexivity].
Qed.

Lemma grows_input (prompt : string) : grows (input prompt).
Proof.
  intros w. unfold input. destruct (stdin w) as [|line rest] eqn:E; simpl.
  - apply world_grows_refl.
  - split; [reflexivity|]. split; [reflexivity|].
    split; [apply prefix_app_r; reflexivity|]. rewrite E. apply suffix_cons_r. reflexivity.
Qed.

Lemma grows_mkdir (path : string) : grows (mkdir path).
Proof.
  intros w. unfold mkdir. destruct (path_exists w path); simpl.
  - apply world_grows_refl.
  - split; [reflexivity|]. split; [set_solver|].
    split; [apply prefix_app_r; reflexivity|reflexivity].
Qed.

Lemma grows_fits_open (filepath : string) : grows (fits_open filepath).
Proof.
  intros w. unfold fits_open. destruct (files w !! filepath); apply world_grows_refl.
Qed.

(** The world only grows under a computation put together from pieces
    under which it only grows. *)
Ltac grows_step :=
  lazymatch goal with
  | |- grows (let _ := _ in _) => cbv zeta
  | |- grows (_ ≫= _) => apply grows_bind; [|intros ?]
  | |- grows (mret _) => apply grows_ret
  | |- grows (raise _) => apply grows_raise
  | |- grows (lift _) => apply grows_lift
  | |- grows get_world => apply grows_get_world
  | |- grows (print _) => apply grows_print
  | |- grows (input _) => apply grows_input
  | |- grows (mkdir _) => apply grows_mkdir
  | |- grows (fits_open _) => apply grows_fits_open
  | |- grows (if ?b then _ else _) => destruct b
  | |- grows (match ?x with _ => _ end) => destruct x
  end.

Lemma wp_get_world (w : World) (Q : World -> outcome World -> Prop) :
  Q w (Val w) -> wp get_world w Q.
Proof. auto. Qed.

Lemma wp_print (msg : string) (w : World) (Q : World -> outcome unit -> Prop) :
  Q (set_trace (trace w ++ [Print msg]) w) (Val tt) -> wp (print msg) w Q.
Proof. auto. Qed.

Lemma wp_input (prompt : string) (w : World) (Q : World -> outcome string -> Prop) :
  (stdin w = [] -> Q w (Raise EOFError)) ->
  (forall line rest, stdin w = line :: rest ->
     Q (set_trace (trace w ++ [Input prompt]) (set_stdin rest w)) (Val line)) ->
  wp (input prompt) w Q.
Proof.
  intros H1 H2. unfold wp, input. destruct (stdin w) as [|line rest]; simpl; auto.
Qed.

Lemma wp_mkdir (path : string) (w : World) (Q : World -> outcome unit -> Prop) :
  (path_exists w path = true -> Q w (Raise OSError)) ->
  (path_exists w path = false ->
     Q (set_trace (trace w ++ [Mkdir path]) (set_dirs ({[path]} ∪ dirs w) w)) (Val tt)) ->
  wp (mkdir path) w Q.
Proof.
  intros H1 H2. unfold wp, mkdir. destruct (path_exists w path); simpl; auto.
Qed.

Lemma path_exists_mkdir (w : World) (path : string) (t : list event) :
  path_exists (set_trace t (set_dirs ({[path]} ∪ dirs w) w)) path = true.
Proof.
  unfold path_exists. simpl. apply orb_true_iff. left. apply bool_decide_eq_true.
  set_solver.
Qed.

Section ConstructorProperties.
Variable to_deg : Q -> string -> outcome Q.
Variable to_log10_yr : Q -> string -> outcome Q.

Lemma grows_check_subfolder (output_path subpath : string) :
  grows (check_subfolder output_path subpath).
Proof. unfold check_subfolder. repeat grows_step. Qed.

(** A subfolder is reported as usable only when it is there. *)
Lemma check_subfolder_true (output_path subpath : string) (w : World) :
  (check_subfolder output_path subpath w).2 = Val true ->
  path_exists (check_subfolder output_path subpath w).1
    (foldl join_component output_path [subpath]) = true.
Proof.
  change (wp (check_subfolder output_path subpath) w
            (fun w' r => r = Val true ->
               path_exists w' (foldl join_component output_path [subpath]) = true)).
  unfold check_subfolder. cbv zeta.
  apply wp_bind, wp_get_world.
  destruct (path_exists w _) eqn:Hex; [apply wp_ret; intros _; exact Hex|].
  apply wp_bind, wp_print.
  apply wp_bind, wp_input; [discriminate|]. intros line rest _.
  destruct (accepted line); [|apply wp_ret; discriminate].
  apply wp_bind, wp_mkdir; [discriminate|]. intros _.
  apply wp_ret. intros _. apply path_exists_mkdir.
Qed.

(** X11: whatever the constructor is given and however it ends, it
    changes no file and removes no folder; it only creates folders,
    prints, and reads answers from the input. *)
Theorem init_world_frame (a : InitArgs) (w : World) :
  wp (__init__ to_deg to_log10_yr a) w (fun w' _ => world_grows w w').
Proof.
  revert w. change (grows (__init__ to_deg to_log10_yr a)). unfold __init__.
  repeat first [apply grows_check_subfolder | grows_step].
Qed.

(** X12: what a constructed object promises about the folders when the
    constructor returns: its output location is the one asked for and
    exists; a save flag is set only when there is an output location and
    the subfolder exists; and an object that avoids the cache of
    lightkurve has an output location with a [cache] folder. *)
Theorem init_save_flags (a : InitArgs) (w w' : World) (s : EnsembleLC) :
  __init__ to_deg to_log10_yr a w = (w', Val s) ->
  (forall p, output_path s = Some p ->
     arg_output_path a = Some p /\ path_exists w' p = true) /\
  (save_lcs s = true ->
     exists p, output_path s = Some p /\
       path_exists w' (foldl join_component p ["Corrected_LCs"]) = true) /\
  (save_figures s = true ->
     exists p, output_path s = Some p /\
       path_exists w' (foldl join_component p [foldl join_component "Figures" ["LCs"]])
         = true) /\
  (no_lk_cache s = true ->
     exists p, output_path s = Some p /\
       path_exists w' (foldl join_component p ["cache"]) = true).
Proof.
  intros Hrun.
  cut (wp (__init__ to_deg to_log10_yr a) w
         (fun w' r => forall s, r = Val s ->
            (forall p, output_path s = Some p ->
               arg_output_path a = Some p /\ path_exists w' p = true) /\
            (save_lcs s = true ->
               exists p, output_path s = Some p /\
                 path_exists w' (foldl join_component p ["Corrected_LCs"]) = true) /\
            (save_figures s = true ->
               exists p, output_path s = Some p /\
                 path_exists w'
                   (foldl join_component p [foldl join_component "Figures" ["LCs"]])
                   = true) /\
            (no_lk_cache s = true ->
               exists p, output_path s = Some p /\
                 path_exists w' (foldl join_component p ["cache"]) = true))).
  { unfold wp. rewrite Hrun. simpl. auto. }
  clear Hrun. unfold __init__.
  apply wp_bind.
  destruct (is_none (arg_cluster_name a) && is_none (arg_location a));
    [apply wp_raise; discriminate|apply wp_ret].
  apply wp_bind. unfold wp at 1.
  destruct (_ w) as [w1 [radius|e]]; simpl; [|discriminate].
  apply wp_bind. unfold wp at 1.
  destruct (_ w1) as [w2 [cluster_age|e]]; simpl; [|discriminate].
  apply wp_bind, wp_get_world.
  (* the output folder *)
  apply wp_bind.
  lazymatch goal with
  | |- wp ?m ?w0 _ =>
      assert (wp m w0 (fun w3 r => forall p, r = Val (Some p) ->
                         arg_output_path a = Some p /\ path_exists w3 p = true)) as Hout
  end.
  { destruct (arg_output_path a) as [p|]; [|apply wp_ret; discriminate].
    destruct (path_exists w2 p) eqn:Hex.
    { apply wp_ret. intros p' [= <-]. auto. }
    apply wp_bind, wp_print.
    apply wp_bind, wp_input; [discriminate|]. intros line rest _.
    destruct (accepted line); [|apply wp_ret; discriminate].
    apply wp_bind, wp_mkdir; [discriminate|]. intros _.
    apply wp_ret. intros p' [= <-]. split; [reflexivity|apply path_exists_mkdir]. }
  unfold wp in Hout |- * at 1.
  destruct (_ w2) as [w3 [out|e]]; cbn [fst snd] in *; [|discriminate].
  (* the cache *)
  apply wp_bind.
  lazymatch goal with
  | |- wp ?m ?w0 _ =>
      assert (grows m) as Hgrow4;
      [|assert (wp m w0 (fun w4 r => r = Val tt -> arg_no_lk_cache a = true ->
                           exists p, out = Some p /\
                             path_exists w4 (foldl join_component p ["cache"]) = true))
          as Hcache]
  end.
  { repeat grows_step. }
  { destruct (arg_no_lk_cache a); [|apply wp_ret; discriminate].
    destruct out as [p|]; [|apply wp_bind, wp_lift; discriminate].
    apply wp_bind, wp_lift. cbn [path_join].
    apply wp_bind, wp_get_world.
    destruct (path_exists w3 _) eqn:Hex; [apply wp_ret; intros _ _; eauto|].
    apply wp_bind, wp_mkdir; [discriminate|]. intros _.
    apply wp_bind, wp_lift. cbn [path_join].
    pose proof (grows_mkdir (foldl join_component p ["cache"; "tesscut"])
                  (set_trace (trace w3 ++ [Mkdir (foldl join_component p ["cache"])])
                     (set_dirs ({[foldl join_component p ["cache"]]} ∪ dirs w3) w3)))
      as Hg.
    unfold wp. intros _ _. exists p. split; [reflexivity|].
    eapply path_exists_grows; [exact Hg|apply path_exists_mkdir]. }
  specialize (Hgrow4 w3). unfold wp in Hcache |- * at 1.
  destruct (_ w3) as [w4 [[]|e]]; cbn [fst snd] in *; [|discriminate].
  (* the subfolders *)
  apply wp_bind.
  lazymatch goal with
  | |- wp ?m ?w0 _ =>
      assert (grows m) as Hgrow5;
      [|assert (wp m w0 (fun w5 r => forall save, r = Val save ->
                  (save.1 = true ->
                     exists p, out = Some p /\
                       path_exists w5 (foldl join_component p ["Corrected_LCs"]) = true) /\
                  (save.2 = true ->
                     exists p, out = Some p /\
                       path_exists w5
                         (foldl join_component p [foldl join_component "Figures" ["LCs"]])
                         = true))) as Hsave]
  end.
  { repeat first [apply grows_check_subfolder | grows_step]. }
  { destruct out as [p|];
      [|apply wp_ret; intros save [= <-]; split; discriminate].
    apply wp_bind. unfold wp at 1.
    pose proof (check_subfolder_true p "Corrected_LCs" w4) as H1.
    destruct (check_subfolder p "Corrected_LCs" w4) as [w4a [ok_lcs|e]];
      cbn [fst snd] in *; [|discriminate].
    apply wp_bind. unfold wp at 1.
    lazymatch goal with
    | |- context [check_subfolder p ?sub w4a] =>
        pose proof (check_subfolder_true p sub w4a) as H2;
        pose proof (grows_check_subfolder p sub w4a) as Hg;
        destruct (check_subfolder p sub w4a) as [w5 [ok_figures|e]]
    end; cbn [fst snd] in *; [|discriminate].
    apply wp_ret. intros save [= <-]. cbn [fst snd]. split.
    - intros ->. exists p. split; [reflexivity|].
      eapply path_exists_grows; [exact Hg|apply H1; reflexivity].
    - intros ->. exists p. split; [reflexivity|apply H2; reflexivity]. }
  specialize (Hgrow5 w4). unfold wp in Hsave |- * at 1.
  destruct (_ w4) as [w5 [save|e]]; cbn [fst snd] in *; [|discriminate].
  apply wp_ret. intros s' [= <-].
  cbn [output_path save_lcs save_figures no_lk_cache].
  destruct (Hsave save eq_refl) as [Hs1 Hs2].
  split; [|split; [exact Hs1|split; [exact Hs2|]]].
  - intros p ->. destruct (Hout p eq_refl) as [Ha Hex]. split; [exact Ha|].
    eapply path_exists_grows; [exact Hgrow5|].
    eapply path_exists_grows; [exact Hgrow4|exact Hex].
  - intros Hn. destruct (Hcache eq_refl Hn) as (p & Hp & Hex). exists p.
    split; [exact Hp|]. eapply path_exists_grows; [exact Hgrow5|exact Hex].
Qed.

(** X13: when the output folder is missing and its creation is declined,
    the constructor creates nothing and, unless the cache of lightkurve
    is avoided, returns an object without output location whose two save
    flags are off; when the cache of lightkurve is avoided it raises
    [TypeError], because the cache folder is joined to [None]. *)
Theorem init_declined_output_folder (a : InitArgs) (w : World) (p line : string)
    (rest : list string) (r g : option Q) :
  is_none (arg_cluster_name a) && is_none (arg_location a) = false ->
  arg_radius a = Bare r -> arg_cluster_age a = Bare g ->
  arg_output_path a = Some p -> path_exists w p = false ->
  stdin w = line :: rest -> accepted line = false ->
  exists new,
    (__init__ to_deg to_log10_yr a w).1
      = set_trace (trace w ++ new) (set_stdin rest w) /\
    actions_of new
      = [Input "  Would you like me to create it for you? (If not then no files will be saved) [Y/n]"] /\
    if arg_no_lk_cache a
    then (__init__ to_deg to_log10_yr a w).2 = Raise TypeError
    else exists s,
           (__init__ to_deg to_log10_yr a w).2 = Val s /\
           output_path s = None /\ save_lcs s = false /\ save_figures s = false /\
           radius s = r /\ cluster_age s = g.
Proof.
  intros Hid Hr Hg Hp Hex Hin Hno.
  unfold __init__, input, print, emit, get_world.
  unfold mbind, mret, ST_bind, ST_ret, raise, lift.
  rewrite Hid, Hr, Hg, Hp, Hex. simpl. rewrite Hin. simpl. rewrite Hno. simpl.
  destruct (arg_no_lk_cache a); simpl.
  - eexists. split; [rewrite <- app_assoc; reflexivity|]. split; reflexivity.
  - eexists. split; [rewrite <- app_assoc; reflexivity|]. split; [reflexivity|].
    eexists. repeat split.
Qed.
End ConstructorProperties.

Section FreshObject.
Variable TPF : Type.
Variable download : nat -> option TPF.
Variable TESSCutLightcurve : option TPF -> Adapter.
Variable lstsq : list coefficients -> list Q -> outcome coefficients.
Variable to_deg : Q -> string -> outcome Q.
Variable to_log10_yr : Q -> string -> outcome Q.

(** X14: [get_lcs] on an object straight from the constructor raises
    [AttributeError] and does nothing: [sectors_available] is an attribute
    that only the search assigns. *)
Theorem get_lcs_on_fresh_object (a : InitArgs) (w w' : World) (s : EnsembleLC) :
  __init__ to_deg to_log10_yr a w = (w', Val s) ->
  get_lcs TPF download TESSCutLightcurve lstsq {| self := s; world := w' |}
    = ({| self := s; world := w' |}, Raise AttributeError).
Proof.
  intros Hrun.
  destruct (init_fresh to_deg to_log10_yr a w w' s Hrun) as (_ & _ & Hn & _).
  apply get_lcs_without_search. exact Hn.
Qed.
End FreshObject.

(** ** Reloading *)

Lemma hdus_simple_corrected (path : string) (hdul : HDUList) (st : State) (k j : nat) :
  files (world st) !! path = Some hdul -> j + k = length (tables hdul) ->
  hdus (map (fun hdu_ind => Some (SimpleCorrected path hdu_ind)) (seq (S j) k)) st
    = (st, Val (drop j (tables hdul))).
Proof.
  destruct st as [s w]. cbn [world]. intros Hf. revert j.
  induction k as [|k IH]; intros j Hlen.
  - simpl. rewrite drop_ge by lia. reflexivity.
  - destruct (lookup_lt_is_Some_2 (tables hdul) j ltac:(lia)) as [t Ht].
    cbn [seq map hdus lc_hdu]. unfold mbind, ST_bind, in_world, Table_read.
    cbn [world self]. rewrite Hf, Ht. rewrite (IH (S j)) by lia.
    rewrite (drop_S _ _ _ Ht). reflexivity.
Qed.

Section Reload.
Variable TPF : Type.
Variable search_tesscut : option string -> nat.
Variable download : nat -> option TPF.
Variable TESSCutLightcurve : option TPF -> Adapter.
Variable lstsq : list coefficients -> list Q -> outcome coefficients.
Variable to_deg : Q -> string -> outcome Q.
Variable to_log10_yr : Q -> string -> outcome Q.

(** Running [from_fits]: it leaves the world as it is, and when it
    returns, the file was there, the cache of lightkurve is not avoided,
    and the object is put together from the ten header values that were
    read, the remaining arguments, and one slot for each table. *)
Lemma wp_from_fits (filepath : string) (kwargs : InitArgs) (w : World)
    (Q : World -> outcome EnsembleLC -> Prop) :
  (forall e, Q w (Raise e)) ->
  (forall hdul name loc rad age n good failed edge scattered,
     files w !! filepath = Some hdul -> arg_no_lk_cache kwargs = false ->
     header_get (primary hdul) "Name" ≫= as_opt_str = Val name ->
     header_get (primary hdul) "Location" ≫= as_opt_str = Val loc ->
     header_get (primary hdul) "Radius [deg]" ≫= as_opt_float = Val rad ->
     header_get (primary hdul) "Log_Age" ≫= as_opt_float = Val age ->
     header_get (primary hdul) "n_obs_available" ≫= as_nat = Val n ->
     header_get (primary hdul) "n_good_obs" ≫= as_nat = Val good ->
     header_get (primary hdul) "n_failed_download" ≫= as_nat = Val failed ->
     header_get (primary hdul) "n_near_edge" ≫= as_nat = Val edge ->
     header_get (primary hdul) "n_scattered_light" ≫= as_nat = Val scattered ->
     Q w (Val {| save_lcs := false; save_figures := false;
                 lcs := map (fun hdu_ind => Some (SimpleCorrected filepath hdu_ind))
                            (seq 1 (length (tables hdul)));
                 output_path := None; radius := rad; cluster_age := age;
                 callable := match name with
                             | Some c => Some c
                             | None => loc
                             end;
                 cluster_name := name; location := loc;
                 percentile := arg_percentile kwargs;
                 cutout_size := arg_cutout_size kwargs;
                 scattered_light_frequency := arg_scattered_light_frequency kwargs;
                 n_pca := arg_n_pca kwargs; verbose := arg_verbose kwargs;
                 no_lk_cache := false; debug := arg_debug kwargs;
                 n_failed_download := failed; n_near_edge := edge;
                 n_scattered_light := scattered; n_good_obs := good;
                 sectors_available := Some n; tess_search_results := None |})) ->
  wp (from_fits to_deg to_log10_yr filepath kwargs) w Q.
Proof.
  intros He Hv. unfold from_fits. apply wp_bind. unfold wp at 1.
  destruct (__init__ to_deg to_log10_yr _ w) as [w0 r0] eqn:Hinit.
  unfold __init__ in Hinit.
  unfold mbind, mret, ST_bind, ST_ret, raise, lift, get_world in Hinit.
  simpl in Hinit.
  destruct (arg_no_lk_cache kwargs) eqn:Hno; simpl in Hinit; injection Hinit as <- <-;
    cbn [fst snd]; [apply He|].
  apply wp_bind. unfold wp at 1, fits_open.
  destruct (files w !! filepath) as [hdul|] eqn:Hf; cbn [fst snd]; [|apply He].
  cbv zeta.
  repeat (apply wp_bind, wp_lift;
          lazymatch goal with
          | |- match ?o with _ => _ end => destruct o eqn:?; [|apply He]
          end).
  apply wp_ret. eapply Hv; first [eassumption|reflexivity].
Qed.

(** X15: [from_fits] never changes the world: it creates, writes and
    prints nothing and reads no input, whatever the file and the
    arguments, and however it ends. *)
Theorem from_fits_world_unchanged (filepath : string) (kwargs : InitArgs) (w : World) :
  wp (from_fits to_deg to_log10_yr filepath kwargs) w (fun w' _ => w' = w).
Proof. apply wp_from_fits; reflexivity. Qed.

(** X16: the object that [from_fits] returns: name, location, radius, age,
    number of candidates and the four counters are the values read under
    the keywords [Name], [Location], [Radius [deg]], [Log_Age],
    [n_obs_available], [n_good_obs], [n_failed_download], [n_near_edge] and
    [n_scattered_light]; the identifier is the name, else the location;
    there is one slot for each table of the file, slot [j] standing for
    HDU [j + 1]; and it has no output location, no save flag and no
    search results. *)
Theorem from_fits_rebuilds (filepath : string) (kwargs : InitArgs) (w w' : World)
    (s : EnsembleLC) :
  from_fits to_deg to_log10_yr filepath kwargs w = (w', Val s) ->
  exists hdul n,
    files w !! filepath = Some hdul /\
    header_get (primary hdul) "Name" ≫= as_opt_str = Val (cluster_name s) /\
    header_get (primary hdul) "Location" ≫= as_opt_str = Val (location s) /\
    header_get (primary hdul) "Radius [deg]" ≫= as_opt_float = Val (radius s) /\
    header_get (primary hdul) "Log_Age" ≫= as_opt_float = Val (cluster_age s) /\
    sectors_available s = Some n /\
    header_get (primary hdul) "n_obs_available" ≫= as_nat = Val n /\
    header_get (primary hdul) "n_good_obs" ≫= as_nat = Val (n_good_obs s) /\
    header_get (primary hdul) "n_failed_download" ≫= as_nat = Val (n_failed_download s) /\
    header_get (primary hdul) "n_near_edge" ≫= as_nat = Val (n_near_edge s) /\
    header_get (primary hdul) "n_scattered_light" ≫= as_nat = Val (n_scattered_light s) /\
    callable s = match cluster_name s with
                 | Some c => Some c
                 | None => location s
                 end /\
    lcs s = map (fun hdu_ind => Some (SimpleCorrected filepath hdu_ind))
              (seq 1 (length (tables hdul))) /\
    output_path s = None /\ save_lcs s = false /\ save_figures s = false /\
    tess_search_results s = None.
Proof.
  intros Hrun.
  cut (wp (from_fits to_deg to_log10_yr filepath kwargs) w
         (fun _ r => forall s, r = Val s ->
            exists hdul n,
              files w !! filepath = Some hdul /\
              header_get (primary hdul) "Name" ≫= as_opt_str = Val (cluster_name s) /\
              header_get (primary hdul) "Location" ≫= as_opt_str = Val (location s) /\
              header_get (primary hdul) "Radius [deg]" ≫= as_opt_float = Val (radius s) /\
              header_get (primary hdul) "Log_Age" ≫= as_opt_float = Val (cluster_age s) /\
              sectors_available s = Some n /\
              header_get (primary hdul) "n_obs_available" ≫= as_nat = Val n /\
              header_get (primary hdul) "n_good_obs" ≫= as_nat = Val (n_good_obs s) /\
              header_get (primary hdul) "n_failed_download" ≫= as_nat
                = Val (n_failed_download s) /\
              header_get (primary hdul) "n_near_edge" ≫= as_nat = Val (n_near_edge s) /\
              header_get (primary hdul) "n_scattered_light" ≫= as_nat
                = Val (n_scattered_light s) /\
              callable s = match cluster_name s with
                           | Some c => Some c
                           | None => location s
                           end /\
              lcs s = map (fun hdu_ind => Some (SimpleCorrected filepath hdu_ind))
                        (seq 1 (length (tables hdul))) /\
              output_path s = None /\ save_lcs s = false /\ save_figures s = false /\
              tess_search_results s = None)).
  { unfold wp. rewrite Hrun. simpl. auto. }
  apply wp_from_fits; [discriminate|].
  intros hdul name loc rad age n good failed edge scattered Hf _ H1 H2 H3 H4 H5 H6 H7 H8 H9.
  intros s' [= <-]. exists hdul, n. simpl. repeat split; assumption.
Qed.

(** X17: the slots of a reloaded object, read in their order, give back
    the tables of the file in their order. *)
Theorem reloaded_slots_read_back (filepath : string) (kwargs : InitArgs) (w w' : World)
    (s : EnsembleLC) :
  from_fits to_deg to_log10_yr filepath kwargs w = (w', Val s) ->
  exists hdul,
    files w' !! filepath = Some hdul /\
    hdus (lcs s) {| self := s; world := w' |}
      = ({| self := s; world := w' |}, Val (tables hdul)).
Proof.
  intros Hrun.
  cut (wp (from_fits to_deg to_log10_yr filepath kwargs) w
         (fun w' r => forall s, r = Val s ->
            exists hdul,
              files w' !! filepath = Some hdul /\
              hdus (lcs s) {| self := s; world := w' |}
                = ({| self := s; world := w' |}, Val (tables hdul)))).
  { unfold wp. rewrite Hrun. simpl. auto. }
  apply wp_from_fits; [discriminate|].
  intros hdul name loc rad age n good failed edge scattered Hf _ _ _ _ _ _ _ _ _ _.
  intros s' [= <-]. exists hdul. split; [exact Hf|]. cbn [lcs].
  apply (hdus_simple_corrected filepath hdul _ (length (tables hdul)) 0); [exact Hf|lia].
Qed.

(** X18: with [no_lk_cache=True] among the arguments, [from_fits] raises
    [TypeError] before it opens the file: the constructor it calls with
    [output_path=None] joins the cache folder to [None]. *)
Theorem from_fits_no_lk_cache (filepath : string) (kwargs : InitArgs) (w : World) :
  arg_no_lk_cache kwargs = true ->
  from_fits to_deg to_log10_yr filepath kwargs w = (w, Raise TypeError).
Proof.
  intros Hno. unfold from_fits, __init__.
  unfold mbind, mret, ST_bind, ST_ret, raise, lift, get_world. simpl.
  rewrite Hno. reflexivity.
Qed.

(** X19: on a reloaded object the three operations that name the artifact
    raise [TypeError] and do nothing: it has no output location, and none
    of them checks for that before joining the path. *)
Theorem reloaded_object_has_no_artifact (filepath : string) (kwargs : InitArgs)
    (w w' : World) (s : EnsembleLC) (observation : nat) :
  from_fits to_deg to_log10_yr filepath kwargs w = (w', Val s) ->
  previously_downloaded {| self := s; world := w' |}
    = ({| self := s; world := w' |}, Raise TypeError) /\
  lightcurves_summary_file TPF search_tesscut download TESSCutLightcurve lstsq
    {| self := s; world := w' |} = ({| self := s; world := w' |}, Raise TypeError) /\
  access_lightcurve observation {| self := s; world := w' |}
    = ({| self := s; world := w' |}, Raise TypeError).
Proof.
  intros Hrun.
  assert (output_path s = None) as Hp.
  { cut (wp (from_fits to_deg to_log10_yr filepath kwargs) w
           (fun _ r => forall s, r = Val s -> output_path s = None)).
    { unfold wp. rewrite Hrun. simpl. auto. }
    apply wp_from_fits; [discriminate|].
    intros hdul name loc rad age n good failed edge scattered _ _ _ _ _ _ _ _ _ _ _.
    intros s' [= <-]. reflexivity. }
  unfold previously_downloaded, lightcurves_summary_file, access_lightcurve.
  unfold mbind, mret, ST_bind, ST_ret, get_self, raise, lift. simpl. rewrite Hp.
  repeat split. destruct (callable s); reflexivity.
Qed.
End Reload.

Lemma init_save_flags_witness :
  (forall p, output_path Fixture.ecl = Some p ->
     arg_output_path Fixture.args = Some p /\ path_exists Fixture.disk p = true) /\
  (save_lcs Fixture.ecl = true ->
     exists p, output_path Fixture.ecl = Some p /\
       path_exists Fixture.disk (foldl join_component p ["Corrected_LCs"]) = true) /\
  (save_figures Fixture.ecl = true ->
     exists p, output_path Fixture.ecl = Some p /\
       path_exists Fixture.disk
         (foldl join_component p [foldl join_component "Figures" ["LCs"]]) = true) /\
  (no_lk_cache Fixture.ecl = true ->
     exists p, output_path Fixture.ecl = Some p /\
       path_exists Fixture.disk (foldl join_component p ["cache"]) = true).
Proof.
  apply (init_save_flags Fixture.to_deg Fixture.to_log10_yr Fixture.args Fixture.disk
           Fixture.disk Fixture.ecl).
  vm_compute. reflexivity.
Defined.

Lemma init_declined_output_folder_witness :
  let w := set_stdin ["n"] (set_dirs ∅ Fixture.disk) in
  exists new,
    (__init__ Fixture.to_deg Fixture.to_log10_yr Fixture.args w).1
      = set_trace (trace w ++ new) (set_stdin [] w) /\
    actions_of new
      = [Input "  Would you like me to create it for you? (If not then no files will be saved) [Y/n]"] /\
    if arg_no_lk_cache Fixture.args
    then (__init__ Fixture.to_deg Fixture.to_log10_yr Fixture.args w).2 = Raise TypeError
    else exists s,
           (__init__ Fixture.to_deg Fixture.to_log10_yr Fixture.args w).2 = Val s /\
           output_path s = None /\ save_lcs s = false /\ save_figures s = false /\
           radius s = Some (1 # 2)%Q /\ cluster_age s = Some 8%Q.
Proof.
  intros w.
  apply (init_declined_output_folder Fixture.to_deg Fixture.to_log10_yr Fixture.args w
           "out" "n" [] (Some (1 # 2)%Q) (Some 8%Q)); reflexivity.
Defined.

Lemma get_lcs_on_fresh_object_witness :
  get_lcs nat Fixture.download Fixture.TESSCutLightcurve Fixture.lstsq
    {| self := Fixture.ecl; world := Fixture.disk |}
    = ({| self := Fixture.ecl; world := Fixture.disk |}, Raise AttributeError).
Proof.
  apply (get_lcs_on_fresh_object nat Fixture.download Fixture.TESSCutLightcurve
           Fixture.lstsq Fixture.to_deg Fixture.to_log10_yr Fixture.args Fixture.disk
           Fixture.disk Fixture.ecl).
  vm_compute. reflexivity.
Defined.

Lemma from_fits_rebuilds_witness :
  exists hdul n,
    files Archive.disk !! "saved.fits" = Some hdul /\
    header_get (primary hdul) "Name" ≫= as_opt_str = Val (cluster_name Archive.reloaded) /\
    header_get (primary hdul) "Location" ≫= as_opt_str = Val (location Archive.reloaded) /\
    header_get (primary hdul) "Radius [deg]" ≫= as_opt_float
      = Val (radius Archive.reloaded) /\
    header_get (primary hdul) "Log_Age" ≫= as_opt_float
      = Val (cluster_age Archive.reloaded) /\
    sectors_available Archive.reloaded = Some n /\
    header_get (primary hdul) "n_obs_available" ≫= as_nat = Val n /\
    header_get (primary hdul) "n_good_obs" ≫= as_nat = Val (n_good_obs Archive.reloaded) /\
    header_get (primary hdul) "n_failed_download" ≫= as_nat
      = Val (n_failed_download Archive.reloaded) /\
    header_get (primary hdul) "n_near_edge" ≫= as_nat
      = Val (n_near_edge Archive.reloaded) /\
    header_get (primary hdul) "n_scattered_light" ≫= as_nat
      = Val (n_scattered_light Archive.reloaded) /\
    callable Archive.reloaded = match cluster_name Archive.reloaded with
                                | Some c => Some c
                                | None => location Archive.reloaded
                                end /\
    lcs Archive.reloaded = map (fun hdu_ind => Some (SimpleCorrected "saved.fits" hdu_ind))
                             (seq 1 (length (tables hdul))) /\
    output_path Archive.reloaded = None /\ save_lcs Archive.reloaded = false /\
    save_figures Archive.reloaded = false /\ tess_search_results Archive.reloaded = None.
Proof.
  apply (from_fits_rebuilds Fixture.to_deg Fixture.to_log10_yr "saved.fits" Fixture.args
           Archive.disk Archive.disk Archive.reloaded).
  vm_compute. reflexivity.
Defined.

Lemma reloaded_slots_read_back_witness :
  exists hdul,
    files Archive.disk !! "saved.fits" = Some hdul /\
    hdus (lcs Archive.reloaded) {| self := Archive.reloaded; world := Archive.disk |}
      = ({| self := Archive.reloaded; world := Archive.disk |}, Val (tables hdul)).
Proof.
  apply (reloaded_slots_read_back Fixture.to_deg Fixture.to_log10_yr "saved.fits"
           Fixture.args Archive.disk Archive.disk Archive.reloaded).
  vm_compute. reflexivity.
Defined.

Lemma from_fits_no_lk_cache_witness :
  from_fits Fixture.to_deg Fixture.to_log10_yr "saved.fits"
    {| arg_radius := Bare None; arg_cluster_age := Bare None; arg_output_path := None;
       arg_cluster_name := None; arg_location := None; arg_percentile := 80;
       arg_cutout_size := 2; arg_scattered_light_frequency := 5; arg_n_pca := 6;
       arg_verbose := false; arg_no_lk_cache := true; arg_debug := false |}
    Archive.disk
    = (Archive.disk, Raise TypeError).
Proof.
  apply (from_fits_no_lk_cache Fixture.to_deg Fixture.to_log10_yr "saved.fits" _
           Archive.disk).
  reflexivity.
Defined.

Lemma reloaded_object_has_no_artifact_witness :
  previously_downloaded {| self := Archive.reloaded; world := Archive.disk |}
    = ({| self := Archive.reloaded; world := Archive.disk |}, Raise TypeError) /\
  lightcurves_summary_file nat Fixture.search_tesscut Fixture.download
    Fixture.TESSCutLightcurve Fixture.lstsq
    {| self := Archive.reloaded; world := Archive.disk |}
    = ({| self := Archive.reloaded; world := Archive.disk |}, Raise TypeError) /\
  access_lightcurve 0 {| self := Archive.reloaded; world := Archive.disk |}
    = ({| self := Archive.reloaded; world := Archive.disk |}, Raise TypeError).
Proof.
  apply (reloaded_object_has_no_artifact nat Fixture.search_tesscut Fixture.download
           Fixture.TESSCutLightcurve Fixture.lstsq Fixture.to_deg Fixture.to_log10_yr
           "saved.fits" Fixture.args Archive.disk Archive.disk Archive.reloaded 0).
  vm_compute. reflexivity.
Defined.

(** ** Reading a saved lightcurve *)

Lemma in_world_Table_read (path : string) (k : nat) (st : State) (hdul : HDUList)
    (t : Table) :
  files (world st) !! path = Some hdul -> tables hdul !! k = Some t ->
  in_world (Table_read path (S k)) st = (st, Val t).
Proof.
  destruct st as [s w]. unfold in_world, Table_read. cbn [self world].
  intros -> ->. reflexivity.
Qed.

(** X20: [access_lightcurve] reads only: however it ends, the object, the
    files, the folders and the input are as before, and the trace was
    only extended. *)
Theorem access_lightcurve_read_only (st : State) (observation : nat) :
  wp (access_lightcurve observation) st
    (fun st' _ => self st' = self st /\ same_disk (world st) (world st') /\
                  trace (world st) `prefix_of` trace (world st')).
Proof.
  assert (forall t : list event,
            self {| self := self st; world := set_trace (trace (world st) ++ t) (world st) |}
              = self st /\
            same_disk (world st)
              (world {| self := self st;
                        world := set_trace (trace (world st) ++ t) (world st) |}) /\
            trace (world st) `prefix_of`
              trace (world {| self := self st;
                              world := set_trace (trace (world st) ++ t) (world st) |}))
    as Hdone.
  { intros t. split; [reflexivity|]. split; [apply same_disk_set_trace|].
    apply prefix_app_r. reflexivity. }
  assert (self st = self st /\ same_disk (world st) (world st) /\
          trace (world st) `prefix_of` trace (world st)) as Hnow.
  { split; [reflexivity|]. split; [apply same_disk_refl|reflexivity]. }
  unfold access_lightcurve, print.
  apply wp_bind, wp_get_self.
  destruct (callable (self st)); [apply wp_bind, wp_ret|apply wp_bind, wp_raise; exact Hnow].
  apply wp_bind, wp_lift.
  destruct (path_join _ _) as [path|e]; [|exact Hnow].
  apply wp_bind, wp_in_world_get.
  destruct (path_exists (world st) path); cbn [negb].
  2:{ apply wp_bind, wp_emit, wp_ret. apply Hdone. }
  apply wp_bind, wp_Table_read; [intros output_table _|intros; exact Hnow].
  apply wp_bind, wp_lift. destruct (column output_table _) as [n_good|e]; [|exact Hnow].
  apply wp_bind, wp_lift. destruct (column_equals n_good 1) as [single|e]; [|exact Hnow].
  apply wp_bind.
  destruct single;
    (apply wp_Table_read; [intros lct _|intros; exact Hnow]);
    (apply wp_bind, wp_lift; destruct (column lct "flux") as [flux|e]; [|exact Hnow]);
    (apply wp_bind, wp_lift; destruct (py_max flux) as [hi|e]; [|exact Hnow]);
    (apply wp_bind, wp_lift; destruct (py_min flux) as [lo|e]; [|exact Hnow]);
    cbv zeta; apply wp_bind, wp_emit; cbn [self world];
    (apply wp_bind, wp_lift; destruct (column lct "time") as [time|e];
       [|apply (Hdone [_])]);
    apply wp_bind;
    (destruct time; [apply wp_raise; apply (Hdone [_])|apply wp_ret]);
    apply wp_bind, wp_emit, wp_bind, wp_emit, wp_ret; cbn [self world set_trace trace];
    (split; [reflexivity|]; split; [repeat split|]);
    rewrite <- !app_assoc; apply prefix_app_r; reflexivity.
Qed.

(** X21: with the artifact in the layout the function reads (a table with
    the single-valued column [n_good_obs] in HDU [1], lightcurves after
    it), [access_lightcurve observation] returns the table of HDU [2]
    when that value is [1] and of HDU [observation + 2] otherwise, with a
    figure titled after the observation, which it shows and closes; the
    object stays as it is. *)
Theorem access_lightcurve_returns (st : State) (observation : nat) (p c path : string)
    (hdul : HDUList) (summary t : Table) (g : Q) (flux time : list Q) :
  output_path (self st) = Some p -> callable (self st) = Some c ->
  path_join (Some p) ["Corrected_LCs"; c +:+ "output_table.fits"] = Val path ->
  files (world st) !! path = Some hdul ->
  tables hdul !! 0 = Some summary -> column summary "n_good_obs" = Val [g] ->
  tables hdul !! (if Qeqb g 1 then 1 else observation + 1) = Some t ->
  column t "flux" = Val flux -> flux <> [] ->
  column t "time" = Val time -> time <> [] ->
  access_lightcurve observation st =
    ({| self := self st;
        world := set_trace (trace (world st)
                            ++ [Figure ("Observation: " +:+ pretty observation);
                                ShowFig; CloseFig]) (world st) |},
     Val (Some (Fig ("Observation: " +:+ pretty observation)), Some t)).
Proof.
  intros Hp Hc Hpath Hf Hsum Hg Ht Hflux Hfne Htime Htne.
  cut (wp (access_lightcurve observation) st
         (fun st' r =>
            (st', r) =
            ({| self := self st;
                world := set_trace (trace (world st)
                                    ++ [Figure ("Observation: " +:+ pretty observation);
                                        ShowFig; CloseFig]) (world st) |},
             Val (Some (Fig ("Observation: " +:+ pretty observation)), Some t)))).
  { unfold wp. destruct (access_lightcurve observation st) as [st' r]. intros H; exact H. }
  unfold access_lightcurve.
  apply wp_bind, wp_get_self. rewrite Hc, Hp.
  apply wp_bind, wp_ret, wp_bind, wp_lift. rewrite Hpath.
  apply wp_bind, wp_in_world_get. rewrite (path_exists_file _ _ _ Hf). cbn [negb].
  apply wp_bind. unfold wp at 1. rewrite (in_world_Table_read path 0 st hdul summary Hf Hsum).
  cbn [fst snd].
  apply wp_bind, wp_lift. rewrite Hg.
  apply wp_bind, wp_lift. cbn [column_equals].
  apply wp_bind. unfold wp at 1.
  assert ((if Qeqb g 1 then in_world (Table_read path 2)
           else in_world (Table_read path (observation + 2))) st = (st, Val t)) as ->.
  { replace (observation + 2) with (S (observation + 1)) by lia.
    destruct (Qeqb g 1); apply (in_world_Table_read path _ st hdul t Hf Ht). }
  cbn [fst snd].
  apply wp_bind, wp_lift. rewrite Hflux.
  destruct flux as [|f0 flux]; [congruence|]. destruct time as [|t0 time]; [congruence|].
  apply wp_bind, wp_lift. cbn [py_max].
  apply wp_bind, wp_lift. cbn [py_min]. cbv zeta.
  apply wp_bind, wp_emit, wp_bind, wp_lift. rewrite Htime.
  apply wp_bind, wp_ret, wp_bind, wp_emit, wp_bind, wp_emit, wp_ret.
  cbn [self world set_trace trace files dirs stdin]. rewrite <- !app_assoc. reflexivity.
Qed.

Lemma access_lightcurve_missing_artifact_witness :
  exists warning,
    access_lightcurve 0 {| self := Fixture.ecl; world := Fixture.disk |} =
    ({| self := Fixture.ecl;
        world := set_trace (trace Fixture.disk ++ [Print warning]) Fixture.disk |},
     Val (None, None)).
Proof.
  apply (access_lightcurve_missing_artifact
           {| self := Fixture.ecl; world := Fixture.disk |} 0 "out" "M1"
           "out/Corrected_LCs/M1output_table.fits"); reflexivity.
Defined.

Lemma access_lightcurve_returns_witness :
  access_lightcurve 1 {| self := Fixture.ecl; world := Archive.expected_disk |} =
    ({| self := Fixture.ecl;
        world := set_trace (trace Archive.expected_disk
                            ++ [Figure ("Observation: " +:+ pretty 1); ShowFig; CloseFig])
                   Archive.expected_disk |},
     Val (Some (Fig ("Observation: " +:+ pretty 1)), Some (adapter_hdu Fixture.at_edge))).
Proof.
  apply (access_lightcurve_returns
           {| self := Fixture.ecl; world := Archive.expected_disk |} 1 "out" "M1"
           "out/Corrected_LCs/M1output_table.fits"
           {| primary := summary_header Archive.saved 3;
              tables := [Archive.summary_table; adapter_hdu Fixture.passing;
                         adapter_hdu Fixture.at_edge] |}
           Archive.summary_table (adapter_hdu Fixture.at_edge) 2%Q [10%Q] [0%Q]);
    try reflexivity; discriminate.
Defined.

(** ** What the detector samples *)

Lemma traverse_ext {A B} (f g : A -> outcome B) (l : list A) :
  (forall x, x ∈ l -> f x = g x) -> traverse f l = traverse g l.
Proof.
  induction l as [|x xs IH]; intros H; [reflexivity|].
  simpl. rewrite (H x) by left. rewrite IH; [reflexivity|].
  intros y Hy. apply H. right. exact Hy.
Qed.

Lemma arange_nothing (len : nat) (stride : Z) :
  stride <> 0%Z -> len = 0 \/ (stride < 0)%Z -> arange (Z.of_nat len) stride = Val [].
Proof.
  intros Hnz Hcase. unfold arange.
  destruct (Z.eqb_spec stride 0) as [->|_]; [congruence|].
  assert (0 <= - Z.of_nat len / stride)%Z as Hq.
  { destruct Hcase as [->|Hneg]; [simpl; rewrite Z.div_0_l by exact Hnz; lia|].
    rewrite <- Z.div_opp_opp by exact Hnz. rewrite Z.opp_involutive.
    apply Z.div_pos; lia. }
  replace (Z.to_nat (- (- Z.of_nat len / stride))) with 0 by lia. reflexivity.
Qed.

Lemma concat_lookup_uniform {A} (ls : list (list A)) (n r c : nat) :
  Forall (fun l => length l = n) ls -> c < n ->
  concat ls !! (r * n + c) = ls !! r ≫= (fun l => l !! c).
Proof.
  intros Hall Hc. revert r. induction Hall as [|l ls Hl Hall IH]; intros r.
  - reflexivity.
  - destruct r as [|r]; simpl.
    + rewrite lookup_app_l by lia. reflexivity.
    + rewrite lookup_app_r by lia. rewrite <- IH. f_equal. lia.
Qed.

Section DetectorSampling.
Variable lstsq : list coefficients -> list Q -> outcome coefficients.

(** X22: the detector looks at the sampled frames only: two stacks of the
    same length that agree on the frames at [0, stride, 2*stride, ...] get
    the same answer, whatever the frames in between are. *)
Theorem scattered_light_sampled_frames_only (debug : bool) (cutout_size stride : Z)
    (stack stack' : list frame) :
  (0 < stride)%Z -> length stack' = length stack ->
  (forall t, sampled (length stack) stride t -> stack' !! t = stack !! t) ->
  scattered_light lstsq debug cutout_size stride stack'
    = scattered_light lstsq debug cutout_size stride stack.
Proof.
  intros Hs Hlen Hagree. unfold scattered_light. destruct debug; [reflexivity|].
  rewrite Hlen.
  destruct (arange_sampled (length stack) stride Hs) as (ts & -> & Hmem).
  unfold mbind at 1 5, outcome_bind.
  rewrite (traverse_ext (fit_plane lstsq cutout_size stack')
             (fit_plane lstsq cutout_size stack)); [reflexivity|].
  intros t Ht. pose proof (Hagree t (proj1 (Hmem t) Ht)) as E.
  unfold fit_plane, frame in *. rewrite E. reflexivity.
Qed.

(** X23: when nothing is sampled, because the stack is empty or the
    stride is negative, the detector raises [ValueError]: the maximum of
    no coefficient is taken. *)
Theorem scattered_light_nothing_sampled (cutout_size stride : Z) (stack : list frame) :
  stride <> 0%Z -> stack = [] \/ (stride < 0)%Z ->
  scattered_light lstsq false cutout_size stride stack = Raise ValueError.
Proof.
  intros Hnz Hcase. unfold scattered_light.
  rewrite arange_nothing; [reflexivity|exact Hnz|].
  destruct Hcase as [->|Hneg]; [left; reflexivity|right; exact Hneg].
Qed.

(** X24: the equations given to the solver pair every pixel with its
    coordinates: for a frame of [n] rows of [n] pixels, equation
    [r * n + c] has the row [(c, r, 1)] of the design matrix, x being
    the column and y the row, and the value of pixel [(r, c)] as its
    right-hand side; there are [n * n] equations. *)
Theorem design_matrix_pairs_pixels (n r c : nat) (data : frame) (row : list Q) (z : Q) :
  length data = n -> Forall (fun l => length l = n) data ->
  data !! r = Some row -> row !! c = Some z ->
  design_matrix (Z.of_nat n) !! (r * n + c)
    = Some (inject_Z (Z.of_nat c), inject_Z (Z.of_nat r), 1%Q) /\
  concat data !! (r * n + c) = Some z /\
  length (design_matrix (Z.of_nat n)) = n * n /\
  length (concat data) = n * n.
Proof.
  unfold frame in *. intros Hlen Hall Hrow Hz.
  assert (r < n) as Hr by (rewrite <- Hlen; eapply lookup_lt_Some; eassumption).
  assert (c < n) as Hc.
  { rewrite Forall_lookup in Hall. rewrite <- (Hall r row Hrow).
    eapply lookup_lt_Some; eassumption. }
  unfold design_matrix, meshgrid_XX, meshgrid_YY. cbv zeta. rewrite Nat2Z.id.
  rewrite !flat_map_concat_map.
  assert (Forall (fun l : list Q => length l = n)
            (map (fun _ : nat => map (fun c0 => inject_Z (Z.of_nat c0)) (seq 0 n)) (seq 0 n)))
    as HX.
  { apply Forall_forall. intros l Hl. apply list_elem_of_fmap in Hl as (k & -> & _).
    rewrite length_map, length_seq. reflexivity. }
  assert (Forall (fun l : list Q => length l = n)
            (map (fun r0 : nat => replicate n (inject_Z (Z.of_nat r0))) (seq 0 n))) as HY.
  { apply Forall_forall. intros l Hl. apply list_elem_of_fmap in Hl as (k & -> & _).
    apply length_replicate. }
  assert (forall (ls : list (list Q)), Forall (fun l => length l = n) ls ->
            length (concat ls) = length ls * n) as Hcount.
  { intros ls H. induction H as [|l ls Hl H IH]; [reflexivity|].
    simpl. rewrite length_app, IH, Hl. reflexivity. }
  split; [|split; [|split]].
  - rewrite lookup_zip_with.
    rewrite (concat_lookup_uniform _ n r c HX Hc), (concat_lookup_uniform _ n r c HY Hc).
    rewrite !list_lookup_fmap, !lookup_seq_lt by exact Hr. simpl.
    rewrite list_lookup_fmap, lookup_seq_lt by exact Hc.
    rewrite lookup_replicate_2 by exact Hc. reflexivity.
  - rewrite (concat_lookup_uniform _ n r c Hall Hc), Hrow. exact Hz.
  - rewrite length_zip_with, !Hcount by assumption.
    rewrite !length_map, !length_seq. lia.
  - rewrite Hcount by exact Hall. rewrite Hlen. reflexivity.
Qed.
End DetectorSampling.

Lemma scattered_light_sampled_frames_only_witness :
  scattered_light Fixture.lstsq false 2 5 [Fixture.flat; Frames.tilted; Frames.tilted]
    = scattered_light Fixture.lstsq false 2 5 [Fixture.flat; Fixture.flat; Fixture.flat].
Proof.
  apply (scattered_light_sampled_frames_only Fixture.lstsq false 2 5
           [Fixture.flat; Fixture.flat; Fixture.flat]
           [Fixture.flat; Frames.tilted; Frames.tilted]).
  - lia.
  - reflexivity.
  - intros t [Hlt (k & Hk)]. simpl in Hlt.
    assert (t = 0) as -> by lia. reflexivity.
Defined.

Lemma scattered_light_nothing_sampled_witness :
  scattered_light Fixture.lstsq false 2 (-5) [Fixture.flat; Fixture.flat; Fixture.flat]
    = Raise ValueError.
Proof.
  apply (scattered_light_nothing_sampled Fixture.lstsq 2 (-5)
           [Fixture.flat; Fixture.flat; Fixture.flat]).
  - discriminate.
  - right. reflexivity.
Defined.

Lemma design_matrix_pairs_pixels_witness :
  design_matrix (Z.of_nat 2) !! (1 * 2 + 0)
    = Some (inject_Z (Z.of_nat 0), inject_Z (Z.of_nat 1), 1%Q) /\
  concat Frames.tilted !! (1 * 2 + 0) = Some 2%Q /\
  length (design_matrix (Z.of_nat 2)) = 2 * 2 /\
  length (concat Frames.tilted) = 2 * 2.
Proof.
  apply (design_matrix_pairs_pixels 2 1 0 Frames.tilted [2; 3]%Q 2%Q).
  - reflexivity.
  - repeat constructor.
  - reflexivity.
  - reflexivity.
Defined.

(** ** Saving after a loop that went through *)

Section SavingAfterLoop.
Variable TPF : Type.
Variable search_tesscut : option string -> nat.
Variable download : nat -> option TPF.
Variable TESSCutLightcurve : option TPF -> Adapter.
Variable lstsq : list coefficients -> list Q -> outcome coefficients.

End SavingAfterLoop.


(** ** The answers to the prompts *)

Lemma lower_ascii_y (c : Ascii.ascii) :
  lower_ascii c = "y"%char -> c = "y"%char \/ c = "Y"%char.
Proof.
  destruct c as [[] [] [] [] [] [] [] []]; vm_compute; intros H;
    first [discriminate H | left; reflexivity | right; reflexivity].
Qed.

(** X27: the answers that the two prompts of the constructor take for a
    yes are the empty line, [y] and [Y], and no other: [yes], for one, is
    a refusal. *)
Theorem accepted_answers (create_it : string) :
  accepted create_it = true <-> create_it = "" \/ create_it = "y" \/ create_it = "Y".
Proof.
  unfold accepted. rewrite orb_true_iff, !bool_decide_eq_true. split.
  - intros [->|H]; [left; reflexivity|right].
    destruct create_it as [|c [|c' rest]]; [discriminate H| |discriminate H].
    simpl in H. injection H as H. destruct (lower_ascii_y c H) as [->| ->]; auto.
  - intros [->|[->| ->]]; [left; reflexivity|right; reflexivity ..].
Qed.

(** ** The purge, run *)

(** X28: when the folder [<output_path>/cache/tesscut] exists and none of
    its entries named [*.fits] is a folder, [clear_cache] returns; after
    it every file that lay directly in that folder under a name ending
    in [.fits] is gone, every other file is as it was, and nothing else
    of the disk has changed. *)
Theorem clear_cache_removes_cubes (st : State) (dir : string) :
  path_join (output_path (self st)) ["cache"; "tesscut"] = Val dir ->
  purgeable (world st) dir ->
  exists w',
    clear_cache st = ({| self := self st; world := w' |}, Val tt) /\
    trace w' = trace (world st) ++ [ClearCache dir] /\
    dirs w' = dirs (world st) /\ stdin w' = stdin (world st) /\
    forall q, files w' !! q = if in_purge dir q then None else files (world st) !! q.
Proof.
  intros Hdir Hpurge.
  pose proof (clear_cache_effect st) as Heffect.
  pose proof (clear_cache_gone st dir Hdir Hpurge) as Hgone.
  unfold wp in *. destruct (clear_cache st) as [[s' w'] r]. cbn [fst snd self world] in *.
  destruct Heffect as (-> & Hd & Hi & Hf & Htr). destruct Hgone as [-> Hgone].
  exists w'. split; [reflexivity|].
  destruct Htr as [[_ [e He]]|(dir' & Hdir' & Htr)]; [discriminate He|].
  rewrite Hdir in Hdir'. injection Hdir' as <-.
  split; [exact Htr|]. split; [exact Hd|]. split; [exact Hi|].
  intros q. destruct (in_purge dir q) eqn:Hin; [apply Hgone, Hin|].
  destruct (Hf q) as [E|(_ & dir' & Hdir' & Hin')]; [exact E|].
  rewrite Hdir in Hdir'. injection Hdir' as <-. congruence.
Qed.

Lemma clear_cache_removes_cubes_witness :
  let st := {| self := Fixture.cached; world := Fixture.cache_disk |} in
  exists w',
    clear_cache st = ({| self := self st; world := w' |}, Val tt) /\
    trace w' = trace (world st) ++ [ClearCache "out/cache/tesscut"] /\
    dirs w' = dirs (world st) /\ stdin w' = stdin (world st) /\
    forall q, files w' !! q
              = if in_purge "out/cache/tesscut" q then None else files (world st) !! q.
Proof.
  intros st. apply (clear_cache_removes_cubes st "out/cache/tesscut").
  - reflexivity.
  - apply purgeable_check. vm_compute. reflexivity.
Defined.

(** X29: when the folder [<output_path>/cache/tesscut] does not exist,
    [clear_cache] raises the [OSError] of the listing
    ([FileNotFoundError]) and changes nothing. *)
Theorem clear_cache_without_folder (st : State) (dir : string) :
  path_join (output_path (self st)) ["cache"; "tesscut"] = Val dir ->
  dir ∉ dirs (world st) ->
  clear_cache st = (st, Raise OSError).
Proof.
  intros Hdir Hout. unfold clear_cache.
  unfold mbind, ST_bind, get_self, lift, in_world, listdir. cbn [fst snd self].
  rewrite Hdir. rewrite bool_decide_eq_false_2 by exact Hout. destruct st; reflexivity.
Qed.

Lemma clear_cache_without_folder_witness :
  let st := {| self := Fixture.cached; world := Fixture.disk |} in
  clear_cache st = (st, Raise OSError).
Proof.
  intros st. apply (clear_cache_without_folder st "out/cache/tesscut").
  - reflexivity.
  - refine (proj1 (bool_decide_eq_false _) _). vm_compute. reflexivity.
Defined.

(** ** Saving without the folder of the artifact *)

Section SavingWithoutFolder.
Variable TPF : Type.
Variable search_tesscut : option string -> nat.
Variable download : nat -> option TPF.
Variable TESSCutLightcurve : option TPF -> Adapter.
Variable lstsq : list coefficients -> list Q -> outcome coefficients.

(** X30: when the folder that the artifact is to lie in does not exist
    (the subfolder [Corrected_LCs] was not made), a call on an object
    with an output location and no slot, whose search finds nothing,
    searches and then raises the [OSError] of [hdul.writeto]
    ([FileNotFoundError]): nothing is written, and the flag
    [save["lcs"]] is not asked. *)
Theorem save_without_folder (st : State) (path : string) :
  path_join (output_path (self st))
    ["Corrected_LCs/"; str (callable (self st)) +:+ "output_table.fits"] = Val path ->
  path_exists (world st) path = false ->
  isdir (world st) (dirname path) = false ->
  search_tesscut (callable (self st)) = 0 ->
  lcs (self st) = [] ->
  exists new,
    lightcurves_summary_file TPF search_tesscut download TESSCutLightcurve lstsq st =
      ({| self := set_sectors_available (Some 0)
                    (set_tess_search_results (Some 0) (self st));
          world := set_trace (trace (world st) ++ new) (world st) |},
       Raise OSError) /\
    actions_of new = [SearchTesscut (callable (self st))].
Proof.
  intros Hpath Hex Hfolder Hzero Hlcs.
  cut (wp (lightcurves_summary_file TPF search_tesscut download TESSCutLightcurve lstsq) st
         (fun st' r => exists new,
            (st', r) =
              ({| self := set_sectors_available (Some 0)
                            (set_tess_search_results (Some 0) (self st));
                  world := set_trace (trace (world st) ++ new) (world st) |},
               Raise OSError) /\
            actions_of new = [SearchTesscut (callable (self st))])).
  { unfold wp.
    destruct (lightcurves_summary_file _ _ _ _ _ st) as [st' r]. cbn [fst snd].
    intros H; exact H. }
  assert (exists p, output_path (self st) = Some p) as [p Hp].
  { destruct (output_path (self st)); [eauto|discriminate Hpath]. }
  unfold lightcurves_summary_file.
  apply wp_bind, wp_get_self, wp_bind, wp_lift. rewrite Hpath.
  apply wp_bind. unfold wp at 1.
  assert (previously_downloaded st = (st, Val false)) as ->.
  { unfold previously_downloaded.
    unfold mbind, mret, ST_bind, ST_ret, get_self, lift, in_world, get_world.
    simpl. rewrite Hpath. simpl. rewrite Hex. destruct st; reflexivity. }
  cbn [fst snd].
  apply wp_bind. unfold wp at 1.
  destruct (has_tess_data_run search_tesscut st) as (new1 & Hsearch & Hact1).
  rewrite Hsearch, Hzero. cbn [fst snd Nat.ltb Nat.leb].
  apply wp_bind, wp_ret, wp_bind, wp_get_self. cbn [self world].
  apply wp_bind, wp_attr_sectors_available; cbn [self world]; [|intros [=]].
  intros n [= <-]. cbv zeta.
  replace (lcs (set_sectors_available (Some 0) (set_tess_search_results (Some 0) (self st))))
    with (@nil (option lightcurve)) by (symmetry; exact Hlcs).
  cbn [hdus]. apply wp_bind, wp_ret.
  replace (output_path (set_sectors_available (Some 0)
                          (set_tess_search_results (Some 0) (self st))))
    with (Some p) by (symmetry; exact Hp).
  cbn [is_none negb].
  apply wp_bind. unfold wp at 1. unfold in_world, writeto. cbn [self world].
  assert (path_exists (set_trace (trace (world st) ++ new1) (world st)) path = false) as ->.
  { rewrite (path_exists_same_disk (world st)); [exact Hex|apply same_disk_set_trace]. }
  assert (isdir (set_trace (trace (world st) ++ new1) (world st)) (dirname path) = false)
    as -> by exact Hfolder.
  cbn [fst snd]. exists new1. split; [reflexivity|exact Hact1].
Qed.
End SavingWithoutFolder.

Lemma save_without_folder_witness :
  let made := __init__ Fixture.to_deg Fixture.to_log10_yr Fixture.args Fixture.bare_disk in
  exists s,
    made.2 = Val s /\ save_lcs s = false /\
    exists new,
      lightcurves_summary_file nat (fun _ => 0) Fixture.download Fixture.TESSCutLightcurve
        Fixture.lstsq {| self := s; world := made.1 |} =
        ({| self := set_sectors_available (Some 0) (set_tess_search_results (Some 0) s);
            world := set_trace (trace made.1 ++ new) made.1 |},
         Raise OSError) /\
      actions_of new = [SearchTesscut (callable s)].
Proof.
  intros made. eexists. split; [vm_compute; reflexivity|]. split; [reflexivity|].
  apply (save_without_folder nat (fun _ => 0) Fixture.download Fixture.TESSCutLightcurve
           Fixture.lstsq {| self := _; world := made.1 |}
           "out/Corrected_LCs/M1output_table.fits").
  - vm_compute. reflexivity.
  - vm_compute. reflexivity.
  - vm_compute. reflexivity.
  - reflexivity.
  - reflexivity.
Defined.

(** ** The conversion of flux to magnitude *)





